(** * ExcelToPpt: extraction of week tables from worksheets

    A shallow embedding of the table-locating and slicing functions of
    [Main.py] and of the stand-alone [DataFromSheetForSlideN.py] scripts,
    together with the control flow of the main workflow, and the properties
    proved about them.

    Conventions.
    - A Python [str] is a [string] whose characters are code points below 256.
    - A worksheet cell is a [cell]: text, an integer, or the missing value NaN;
      floating-point and date cells are outside the model.
    - A [DataFrame] carries its column labels and its rows; its row index is
      the default [RangeIndex], so the index label of a row is its position.
    - A Python call that may raise returns a [result]. *)

From Stdlib Require Import ZArith String Ascii List Lia.
From stdpp Require Import base option list strings gmap pretty.

Open Scope string_scope.
Open Scope Z_scope.

(** ** Exceptions *)

Inductive exn : Type :=
| IndexError
| KeyError
| ValueError
| TypeError
| AttributeError
| OSError
| ComError.

Inductive result (A : Type) : Type :=
| Ok (a : A)
| Raise (e : exn).
Arguments Ok {A} a.
Arguments Raise {A} e.

#[global] Instance result_ret : MRet result := fun _ a => Ok a.
#[global] Instance result_bind : MBind result := fun _ _ f m =>
  match m with
  | Ok a => f a
  | Raise e => Raise e
  end.

Definition of_option {A} (e : exn) (o : option A) : result A :=
  match o with
  | Some a => Ok a
  | None => Raise e
  end.

(** ** Python built-ins *)

Module Py.

(** [c.lower()] for one code point below 256: A-Z and the accented
    capitals 0xC0-0xDE (without the multiplication sign 0xD7) move up by 32. *)
Definition lower_char (a : ascii) : ascii :=
  let n := N_of_ascii a in
  if ((65 <=? n) && (n <=? 90))%N
     || ((192 <=? n) && (n <=? 214))%N
     || ((216 <=? n) && (n <=? 222))%N
  then ascii_of_N (n + 32)
  else a.

Fixpoint lower (s : string) : string :=
  match s with
  | EmptyString => EmptyString
  | String a t => String (lower_char a) (lower t)
  end.

(** [c.isspace()] for one code point below 256. *)
Definition isspace (a : ascii) : bool :=
  let n := N_of_ascii a in
  (((9 <=? n) && (n <=? 13)) || ((28 <=? n) && (n <=? 32))
   || (n =? 133) || (n =? 160))%N.

Fixpoint lstrip (s : string) : string :=
  match s with
  | EmptyString => EmptyString
  | String a t => if isspace a then lstrip t else s
  end.

Fixpoint rstrip (s : string) : string :=
  match s with
  | EmptyString => EmptyString
  | String a t =>
      let t' := rstrip t in
      if bool_decide (t' = EmptyString) && isspace a then EmptyString
      else String a t'
  end.

Definition strip (s : string) : string := rstrip (lstrip s).

(** [sub in s] on strings. *)
Fixpoint str_in (sub s : string) : bool :=
  String.prefix sub s ||
  match s with
  | EmptyString => false
  | String _ t => str_in sub t
  end.

(** A negative index counts from the end. *)
Definition norm_index (n i : Z) : Z := if i <? 0 then i + n else i.

(** [l[i]] with Python's negative indices. *)
Definition index {A} (l : list A) (i : Z) : result A :=
  let n := Z.of_nat (length l) in
  let j := norm_index n i in
  if (0 <=? j) && (j <? n) then of_option IndexError (l !! Z.to_nat j)
  else Raise IndexError.

(** The bound of a slice [l[a:b]] brought into [0 .. len(l)]. *)
Definition clamp (n : Z) (x : Z) : Z :=
  if x <? 0 then Z.max (x + n) 0 else Z.min x n.

(** [l[a:b]]. *)
Definition slice {A} (l : list A) (a b : Z) : list A :=
  let n := Z.of_nat (length l) in
  let lo := clamp n a in
  let hi := clamp n b in
  take (Z.to_nat (hi - lo)) (drop (Z.to_nat lo) l).

(** [l[-4:]]. *)
Definition last4 {A} (l : list A) : list A := drop (length l - 4)%nat l.

(** [l[1:]]. *)
Definition from1 {A} (l : list A) : list A := drop 1 l.

(** The white space that [int()] skips around a number. For text of code
    points below 256 it is the white space of [str.strip] without the
    separators 0x1C-0x1F. *)
Definition int_isspace (a : ascii) : bool :=
  let n := N_of_ascii a in
  (((9 <=? n) && (n <=? 13)) || (n =? 32) || (n =? 133) || (n =? 160))%N.

Fixpoint int_lstrip (s : string) : string :=
  match s with
  | EmptyString => EmptyString
  | String a t => if int_isspace a then int_lstrip t else s
  end.

Fixpoint int_rstrip (s : string) : string :=
  match s with
  | EmptyString => EmptyString
  | String a t =>
      let t' := int_rstrip t in
      if bool_decide (t' = EmptyString) && int_isspace a then EmptyString
      else String a t'
  end.

(** [int(s)] for text in base ten: surrounding white space, one optional
    sign, digits with single underscores between them. *)
Inductive int_state : Type := AtStart | AfterDigit | AfterUnderscore.

Fixpoint int_digits (st : int_state) (acc : Z) (s : string) : option Z :=
  match s with
  | EmptyString =>
      match st with AfterDigit => Some acc | _ => None end
  | String a t =>
      match Ascii.is_nat a with
      | Some d => int_digits AfterDigit (10 * acc + Z.of_nat d) t
      | None =>
          if bool_decide (a = "_"%char) then
            match st with
            | AfterDigit => int_digits AfterUnderscore acc t
            | _ => None
            end
          else None
      end
  end.

Definition int_of_str (s : string) : option Z :=
  match int_rstrip (int_lstrip s) with
  | String "+" t => int_digits AtStart 0 t
  | String "-" t => Z.opp <$> int_digits AtStart 0 t
  | t => int_digits AtStart 0 t
  end.

End Py.

(** ** Cells and frames *)

Inductive cell : Type :=
| CStr (s : string)
| CInt (z : Z)
| CNaN.

#[global] Instance cell_eq_dec : EqDecision cell.
Proof. solve_decision. Defined.

(** [str(c)]. *)
Definition str (c : cell) : string :=
  match c with
  | CStr s => s
  | CInt z => pretty z
  | CNaN => "nan"
  end.

(** [a == b] on cell values: NaN differs from everything, itself included,
    and text never equals a number. *)
Definition cell_eqb (a b : cell) : bool :=
  match a, b with
  | CStr s, CStr t => bool_decide (s = t)
  | CInt x, CInt y => bool_decide (x = y)
  | _, _ => false
  end.

(** [int(c)] on a cell value. *)
Definition cell_int (c : cell) : result Z :=
  match c with
  | CInt z => Ok z
  | CStr s => of_option ValueError (Py.int_of_str s)
  | CNaN => Raise ValueError
  end.

(** A column label: text from a header row, or a position when the sheet was
    read with [header=None]. *)
Inductive label : Type :=
| LStr (s : string)
| LInt (z : Z).

#[global] Instance label_eq_dec : EqDecision label.
Proof. solve_decision. Defined.

Record DataFrame : Type := {
  columns : list label;
  rows : list (list cell)
}.

(** Column labels are distinct and every row has one cell per column. *)
Definition wf (df : DataFrame) : Prop :=
  NoDup (columns df) ∧ Forall (fun r => length r = length (columns df)) (rows df).

#[global] Instance wf_dec df : Decision (wf df).
Proof. unfold wf. apply _. Defined.

(** ** A Python [dict]: insertion ordered, a repeated key keeps its place and
    takes the new value. *)

Fixpoint dict_set {K V} `{EqDecision K} (d : list (K * V)) (k : K) (v : V) : list (K * V) :=
  match d with
  | [] => [(k, v)]
  | (k', v') :: d' =>
      if decide (k' = k) then (k, v) :: d' else (k', v') :: dict_set d' k v
  end.

Fixpoint dict_get {K V} `{EqDecision K} (d : list (K * V)) (k : K) : option V :=
  match d with
  | [] => None
  | (k', v') :: d' => if decide (k' = k) then Some v' else dict_get d' k
  end.

(** [{k: v for k, v in kvs}]. *)
Definition dict_of {K V} `{EqDecision K} (kvs : list (K * V)) : list (K * V) :=
  foldl (fun d kv => dict_set d kv.1 kv.2) [] kvs.

(** ** pandas accessors *)

Module Pandas.

(** Position of a column label. *)
Fixpoint col_pos (cols : list label) (col : label) : option nat :=
  match cols with
  | [] => None
  | c :: cols' =>
      if decide (c = col) then Some 0%nat else S <$> col_pos cols' col
  end.

(** [row[col]] for a row [Series] indexed by the column labels. *)
Definition series_get (cols : list label) (row : list cell) (col : label) : result cell :=
  p ← of_option KeyError (col_pos cols col);
  of_option KeyError (row !! p).

(** [frame[col].tolist()] for a frame given by labels and rows; in a
    rectangular frame every row has a cell at the position of the label.
    For a label that stands over several columns [frame[col]] is a frame,
    which has no [tolist]. *)
Definition column_values (cols : list label) (rs : list (list cell)) (col : label)
  : result (list cell) :=
  p ← of_option KeyError (col_pos cols col);
  if bool_decide (col ∈ drop (S p) cols) then Raise AttributeError
  else Ok ((fun r => default CNaN (r !! p)) <$> rs).

(** [df.iloc[i]]. *)
Definition iloc_row (df : DataFrame) (i : Z) : result (list cell) :=
  Py.index (rows df) i.

(** [df.iloc[a:b]]. *)
Definition iloc_rows (df : DataFrame) (a b : Z) : list (list cell) :=
  Py.slice (rows df) a b.

(** [row.iloc[0]]. *)
Definition iloc0 (row : list cell) : result cell :=
  of_option IndexError (head row).

(** [df.iloc[a:b, 0].values.tolist()]. *)
Definition iloc_rows_col0 (df : DataFrame) (a b : Z) : result (list cell) :=
  match columns df with
  | [] => Raise IndexError
  | _ :: _ => Ok ((fun r => default CNaN (head r)) <$> iloc_rows df a b)
  end.

(** [df.loc[a:b]] on the default index: the rows labelled [a] to [b], both
    ends included. *)
Definition loc_rows (df : DataFrame) (a b : Z) : list (list cell) :=
  let n := Z.of_nat (length (rows df)) in
  let lo := Z.min (Z.max a 0) n in
  let hi := Z.min (Z.max (b + 1) 0) n in
  take (Z.to_nat (hi - lo)) (drop (Z.to_nat lo) (rows df)).

(** [df.loc[a:b, col].tolist()]. *)
Definition loc_rows_col (df : DataFrame) (a b : Z) (col : label) : result (list cell) :=
  column_values (columns df) (loc_rows df a b) col.

(** [df.loc[i, cols].tolist()]: the row labelled [i], read at the labels
    [cols]. *)
Definition loc_row_cols (df : DataFrame) (i : Z) (cols : list label)
  : result (list cell) :=
  row ← (if i <? 0 then Raise KeyError
         else of_option KeyError (rows df !! Z.to_nat i));
  mapM (series_get (columns df) row) cols.

(** A frame whose index was taken from one of its columns. *)
Record indexed_frame : Type := {
  fr_index : list cell;
  fr_columns : list label;
  fr_rows : list (list cell)
}.

(** [frame.set_index(cols[0])] for a frame given by labels and rows: the
    first column becomes the index and leaves the columns. *)
Definition set_index_first (cols : list label) (rs : list (list cell))
  : result indexed_frame :=
  match cols with
  | [] => Raise IndexError
  | _ :: cols' =>
      Ok {| fr_index := (fun r => default CNaN (head r)) <$> rs;
            fr_columns := cols';
            fr_rows := tail <$> rs |}
  end.

(** [df.tail(4)]. *)
Definition tail4 (df : DataFrame) : list (list cell) := Py.last4 (rows df).

(** [df.tail(n)] for a count [n] that is not negative. *)
Definition tail_n (df : DataFrame) (n : nat) : list (list cell) :=
  drop (length (rows df) - n)%nat (rows df).

End Pandas.

(** [label_text.lower() in str(c).lower()]. *)
Definition label_in_cell (label_text : string) (c : cell) : bool :=
  Py.str_in (Py.lower label_text) (Py.lower (str c)).

(** ["Week" in str(c)]. *)
Definition is_week (c : cell) : bool := Py.str_in "Week" (str c).

(** The loop of [find_data_row]: [df.iterrows()] from the row labelled [i]. *)
Fixpoint find_data_row_loop (i : Z) (rs : list (list cell)) (label_text : string) : result Z :=
  match rs with
  | [] => Ok (-1)
  | row :: rs' =>
      c ← Pandas.iloc0 row;
      if label_in_cell label_text c then Ok i
      else find_data_row_loop (i + 1) rs' label_text
  end.

(** [x in xs] on a list of cell values. *)
Definition cell_in (x : cell) (xs : list cell) : bool := existsb (cell_eqb x) xs.

(** [[(col, header_row[col]) for col in df.columns]]: the look-up by label
    that the comprehensions of the slide-6 extractor repeat for every column. *)
Definition header_items (df : DataFrame) (header_row : list cell)
  : result (list (label * cell)) :=
  mapM (fun col => h ← Pandas.series_get (columns df) header_row col; Ok (col, h))
       (columns df).

(** [[col for col, h in header_row.items() if "Week" in str(h)]]. *)
Definition week_cols_of (df : DataFrame) (header_row : list cell) : list label :=
  (filter (fun ch => is_week ch.2) (zip (columns df) header_row)).*1.

(** [[str(header_row[col]) for col in cols]]. *)
Definition header_texts (df : DataFrame) (header_row : list cell) (cols : list label)
  : result (list string) :=
  mapM (fun col => h ← Pandas.series_get (columns df) header_row col; Ok (str h)) cols.

(** [{h: df.loc[a:b, col].tolist() for h, col in zip(hs, cols)}]. *)
Definition series_dict (df : DataFrame) (a b : Z) (hs : list string) (cols : list label)
  : result (list (string * list cell)) :=
  entries ← mapM (fun hc => vs ← Pandas.loc_rows_col df a b hc.2; Ok (hc.1, vs))
                 (zip hs cols);
  Ok (dict_of entries).

(** The pair [(categories, data_dict)] of the chart extractors. *)
Definition block : Type := list cell * list (string * list cell).

Record TableData : Type := {
  title : string;
  headers : list cell;
  row_labels : list cell;
  data : list (cell * list cell)
}.

(** ** Presentations *)

Inductive XL_CHART_TYPE : Type := COLUMN_CLUSTERED | LINE_MARKERS.

(** The scale of a value axis: left to the application, a fixed maximum, or
    a fixed maximum with the major unit [maximum / gridlines]. *)
Inductive axis_scale : Type :=
| ScaleAuto
| ScaleMax (maximum_scale : Z)
| ScaleMaxUnit (maximum_scale : Z) (gridlines : Z).

Record Chart : Type := {
  chart_type : XL_CHART_TYPE;
  chart_categories : list cell;
  chart_series : list (string * list cell);
  chart_title : string;
  chart_title_size : Z;
  chart_title_bold : bool;
  chart_scale : axis_scale;
  has_major_gridlines : bool;
  has_legend : bool;
  has_data_labels : bool;
  ChartStyle : option Z
}.

Inductive shape_content : Type :=
| ChartContent (c : Chart)
| TableContent (cells : list (list string))
| TextContent (text : string).

(** A length in hundredths of a centimetre. *)
Definition position : Type := Z * Z * Z * Z.

Record Shape : Type := {
  shape_name : option string;
  shape_position : position;
  content : shape_content
}.

Abbreviation Slide := (list Shape).
Abbreviation Presentation := (list Slide).

(** Files of presentations by path, and the sheets of the workbook by name. *)
Abbreviation files := (gmap string Presentation).
Abbreviation workbook := (gmap string DataFrame).

(** The data of a chart hold no NaN. *)
Definition is_nan (c : cell) : bool :=
  match c with CNaN => true | _ => false end.

Definition chartable (categories : list cell) (data_dict : list (string * list cell))
  : bool :=
  forallb (fun c => negb (is_nan c)) categories &&
  forallb (fun kv : string * list cell => forallb (fun c => negb (is_nan c)) kv.2)
          data_dict.

Module Main.

(** *** Slide 6 *)

Definition _extract_slide6_table_data (df : DataFrame) (title : string)
    (header_row_idx num_data_rows : Z) : result TableData :=
  header_row ← Pandas.iloc_row df header_row_idx;
  items ← header_items df header_row;
  let all_weeks := (filter (fun ch => is_week ch.2) items).*2 in
  let last_four_weeks := Py.last4 all_weeks in
  let week_cols := filter (fun ch => cell_in ch.2 last_four_weeks) items in
  let data_start_row := header_row_idx + 1 in
  let data_end_row := data_start_row + num_data_rows in
  data_rows_df ← Pandas.set_index_first (columns df)
                   (Pandas.iloc_rows df data_start_row data_end_row);
  let row_labels := Pandas.fr_index data_rows_df in
  entries ← mapM (fun ch =>
               vs ← Pandas.column_values (Pandas.fr_columns data_rows_df)
                      (Pandas.fr_rows data_rows_df) ch.1;
               Ok (ch.2, vs)) week_cols;
  Ok {| title := title; headers := last_four_weeks;
        row_labels := row_labels; data := dict_of entries |}.

(** *** Slide 7 *)

Definition _find_data_row (df : DataFrame) (label_text : string) : result Z :=
  find_data_row_loop 0 (rows df) label_text.

Definition _extract_data_block_slide7 (df : DataFrame) (start_label : string)
    (num_rows : Z) : result (option block) :=
  start_row_idx ← _find_data_row df start_label;
  if start_row_idx =? -1 then Ok None else
  let header_row_idx := start_row_idx - 1 in
  header_row ← Pandas.iloc_row df header_row_idx;
  let all_week_cols := week_cols_of df header_row in
  let last_four_week_cols := Py.last4 all_week_cols in
  last_four_week_headers ← header_texts df header_row last_four_week_cols;
  let data_end_row := start_row_idx + num_rows in
  categories ← Pandas.iloc_rows_col0 df start_row_idx data_end_row;
  data_dict ← series_dict df start_row_idx (data_end_row - 1)
                last_four_week_headers last_four_week_cols;
  Ok (Some (categories, data_dict)).

Definition _extract_stats_data_slide7 (df : DataFrame) : result (option block) :=
  inc_header_row ← Pandas.iloc_row df 0;
  let all_week_cols := week_cols_of df inc_header_row in
  let last_four_week_cols := Py.last4 all_week_cols in
  last_four_week_headers ← header_texts df inc_header_row last_four_week_cols;
  created_row_idx ← _find_data_row df "INCs created";
  resolved_row_idx ← _find_data_row df "INCs resolved";
  if (created_row_idx =? -1) || (resolved_row_idx =? -1) then Ok None else
  created_data ← Pandas.loc_row_cols df created_row_idx last_four_week_cols;
  resolved_data ← Pandas.loc_row_cols df resolved_row_idx last_four_week_cols;
  let categories := [CStr "INCs created"; CStr "INCs resolved"] in
  let data_dict :=
    dict_of ((fun wcr => (wcr.1.1, [wcr.1.2; wcr.2])) <$>
             zip (zip last_four_week_headers created_data) resolved_data) in
  Ok (Some (categories, data_dict)).

(** Python truthiness of an optional number. *)
Definition truthy (x : option Z) : bool :=
  match x with
  | Some v => negb (v =? 0)
  | None => false
  end.

(** The pair [(categories, data_dict)] arrives as one optional [block]:
    the extractors return either two values or [None, None].
    [slide.shapes.add_chart] writes the categories and the values into the
    workbook behind the chart, which takes no NaN. *)
Definition _add_bar_chart_slide7 (slide : Slide) (blk : option block) (pos : position)
    (title : string) (y_axis_max num_gridlines : option Z) : result Slide :=
  match blk with
  | None => Ok slide
  | Some (categories, data_dict) =>
      if negb (chartable categories data_dict) then Raise TypeError else
      let scale :=
        if truthy y_axis_max && truthy num_gridlines
        then ScaleMaxUnit (default 0 y_axis_max) (default 0 num_gridlines)
        else if truthy y_axis_max then ScaleMax (default 0 y_axis_max)
        else ScaleAuto in
      Ok (slide ++ [ {| shape_name := None;
                        shape_position := pos;
                        content := ChartContent
                          {| chart_type := COLUMN_CLUSTERED;
                             chart_categories := categories;
                             chart_series := data_dict;
                             chart_title := title;
                             chart_title_size := 12;
                             chart_title_bold := true;
                             chart_scale := scale;
                             has_major_gridlines := true;
                             has_legend := true;
                             has_data_labels := true;
                             ChartStyle := None |} |} ])%list
  end.

Definition pos_created : position := (169, 176, 1327, 638).
Definition pos_resolved : position := (1827, 176, 1391, 638).
Definition pos_stats : position := (169, 975, 1327, 677).

(** The slide object is changed in place, so the presentation holds the
    new slide at the same place. *)
Definition populate_slide_7 (prs : Presentation) (df : DataFrame) (slide_index : Z)
  : result Presentation :=
  slide ← Py.index prs slide_index;
  creation ← _extract_data_block_slide7 df "Tools Created" 4;
  closed ← _extract_data_block_slide7 df "Auto closed by Tools" 2;
  stats ← _extract_stats_data_slide7 df;
  slide ← _add_bar_chart_slide7 slide creation pos_created "INC Created by"
            (Some 1600) (Some 7);
  slide ← _add_bar_chart_slide7 slide closed pos_resolved "INC Resolved by"
            (Some 1600) (Some 7);
  slide ← _add_bar_chart_slide7 slide stats pos_stats "INC Stats"
            (Some 1600) (Some 7);
  Ok (<[Z.to_nat (Py.norm_index (Z.of_nat (length prs)) slide_index) := slide]> prs).

(** *** Slide 8 *)

Definition _extract_pending_data_slide8 (df : DataFrame) (series_labels : list string)
    (week_column_label : string)
  : result (option (list string * list (string * list cell))) :=
  let valid_series_labels :=
    filter (fun l => LStr l ∈ columns df) series_labels in
  if bool_decide (valid_series_labels = []) then Ok None else
  let last_four_rows_df := Pandas.tail4 df in
  week_values ← Pandas.column_values (columns df) last_four_rows_df
                  (LStr week_column_label);
  let categories := str <$> (week_values : list cell) in
  entries ← mapM (fun l =>
               vs ← Pandas.column_values (columns df) last_four_rows_df (LStr l);
               Ok (l, vs)) valid_series_labels;
  Ok (Some (categories, dict_of entries)).

(** *** Slide 9 *)

Definition _extract_data_block_slide9 (df : DataFrame) (start_label : string)
    (num_rows : Z) : result (option (block * list string)) :=
  start_row_idx ← _find_data_row df start_label;
  if start_row_idx =? -1 then Ok None else
  header_row ← Pandas.iloc_row df start_row_idx;
  let all_data_cols := Py.from1 (columns df) in
  let last_four_data_cols := Py.last4 all_data_cols in
  last_four_week_headers ← header_texts df header_row last_four_data_cols;
  let data_start_row := start_row_idx + 1 in
  let data_end_row := data_start_row + num_rows in
  categories ← Pandas.iloc_rows_col0 df data_start_row data_end_row;
  data_dict ← series_dict df data_start_row (data_end_row - 1)
                last_four_week_headers last_four_data_cols;
  Ok (Some ((categories, data_dict), last_four_week_headers)).

(** *** Slide 10 *)

Record table10 : Type := {
  t_title : string;
  t_headers : list string;
  t_data : list (string * list Z)
}.

Definition target_table_titles : list string :=
  ["Business Service - INC"; "Business Service - RITM";
   "Business Service - Change Requests"].

(** [df[0] = df[0].astype(str).str.strip()]: the column labelled 0 is
    rewritten in place. *)
Definition strip_col0 (df : DataFrame) : result DataFrame :=
  p ← of_option KeyError (Pandas.col_pos (columns df) (LInt 0));
  Ok {| columns := columns df;
        rows := (fun r => alter (fun c => CStr (Py.strip (str c))) p r) <$> rows df |}.

(** [df[0] == text], row by row. *)
Definition col0_is (df : DataFrame) (text : string) (row : list cell) : bool :=
  match Pandas.col_pos (columns df) (LInt 0) with
  | Some p => bool_decide (row !! p = Some (CStr text))
  | None => false
  end.

(** [any('Week' in str(cell) for cell in row.iloc[-4:])]. *)
Definition has_week (row : list cell) : bool := existsb is_week (Py.last4 row).

(** The body of the [for idx in range(start_index, end_index)] loop. *)
Definition find_header_row (df : DataFrame) (start_index end_index : nat) : option nat :=
  snd <$> list_find (fun idx => from_option has_week false (rows df !! idx))
                    (seq start_index (end_index - start_index)).

(** One pass of [for i in range(header_row_index + 1, end_index + 1)]. *)
Definition data_row (row : list cell) : result (option (string * list Z)) :=
  c ← Pandas.iloc0 row;
  let row_title := Py.strip (str c) in
  if bool_decide (row_title = EmptyString) then Ok None else
  data ← mapM cell_int (Py.last4 row);
  Ok (Some (row_title, data)).

Definition data_rows (df : DataFrame) (header_row_index end_index : nat)
  : result (list (string * list Z)) :=
  rs ← mapM (fun i => row ← Pandas.iloc_row df (Z.of_nat i); data_row row)
            (seq (S header_row_index) (end_index - header_row_index));
  Ok (omap id rs).

(** The body of the [try] block after the first column was rewritten;
    [None] stands for [continue]. *)
Definition table_for (df : DataFrame) (table_title : string) : result (option table10) :=
  match list_find (fun r => col0_is df table_title r) (rows df) with
  | None => Ok None
  | Some (start_index, _) =>
      let search_area := drop start_index (rows df) in
      match list_find (fun r => col0_is df "Grand Total" r) search_area with
      | None => Ok None
      | Some (k, _) =>
          let end_index := (start_index + k)%nat in
          match find_header_row df start_index end_index with
          | None => Ok None
          | Some header_row_index =>
              header_row ← Pandas.iloc_row df (Z.of_nat header_row_index);
              let week_labels := (fun c => Py.strip (str c)) <$> Py.last4 header_row in
              let headers := table_title :: week_labels in
              rs ← data_rows df header_row_index end_index;
              Ok (Some {| t_title := table_title; t_headers := headers; t_data := rs |})
          end
      end
  end.

(** The loop over the titles, threading the frame (which the loop rewrites)
    and the tables collected so far; a raised exception is caught and the
    title skipped. *)
Fixpoint tables_loop (df : DataFrame) (titles : list string) (all_tables_data : list table10)
  : DataFrame * list table10 :=
  match titles with
  | [] => (df, all_tables_data)
  | table_title :: titles' =>
      match strip_col0 df with
      | Raise _ => tables_loop df titles' all_tables_data
      | Ok df' =>
          match table_for df' table_title with
          | Ok (Some t) => tables_loop df' titles' (all_tables_data ++ [t])
          | Ok None | Raise _ => tables_loop df' titles' all_tables_data
          end
      end
  end.

(** The returned list, paired with the frame as the call leaves it. *)
Definition _extract_data_for_slide10 (df : DataFrame) : DataFrame * list table10 :=
  tables_loop df target_table_titles [].

(** *** Shapes by name *)

(** The shape or [None], and the lines printed. A shape whose name was
    assigned by the library ([shape_name = None]) has none of the names the
    program looks for. *)
Fixpoint find_shape_by_name (slide : Slide) (name : string) : option Shape * list string :=
  match slide with
  | [] => (None, ["Warning: Shape with name '" +:+ name +:+ "' not found on the slide."])
  | shape :: slide' =>
      if bool_decide (shape_name shape = Some name) then (Some shape, [])
      else find_shape_by_name slide' name
  end.

(** *** Styling through the office application *)

(** The office application as [apply_chart_styles] drives it through the
    automation interface. Every call may raise, and what the application
    makes of a shape when its [Chart.ChartStyle] is assigned is left to it:
    [Presentations_Open fs path] is the start of the application followed
    by [powerpoint.Presentations.Open(path)],
    [set_ChartStyle shape style_id] is the shape after
    [shape.Chart.ChartStyle = style_id], and [SaveAs fs presentation path]
    is [presentation.SaveAs(path)]. *)
Class Application : Type := {
  Presentations_Open : files → string → result Presentation;
  set_ChartStyle : Shape → Z → result Shape;
  SaveAs : files → Presentation → string → result files
}.

(** [shape.HasChart]. *)
Definition HasChart (shape : Shape) : bool :=
  match content shape with
  | ChartContent _ => true
  | _ => false
  end.

Section Styling.
Context {app : Application}.

(** [for shape in target_slide.Shapes: if shape.HasChart: ...]. *)
Definition style_shapes (style_id : Z) (target_slide : Slide) : result Slide :=
  mapM (fun shape => if HasChart shape then set_ChartStyle shape style_id
                     else Ok shape) target_slide.

(** One pass of [for slide_index, style_id in styles_to_apply.items()];
    [Slides(k)] is the slide number [k], counted from 1, and raises for
    [k < 1]. *)
Definition style_step (presentation : Presentation) (item : Z * Z) : result Presentation :=
  let '(slide_index, style_id) := item in
  if Z.of_nat (length presentation) <? slide_index + 1 then Ok presentation
  else if slide_index + 1 <? 1 then Raise ComError
  else
    target_slide ← of_option ComError (presentation !! Z.to_nat slide_index);
    target_slide ← style_shapes style_id target_slide;
    Ok (<[Z.to_nat slide_index := target_slide]> presentation).

Fixpoint style_loop (presentation : Presentation) (items : list (Z * Z))
  : result Presentation :=
  match items with
  | [] => Ok presentation
  | item :: items' =>
      presentation' ← style_step presentation item;
      style_loop presentation' items'
  end.

(** [SaveAs] is reached only when nothing raised before it; [Close] and
    [Quit] of the [finally] clause write no file. *)
Definition apply_chart_styles (input_path output_path : string)
    (styles_to_apply : list (Z * Z)) (fs : files) : result files :=
  presentation ← Presentations_Open fs input_path;
  presentation' ← style_loop presentation styles_to_apply;
  SaveAs fs presentation' output_path.

End Styling.

(** *** The main workflow *)

Definition EXCEL_FILE_PATH := "Files/ExcelData27.xlsx".
Definition TEMPLATE_PPTX_PATH := "Files/Default_Template.pptx".
Definition FINAL_OUTPUT_PPTX_PATH := "Output/Final_Output.pptx".
Definition SHEET_NAME_SLIDE_6 := "Volumetric trends INC & RITM".
Definition SHEET_NAME_SLIDE_7 := "Created".
Definition SHEET_NAME_SLIDE_8 := "Pending Counts".
Definition SHEET_NAME_SLIDE_9 := "Volumetric Change details".
Definition SHEET_NAME_SLIDE_10 := "Business Services".
Definition SLIDE_6_INDEX := 2.
Definition SLIDE_7_INDEX := 3.
Definition SLIDE_8_INDEX := 4.
Definition SLIDE_9_INDEX := 5.
Definition SLIDE_10_INDEX := 6.
Definition CHART_STYLE_FOR_LINE_CHARTS := 228.
Definition temp_output_path := "Output/temp_presentation.pptx".

Definition sheet_names : list string :=
  [SHEET_NAME_SLIDE_6; SHEET_NAME_SLIDE_7; SHEET_NAME_SLIDE_8;
   SHEET_NAME_SLIDE_9; SHEET_NAME_SLIDE_10].

(** [pd.read_excel(path, sheet_name=...)]: the workbook gives each sheet as
    the call returns it; a missing sheet raises. *)
Definition read_excel (wb : workbook) (sheet_name : string) : result DataFrame :=
  of_option ValueError (wb !! sheet_name).

(** [df.fillna(0)]. *)
Definition fillna0 (df : DataFrame) : DataFrame :=
  {| columns := columns df;
     rows := (fun r : list cell => (fun c => match c with CNaN => CInt 0 | _ => c end) <$> r)
             <$> rows df |}.

(** What the operating system refuses during the run: a file that another
    program holds open cannot be deleted, a place without permission cannot
    be written. *)
Record System : Type := {
  remove_refused : string → bool;
  write_refused : string → bool
}.

(** [os.remove(path)]. *)
Definition os_remove (sys : System) (path : string) (fs : files) : result files :=
  if remove_refused sys path then Raise OSError else
  match fs !! path with
  | Some _ => Ok (delete path fs)
  | None => Raise OSError
  end.

(** [prs.save(path)]. *)
Definition save (sys : System) (prs : Presentation) (path : string) (fs : files)
  : result files :=
  if write_refused sys path then Raise OSError else Ok (<[path := prs]> fs).

(** How a run ends: [exit()] after the fatal message, the end of the script,
    or an exception nobody catches. [out] holds the lines printed by the
    statements of the main block itself, without their pictographs and blank
    lines; a line that ends with the text of an exception is given up to
    the colon. *)
Inductive outcome : Type :=
| Exited (out : list string) (fs : files)
| Completed (out : list string) (fs : files)
| Uncaught (e : exn).

Section Workflow.
Context {app : Application}.
Variable sys : System.

(** The slide writers edit tables, text boxes and charts of the template;
    the workflow only passes the presentation through them. *)
Variables populate_slide_6 populate_slide_7 populate_slide_8
          populate_slide_9 populate_slide_10
  : Presentation → DataFrame → Z → result Presentation.

Definition read_sheets (wb : workbook)
  : result (DataFrame * DataFrame * DataFrame * DataFrame * DataFrame) :=
  df_slide6 ← read_excel wb SHEET_NAME_SLIDE_6;
  df_slide7 ← read_excel wb SHEET_NAME_SLIDE_7;
  df_slide8 ← read_excel wb SHEET_NAME_SLIDE_8;
  df_slide9 ← read_excel wb SHEET_NAME_SLIDE_9;
  df_slide10 ← read_excel wb SHEET_NAME_SLIDE_10;
  Ok (df_slide6, df_slide7, df_slide8, df_slide9, fillna0 df_slide10).

Definition styles_to_apply : list (Z * Z) :=
  [(SLIDE_6_INDEX, CHART_STYLE_FOR_LINE_CHARTS);
   (SLIDE_8_INDEX, CHART_STYLE_FOR_LINE_CHARTS);
   (SLIDE_9_INDEX, CHART_STYLE_FOR_LINE_CHARTS)].

(** [Presentation(TEMPLATE_PPTX_PATH)] and the five calls that write the
    slides. *)
Definition populate_slides (dfs : DataFrame * DataFrame * DataFrame * DataFrame * DataFrame)
    (fs : files) : result Presentation :=
  let '(df_slide6, df_slide7, df_slide8, df_slide9, df_slide10) := dfs in
  prs ← of_option OSError (fs !! TEMPLATE_PPTX_PATH);
  prs ← populate_slide_6 prs df_slide6 SLIDE_6_INDEX;
  prs ← populate_slide_7 prs df_slide7 SLIDE_7_INDEX;
  prs ← populate_slide_8 prs df_slide8 SLIDE_8_INDEX;
  prs ← populate_slide_9 prs df_slide9 SLIDE_9_INDEX;
  populate_slide_10 prs df_slide10 SLIDE_10_INDEX.

(** From the template to the return of [apply_chart_styles]:
    [prs.save(temp_output_path)] writes the temporary file. *)
Definition build_and_style (dfs : DataFrame * DataFrame * DataFrame * DataFrame * DataFrame)
    (fs : files) : result files :=
  prs ← populate_slides dfs fs;
  fs ← save sys prs temp_output_path fs;
  apply_chart_styles temp_output_path FINAL_OUTPUT_PPTX_PATH styles_to_apply fs.

(** The lines of a run that reaches the end: the line printed before the
    save, the line of the [try] around [os.remove], the closing lines. *)
Definition completed_lines (removal_line : string) : list string :=
  ["Saving presentation with all content..."; removal_line;
   "Workflow Finished! Your final presentation is ready at:";
   FINAL_OUTPUT_PPTX_PATH].

Definition main (wb : workbook) (fs : files) : outcome :=
  match read_sheets wb with
  | Raise _ => Exited ["FATAL ERROR reading Excel file"] fs
  | Ok dfs =>
      match build_and_style dfs fs with
      | Raise e => Uncaught e
      | Ok fs =>
          match os_remove sys temp_output_path fs with
          | Ok fs => Completed (completed_lines "Temporary file has been deleted.") fs
          | Raise _ =>
              Completed (completed_lines "Warning: Could not delete temporary file") fs
          end
      end
  end.

End Workflow.

End Main.

(** ** The stand-alone scripts *)

Module DataFromSheetForSlide7.

Definition find_data_row (df : DataFrame) (label_text : string) : result Z :=
  find_data_row_loop 0 (rows df) label_text.

(** The lines printed, and the returned pair. *)
Definition extract_data_block (df : DataFrame) (start_label : string) (num_rows : Z)
  : list string * result (option block) :=
  match find_data_row df start_label with
  | Raise e => ([], Raise e)
  | Ok start_row_idx =>
      if start_row_idx =? -1
      then (["Warning: Could not find data block starting with '" +:+ start_label +:+ "'"],
            Ok None)
      else
        ([],
         let header_row_idx := start_row_idx - 1 in
         header_row ← Pandas.iloc_row df header_row_idx;
         let all_week_cols := week_cols_of df header_row in
         let last_four_week_cols := Py.last4 all_week_cols in
         last_four_week_headers ← header_texts df header_row last_four_week_cols;
         let data_end_row := start_row_idx + num_rows in
         categories ← Pandas.iloc_rows_col0 df start_row_idx data_end_row;
         data_dict ← series_dict df start_row_idx (data_end_row - 1)
                       last_four_week_headers last_four_week_cols;
         Ok (Some (categories, data_dict)))
  end.

(** The loop of [find_header_row]: the whole row is searched, and the row
    above the match is returned. *)
Fixpoint find_header_row_loop (i : Z) (rs : list (list cell)) (title_text : string) : Z :=
  match rs with
  | [] => -1
  | row :: rs' =>
      if existsb (label_in_cell title_text) row then i - 1
      else find_header_row_loop (i + 1) rs' title_text
  end.

Definition find_header_row (df : DataFrame) (title_text : string) : Z :=
  find_header_row_loop 0 (rows df) title_text.

Definition extract_stats_chart_data (df : DataFrame)
  : list string * result (option block) :=
  match Pandas.iloc_row df 0 with
  | Raise e => ([], Raise e)
  | Ok inc_header_row =>
      let all_week_cols := week_cols_of df inc_header_row in
      let last_four_week_cols := Py.last4 all_week_cols in
      match header_texts df inc_header_row last_four_week_cols with
      | Raise e => ([], Raise e)
      | Ok last_four_week_headers =>
          match find_data_row df "INCs created" with
          | Raise e => ([], Raise e)
          | Ok created_row_idx =>
              match find_data_row df "INCs resolved" with
              | Raise e => ([], Raise e)
              | Ok resolved_row_idx =>
                  if (created_row_idx =? -1) || (resolved_row_idx =? -1)
                  then (["Warning: Could not find 'INCs created' or 'INCs resolved' rows for Stats chart."],
                        Ok None)
                  else
                    ([],
                     created_data ← Pandas.loc_row_cols df created_row_idx
                                      last_four_week_cols;
                     resolved_data ← Pandas.loc_row_cols df resolved_row_idx
                                       last_four_week_cols;
                     let categories := [CStr "INCs created"; CStr "INCs resolved"] in
                     let data_dict :=
                       dict_of ((fun wcr => (wcr.1.1, [wcr.1.2; wcr.2])) <$>
                                zip (zip last_four_week_headers created_data)
                                    resolved_data) in
                     Ok (Some (categories, data_dict)))
              end
          end
      end
  end.

End DataFromSheetForSlide7.

Module DataFromSheetForSlide9.

Definition find_data_row (df : DataFrame) (label_text : string) : result Z :=
  find_data_row_loop 0 (rows df) label_text.


End DataFromSheetForSlide9.


Module DataFromSheetForSlide8.

(** What the function prints: the set of requested labels that are no
    columns (printed in the order of a Python set), that no requested label
    is a column, that the sheet has fewer than four rows. *)
Inductive warning : Type :=
| MissingColumns (missing_labels : gset string)
| NoColumns
| FewRows.

Definition extract_pending_data_from_rows (df : DataFrame) (series_labels : list string)
    (week_column_label : string)
  : list warning * result (option (list string * list (string * list cell))) :=
  let valid_series_labels :=
    filter (fun l => LStr l ∈ columns df) series_labels in
  let missing_labels : gset string :=
    list_to_set series_labels ∖ list_to_set valid_series_labels in
  let missing_warning :=
    if bool_decide (missing_labels = ∅) then [] else [MissingColumns missing_labels] in
  if bool_decide (valid_series_labels = [])
  then ((missing_warning ++ [NoColumns])%list, Ok None)
  else
    let few := bool_decide (length (rows df) < 4)%nat in
    let last_four_rows_df :=
      if few then Pandas.tail_n df (length (rows df)) else Pandas.tail_n df 4 in
    ((missing_warning ++ (if few then [FewRows] else []))%list,
     week_values ← Pandas.column_values (columns df) last_four_rows_df
                     (LStr week_column_label);
     let categories := str <$> (week_values : list cell) in
     entries ← mapM (fun l =>
                  vs ← Pandas.column_values (columns df) last_four_rows_df (LStr l);
                  Ok (l, vs)) valid_series_labels;
     Ok (Some (categories, dict_of entries))).

End DataFromSheetForSlide8.

(** ** Predicates of the specification *)

(** The first cell of the row contains the label, case-insensitively. *)
Definition row_matches (label_text : string) (row : list cell) : bool :=
  from_option (label_in_cell label_text) false (head row).

(** No row's first cell contains the label: every row has a first cell, and
    that cell does not contain it. *)
Definition label_absent (df : DataFrame) (label_text : string) : Prop :=
  ∀ row, row ∈ rows df →
    ∃ c, head row = Some c ∧ label_in_cell label_text c = false.

(** The shape is a clustered column chart at the position, with the title,
    the categories and the series. *)
Definition bar_chart_of (sh : Shape) (pos : position) (title : string)
    (categories : list cell) (data_dict : list (string * list cell)) : Prop :=
  shape_position sh = pos ∧
  ∃ c, content sh = ChartContent c ∧
       chart_type c = COLUMN_CLUSTERED ∧ chart_title c = title ∧
       chart_categories c = categories ∧ chart_series c = data_dict.

(** The cells of a row, each with its position. *)
Definition cells (row : list cell) : list (nat * cell) :=
  imap (fun p c => (p, c)) row.


(** The label stands over more than one column. *)
Definition repeated (cols : list label) (col : label) : Prop :=
  (2 ≤ length (filter (fun c => c = col) cols))%nat.

#[global] Instance repeated_dec cols col : Decision (repeated cols col).
Proof. unfold repeated. apply _. Defined.

(** The value is one of the cells of the frame. *)
Definition cell_of (df : DataFrame) (v : cell) : Prop :=
  ∃ row, row ∈ rows df ∧ v ∈ row.

(** Every value of every data list of the dictionary is a cell of the frame. *)
Definition copies_of {K} (df : DataFrame) (d : list (K * list cell)) : Prop :=
  Forall (fun kv => Forall (cell_of df) kv.2) d.

(** The cells at position [p] of the rows. *)
Definition column_at (p : nat) (rs : list (list cell)) : list cell :=
  (fun r => default CNaN (r !! p)) <$> rs.

(** A frame with a header row, two data rows and the row of a second table. *)
Definition sample_created : DataFrame :=
  {| columns := [LStr "Unnamed: 0"; LStr "Unnamed: 1"; LStr "Unnamed: 2";
                 LStr "Unnamed: 3"; LStr "Unnamed: 4"; LStr "Unnamed: 5"];
     rows :=
       [ [CStr "INC"; CStr "Week 21"; CStr "Week 22"; CStr "Week 23";
          CStr "Week 24"; CStr "Week 25"];
         [CStr "INCs created"; CInt 10; CInt 11; CInt 12; CInt 13; CInt 14];
         [CStr "INCs resolved"; CInt 9; CInt 8; CInt 7; CInt 6; CInt 5];
         [CStr "Source"; CStr "Week 21"; CStr "Week 22"; CStr "Week 23";
          CStr "Week 24"; CStr "Week 25"];
         [CStr "Auto closed by Tools"; CInt 1; CInt 2; CInt 3; CInt 4; CInt 5];
         [CStr "Closed by L2"; CInt 6; CInt 7; CInt 8; CInt 9; CInt 10] ] |}.

(** The same frame with an empty cell in the block of closed incidents. *)
Definition sample_created_gap : DataFrame :=
  {| columns := columns sample_created;
     rows := <[4%nat := [CStr "Auto closed by Tools"; CInt 1; CInt 2; CNaN; CInt 4;
                         CInt 5]]> (rows sample_created) |}.

(** A sheet of weekly volumes: a header row with five weeks, two data rows. *)
Definition sample_volumetric : DataFrame :=
  {| columns := [LStr "Unnamed: 0"; LStr "Unnamed: 1"; LStr "Unnamed: 2";
                 LStr "Unnamed: 3"; LStr "Unnamed: 4"; LStr "Unnamed: 5"];
     rows :=
       [ [CStr "INC"; CStr "Week 21"; CStr "Week 22"; CStr "Week 23";
          CStr "Week 24"; CStr "Week 25"];
         [CStr "P1"; CInt 1; CInt 2; CInt 3; CInt 4; CInt 5];
         [CStr "P2"; CInt 11; CInt 12; CInt 13; CInt 14; CInt 15] ] |}.

(** A sheet whose four columns are all week columns. *)
Definition sample_weeks_only : DataFrame :=
  {| columns := [LStr "Unnamed: 0"; LStr "Unnamed: 1"; LStr "Unnamed: 2";
                 LStr "Unnamed: 3"];
     rows :=
       [ [CStr "Week 21"; CStr "Week 22"; CStr "Week 23"; CStr "Week 24"];
         [CInt 1; CInt 2; CInt 3; CInt 4] ] |}.

(** A sheet in which two of the last four week columns carry the same label. *)
Definition sample_repeated : DataFrame :=
  {| columns := [LStr "Unnamed: 0"; LStr "Unnamed: 1"; LStr "Unnamed: 2";
                 LStr "Unnamed: 3"; LStr "Unnamed: 4"];
     rows :=
       [ [CStr "INC"; CStr "Week 21"; CStr "Week 21"; CStr "Week 22"; CStr "Week 23"];
         [CStr "P1"; CInt 1; CInt 2; CInt 3; CInt 4] ] |}.

(** A sheet of change counts whose label row names months. *)
Definition sample_change : DataFrame :=
  {| columns := [LStr "Unnamed: 0"; LStr "Unnamed: 1"; LStr "Unnamed: 2";
                 LStr "Unnamed: 3"; LStr "Unnamed: 4"];
     rows :=
       [ [CStr "Type"; CStr "Jan"; CStr "Feb"; CStr "Mar"; CStr "Apr"];
         [CStr "Normal"; CInt 1; CInt 2; CInt 3; CInt 4];
         [CStr "Total"; CInt 5; CInt 6; CInt 7; CInt 8] ] |}.


(** The first cell of the row is the text. *)
Definition first_cell_is (text : string) (row : list cell) : bool :=
  bool_decide (head row = Some (CStr text)).

(** The stripped text of the first cell of the row. *)
Definition first_text (row : list cell) : string :=
  Py.strip (str (default CNaN (head row))).

(** [i] is the first position at or after [from] whose row satisfies [P]. *)
Definition first_from (P : list cell → bool) (rs : list (list cell)) (from i : nat) : Prop :=
  (from ≤ i)%nat ∧
  (∃ r, rs !! i = Some r ∧ P r = true) ∧
  ∀ j r, (from ≤ j < i)%nat → rs !! j = Some r → P r = false.

(** The frame with the text of every first cell stripped. *)
Definition strip_first_cells (df : DataFrame) : DataFrame :=
  {| columns := columns df;
     rows := (fun r => match r with
                       | c :: r' => CStr (Py.strip (str c)) :: r'
                       | [] => []
                       end) <$> rows df |}.

(** A table bounded by sentinel rows, in the words of the specification:
    the block starts at the first row whose first cell is the title and ends
    at the first row from there on whose first cell is "Grand Total"; its
    header row is the first row from the start and before the end with
    "Week" in one of its last four cells; its data rows are the rows after
    the header row, up to and including the end row, whose first cell is not
    empty once stripped, each given by that text and its last four cells as
    integers. *)
Definition sentinel_block (rs : list (list cell)) (table_title : string)
    (t : Main.table10) : Prop :=
  ∃ start_index end_index header_row_index header_row,
    first_from (first_cell_is table_title) rs 0 start_index ∧
    first_from (first_cell_is "Grand Total") rs start_index end_index ∧
    first_from Main.has_week rs start_index header_row_index ∧
    (header_row_index < end_index)%nat ∧
    rs !! header_row_index = Some header_row ∧
    Main.t_title t = table_title ∧
    Main.t_headers t
      = table_title :: ((fun c => Py.strip (str c)) <$> Py.last4 header_row) ∧
    Forall2 (fun row d => d.1 = first_text row ∧
                          mapM cell_int (Py.last4 row) = Ok d.2)
      (filter (fun row => first_text row ≠ EmptyString)
         (take (end_index - header_row_index) (drop (S header_row_index) rs)))
      (Main.t_data t).

(** A sheet read without a header: one table with a blank row, and the
    title of a second table that has no header row. *)
Definition sample_services : DataFrame :=
  {| columns := [LInt 0; LInt 1; LInt 2; LInt 3; LInt 4];
     rows :=
       [ [CInt 0; CInt 0; CInt 0; CInt 0; CInt 0];
         [CStr " Business Service - INC "; CInt 0; CInt 0; CInt 0; CInt 0];
         [CStr "Service"; CStr "Week 22"; CStr "Week 23"; CStr "Week 24";
          CStr "Week 25 "];
         [CStr "Billing"; CInt 1; CInt 2; CInt 3; CStr "40"];
         [CStr "  "; CInt 0; CInt 0; CInt 0; CInt 0];
         [CStr "Grand Total"; CInt 1; CInt 2; CInt 3; CInt 40];
         [CStr "Business Service - RITM"; CInt 0; CInt 0; CInt 0; CInt 0];
         [CStr "Grand Total"; CInt 7; CInt 8; CInt 9; CInt 10] ] |}.


Definition sample_services_table : Main.table10 :=
  {| Main.t_title := "Business Service - INC";
     Main.t_headers := ["Business Service - INC"; "Week 22"; "Week 23";
                        "Week 24"; "Week 25"];
     Main.t_data := [("Billing", [1; 2; 3; 40]); ("Grand Total", [1; 2; 3; 40])] |}.

(** A slide writer that leaves the presentation as it is. *)
Definition keep_slides (prs : Presentation) (df : DataFrame) (slide_index : Z)
  : result Presentation := Ok prs.

Definition empty_frame : DataFrame := {| columns := []; rows := [] |}.

(** A workbook without the sheet of slide 7. *)
Definition workbook_without_created : workbook :=
  {[ Main.SHEET_NAME_SLIDE_6 := sample_volumetric;
     Main.SHEET_NAME_SLIDE_8 := empty_frame;
     Main.SHEET_NAME_SLIDE_9 := sample_change;
     Main.SHEET_NAME_SLIDE_10 := empty_frame ]}.

(** A workbook whose sheet for slide 7 has no rows. *)
Definition workbook_empty_created : workbook :=
  <[ Main.SHEET_NAME_SLIDE_7 := empty_frame ]> workbook_without_created.

(** A sheet of pending counts, one row per week. *)
Definition sample_pending : DataFrame :=
  {| columns := [LStr "Week #"; LStr "Pending INCs"; LStr "INCs Resolved"];
     rows := [[CInt 21; CInt 5; CInt 50]; [CInt 22; CInt 6; CInt 60];
              [CInt 23; CInt 7; CInt 70]; [CInt 24; CInt 8; CInt 80];
              [CInt 25; CInt 9; CInt 90]] |}.

(** The sheet of pending counts after two of its labels became the same. *)
Definition sample_pending_repeated : DataFrame :=
  {| columns := [LStr "Week #"; LStr "Pending INCs"; LStr "Pending INCs"];
     rows := rows sample_pending |}.


Definition line_chart : Shape :=
  {| shape_name := Some "Chart 1"; shape_position := (67, 181, 1549, 658);
     content := ChartContent
       {| chart_type := LINE_MARKERS;
          chart_categories := [CStr "Week 24"; CStr "Week 25"];
          chart_series := [("P1", [CInt 4; CInt 5])];
          chart_title := "INC Resolved";
          chart_title_size := 22; chart_title_bold := false;
          chart_scale := ScaleAuto; has_major_gridlines := true;
          has_legend := true; has_data_labels := true;
          ChartStyle := None |} |}.

Definition main_title : Shape :=
  {| shape_name := Some "MainTitle"; shape_position := (0, 0, 3000, 150);
     content := TextContent "Volumetric trends for the past $ weeks" |}.

(** A template of seven slides; the third carries a title and a line chart. *)
Definition sample_template : Presentation :=
  [[]; []; [main_title; line_chart]; []; []; []; []].

Definition sample_files : files := {[ Main.TEMPLATE_PPTX_PATH := sample_template ]}.

(** The shape with the [ChartStyle] of its chart set and nothing else
    changed. *)
Definition with_chart_style (style_id : Z) (sh : Shape) : Shape :=
  match content sh with
  | ChartContent c =>
      {| shape_name := shape_name sh;
         shape_position := shape_position sh;
         content := ChartContent
           {| chart_type := chart_type c;
              chart_categories := chart_categories c;
              chart_series := chart_series c;
              chart_title := chart_title c;
              chart_title_size := chart_title_size c;
              chart_title_bold := chart_title_bold c;
              chart_scale := chart_scale c;
              has_major_gridlines := has_major_gridlines c;
              has_legend := has_legend c;
              has_data_labels := has_data_labels c;
              ChartStyle := Some style_id |} |}
  | _ => sh
  end.

(** An application for the examples: it opens the file that is at the path,
    an assignment to [ChartStyle] sets that property, and [SaveAs] writes
    the presentation to the path. *)
Definition sample_application : Main.Application :=
  {| Main.Presentations_Open fs path := of_option ComError (fs !! path);
     Main.set_ChartStyle sh style_id := Ok (with_chart_style style_id sh);
     Main.SaveAs fs presentation path := Ok (<[path := presentation]> fs) |}.

(** A system that refuses nothing, and one in which the temporary
    presentation cannot be deleted. *)
Definition permissive : Main.System :=
  {| Main.remove_refused _ := false; Main.write_refused _ := false |}.


(** Pairs of a column label and the header cell that stands in that column. *)
Definition placed (df : DataFrame) (header_row : list cell) (ch : label * cell) : Prop :=
  ∃ p, columns df !! p = Some ch.1 ∧ header_row !! p = Some ch.2.

(** ** The result monad *)

Section result_lemmas.
Context {A B : Type} (f : A → result B).

Lemma mapM_Ok_inv l k :
  mapM f l = Ok k → Forall2 (fun x y => f x = Ok y) l k.
Proof.
  revert k. induction l as [|x l IH]; intros k; simpl.
  - intros [= <-]. constructor.
  - destruct (f x) as [y|e] eqn:Hx; simpl; [|discriminate].
    destruct (mapM f l) as [k'|e] eqn:Hl; simpl; [|discriminate].
    intros [= <-]. constructor; auto.
Qed.

Lemma mapM_Ok_intro l k :
  Forall2 (fun x y => f x = Ok y) l k → mapM f l = Ok k.
Proof.
  induction 1 as [|x y l k Hx _ IH]; simpl; [done|].
  rewrite Hx. simpl. rewrite IH. done.
Qed.

Lemma mapM_Ok_fmap (g : A → B) l :
  (∀ x, x ∈ l → f x = Ok (g x)) → mapM f l = Ok (g <$> l).
Proof.
  intros H. apply mapM_Ok_intro.
  induction l as [|x l IH]; simpl; constructor.
  - apply H. left.
  - apply IH. intros y Hy. apply H. by right.
Qed.

Lemma mapM_Ok_length l k : mapM f l = Ok k → length k = length l.
Proof. intros H%mapM_Ok_inv. symmetry. by eapply Forall2_length. Qed.

End result_lemmas.

Lemma bind_Ok_inv {A B} (m : result A) (g : A → result B) b :
  m ≫= g = Ok b → ∃ a, m = Ok a ∧ g a = Ok b.
Proof. destruct m as [a|e]; simpl; [eauto | discriminate]. Qed.

(** Split an equation [x ← m; k = Ok b] found in the hypotheses. *)
Ltac bind_inv H :=
  let a := fresh "a" in
  let Ha := fresh "Ha" in
  apply bind_Ok_inv in H as (a & Ha & H).

(** ** The row scan *)

Lemma find_data_row_loop_spec label_text rs i :
  Forall (fun r => r ≠ []) rs →
  ∃ k, find_data_row_loop i rs label_text = Ok k ∧
    ((k = -1 ∧ Forall (fun r => row_matches label_text r = false) rs) ∨
     (∃ n row, k = i + Z.of_nat n ∧ rs !! n = Some row ∧
        row_matches label_text row = true ∧
        ∀ m row', (m < n)%nat → rs !! m = Some row' →
          row_matches label_text row' = false)).
Proof.
  intros Hne. revert i. induction Hne as [|r rs Hr _ IH]; intros i; simpl.
  - exists (-1). split; [done|]. left. split; [done | constructor].
  - destruct r as [|c r]; [done|]. simpl.
    destruct (label_in_cell label_text c) eqn:Hc.
    + exists i. split; [done|]. right. exists 0%nat, (c :: r).
      repeat split; [lia | | lia].
      unfold row_matches. simpl. done.
    + destruct (IH (i + 1)) as (k & Hk & Hcases).
      exists k. split; [done|].
      destruct Hcases as [[-> Hall] | (n & row & -> & Hrow & Hm & Hfirst)].
      * left. split; [done|]. constructor; [|done].
        unfold row_matches. simpl. done.
      * right. exists (S n), row. repeat split; [lia | done | done |].
        intros [|m] row' Hlt Hlook; simpl in Hlook.
        -- injection Hlook as <-. unfold row_matches. simpl. done.
        -- apply (Hfirst m); [lia | done].
Qed.

Lemma wf_rows_nonempty df :
  wf df → columns df ≠ [] → Forall (fun r => r ≠ []) (rows df).
Proof.
  intros [_ Hlen] Hcols. eapply Forall_impl; [exact Hlen|].
  intros r Hr ->. simpl in Hr. destruct (columns df); [done | discriminate].
Qed.

Lemma label_absent_rows df label_text :
  label_absent df label_text →
  Forall (fun r => r ≠ []) (rows df) ∧
  Forall (fun r => row_matches label_text r = false) (rows df).
Proof.
  intros H. split; apply Forall_forall; intros r Hr;
    destruct (H r Hr) as (c & Hc & Hno).
  - intros ->. discriminate.
  - unfold row_matches. by rewrite Hc.
Qed.

Lemma find_data_row_absent df label_text :
  label_absent df label_text → Main._find_data_row df label_text = Ok (-1).
Proof.
  intros [Hne Hno]%label_absent_rows.
  destruct (find_data_row_loop_spec label_text (rows df) 0 Hne)
    as (k & Hk & [[-> _] | (n & row & _ & Hrow & Hm & _)]); [done|].
  exfalso. rewrite Forall_forall in Hno.
  rewrite (Hno row) in Hm; [done|]. by eapply list_elem_of_lookup_2.
Qed.

(** C8. [_find_data_row] and the two stand-alone [find_data_row] scan the
    rows once from the top: on a frame with at least one column they return
    the smallest row index whose first cell contains the label text
    case-insensitively, and -1 exactly when no row's first cell contains it. *)
Theorem C8_find_data_row_first_match (df : DataFrame) (label_text : string) :
  wf df → columns df ≠ [] →
  ∃ i : Z,
    Main._find_data_row df label_text = Ok i ∧
    DataFromSheetForSlide7.find_data_row df label_text = Ok i ∧
    DataFromSheetForSlide9.find_data_row df label_text = Ok i ∧
    (i = -1 ↔ ∀ row, row ∈ rows df → row_matches label_text row = false) ∧
    (i ≠ -1 →
       0 ≤ i ∧
       (∃ row, rows df !! Z.to_nat i = Some row ∧
               row_matches label_text row = true) ∧
       ∀ (j : nat) row, (j < Z.to_nat i)%nat → rows df !! j = Some row →
         row_matches label_text row = false).
Proof.
  intros Hwf Hcols.
  pose proof (wf_rows_nonempty df Hwf Hcols) as Hne.
  destruct (find_data_row_loop_spec label_text (rows df) 0 Hne)
    as (k & Hk & Hcases).
  exists k. repeat split; try exact Hk.
  - intros ->. destruct Hcases as [[_ Hall] | (n & row & Hn & _)]; [|lia].
    by apply Forall_forall.
  - intros Hall. destruct Hcases as [[-> _] | (n & row & _ & Hrow & Hm & _)]; [done|].
    rewrite (Hall row) in Hm; [done|]. by eapply list_elem_of_lookup_2.
  - destruct Hcases as [[-> _] | (n & row & -> & _)]; [done | lia].
  - destruct Hcases as [[-> _] | (n & row & -> & Hrow & Hm & _)]; [done|].
    exists row. replace (Z.to_nat (0 + Z.of_nat n)) with n by lia. done.
  - destruct Hcases as [[-> _] | (n & row & -> & _ & _ & Hfirst)]; [done|].
    intros j row' Hj Hrow'. apply (Hfirst j); [lia | done].
Qed.

Lemma sample_created_wf : wf sample_created.
Proof. apply (bool_decide_unpack _). vm_compute. exact I. Qed.

Lemma C8_find_data_row_first_match_witness :
  wf sample_created ∧ columns sample_created ≠ [] ∧
  ∃ i : Z,
    Main._find_data_row sample_created "auto CLOSED" = Ok i ∧
    DataFromSheetForSlide7.find_data_row sample_created "auto CLOSED" = Ok i ∧
    DataFromSheetForSlide9.find_data_row sample_created "auto CLOSED" = Ok i ∧
    (i = -1 ↔ ∀ row, row ∈ rows sample_created →
                row_matches "auto CLOSED" row = false) ∧
    (i ≠ -1 →
       0 ≤ i ∧
       (∃ row, rows sample_created !! Z.to_nat i = Some row ∧
               row_matches "auto CLOSED" row = true) ∧
       ∀ (j : nat) row, (j < Z.to_nat i)%nat → rows sample_created !! j = Some row →
         row_matches "auto CLOSED" row = false).
Proof.
  split; [exact sample_created_wf|].
  split; [discriminate|].
  apply (C8_find_data_row_first_match sample_created "auto CLOSED");
    [exact sample_created_wf | discriminate].
Defined.

(** ** The slide-7 block extractor *)

Lemma slide7_extractors_agree_aux df start_label num_rows :
  (DataFromSheetForSlide7.extract_data_block df start_label num_rows).2
  = Main._extract_data_block_slide7 df start_label num_rows.
Proof.
  unfold DataFromSheetForSlide7.extract_data_block, Main._extract_data_block_slide7.
  unfold DataFromSheetForSlide7.find_data_row, Main._find_data_row.
  destruct (find_data_row_loop 0 (rows df) start_label) as [start_row_idx|e]; simpl.
  - destruct (start_row_idx =? -1); reflexivity.
  - reflexivity.
Qed.

(** C7. The stand-alone [extract_data_block] and [_extract_data_block_slide7]
    of the integrated pipeline return the same pair for every frame, start
    label and row count. *)
Theorem C7_slide7_extractors_agree (df : DataFrame) (start_label : string) (num_rows : Z) :
  (DataFromSheetForSlide7.extract_data_block df start_label num_rows).2
  = Main._extract_data_block_slide7 df start_label num_rows.
Proof. apply slide7_extractors_agree_aux. Qed.

(** C4. When no row's first cell contains the start label, the block
    extractor of either script returns the None pair without raising, and
    the chart function given that pair returns the slide as it is. In
    [populate_slide_7] the processing then continues with the two other
    blocks: the call returns what their two chart calls, run in order on the
    untouched slide, make of it. *)
Theorem C4_missing_label_block_skipped (df : DataFrame) (start_label : string)
    (num_rows : Z) :
  label_absent df start_label →
  Main._extract_data_block_slide7 df start_label num_rows = Ok None ∧
  (DataFromSheetForSlide7.extract_data_block df start_label num_rows).2 = Ok None ∧
  (∀ slide pos title y_axis_max num_gridlines,
     Main._add_bar_chart_slide7 slide None pos title y_axis_max num_gridlines
       = Ok slide) ∧
  (start_label = "Tools Created" →
   ∀ (prs : Presentation) slide_index slide closed stats,
     Py.index prs slide_index = Ok slide →
     Main._extract_data_block_slide7 df "Auto closed by Tools" 2 = Ok closed →
     Main._extract_stats_data_slide7 df = Ok stats →
     Main.populate_slide_7 prs df slide_index =
       (slide1 ← Main._add_bar_chart_slide7 slide closed Main.pos_resolved
                   "INC Resolved by" (Some 1600) (Some 7);
        slide2 ← Main._add_bar_chart_slide7 slide1 stats Main.pos_stats
                   "INC Stats" (Some 1600) (Some 7);
        Ok (<[Z.to_nat (Py.norm_index (Z.of_nat (length prs)) slide_index) := slide2]>
              prs))).
Proof.
  intros Habs.
  assert (Hmain : ∀ n, Main._extract_data_block_slide7 df start_label n = Ok None).
  { intros n. unfold Main._extract_data_block_slide7.
    rewrite (find_data_row_absent df start_label Habs). reflexivity. }
  split; [apply Hmain|].
  split; [by rewrite slide7_extractors_agree_aux|].
  split; [reflexivity|].
  intros -> prs slide_index slide closed stats Hslide Hclosed Hstats.
  unfold Main.populate_slide_7.
  rewrite Hslide. cbn [mbind result_bind]. rewrite Hmain. cbn [mbind result_bind].
  rewrite Hclosed. cbn [mbind result_bind]. rewrite Hstats. reflexivity.
Qed.

Lemma label_absent_sample : label_absent sample_created "Tools Created".
Proof.
  intros row Hrow. unfold sample_created in Hrow. simpl in Hrow.
  repeat (apply elem_of_cons in Hrow as [-> | Hrow];
          [eexists; split; [reflexivity | vm_compute; reflexivity] |]).
  by apply elem_of_nil in Hrow.
Qed.

Lemma C4_missing_label_block_skipped_witness :
  label_absent sample_created "Tools Created" ∧
  Main._extract_data_block_slide7 sample_created "Tools Created" 4 = Ok None ∧
  (DataFromSheetForSlide7.extract_data_block sample_created "Tools Created" 4).2
    = Ok None ∧
  ∃ resolved_chart stats_chart,
    Main.populate_slide_7 sample_template sample_created 3
    = Ok [[]; []; [main_title; line_chart]; [resolved_chart; stats_chart];
          []; []; []] ∧
    bar_chart_of resolved_chart Main.pos_resolved "INC Resolved by"
      [CStr "Auto closed by Tools"; CStr "Closed by L2"]
      [("Week 22", [CInt 2; CInt 7]); ("Week 23", [CInt 3; CInt 8]);
       ("Week 24", [CInt 4; CInt 9]); ("Week 25", [CInt 5; CInt 10])].
Proof.
  split; [exact label_absent_sample|].
  pose proof (C4_missing_label_block_skipped sample_created "Tools Created" 4
                label_absent_sample) as (H1 & H2 & _ & H4).
  split; [exact H1|]. split; [exact H2|].
  pose proof (H4 eq_refl sample_template 3 []
              (Some ([CStr "Auto closed by Tools"; CStr "Closed by L2"],
                     [("Week 22", [CInt 2; CInt 7]); ("Week 23", [CInt 3; CInt 8]);
                      ("Week 24", [CInt 4; CInt 9]); ("Week 25", [CInt 5; CInt 10])]))
              (Some ([CStr "INCs created"; CStr "INCs resolved"],
                     [("Week 22", [CInt 11; CInt 8]); ("Week 23", [CInt 12; CInt 7]);
                      ("Week 24", [CInt 13; CInt 6]); ("Week 25", [CInt 14; CInt 5])]))
              eq_refl eq_refl eq_refl) as Hrun.
  rewrite Hrun. eexists _, _. split; [reflexivity|].
  split; [reflexivity|]. eexists. split; [reflexivity|]. by repeat split.
Defined.

(** ** Dictionaries *)

Section dict_lemmas.
Context {K V : Type} `{EqDecision K}.
Implicit Types (d kvs : list (K * V)).

Lemma dict_set_Forall (Q : K * V → Prop) d k v :
  Forall Q d → Q (k, v) → Forall Q (dict_set d k v).
Proof.
  induction 1 as [|[k' v'] d Hq Hd IH]; intros Hkv; simpl.
  - by repeat constructor.
  - case_decide; constructor; auto.
Qed.

Lemma dict_of_Forall (Q : K * V → Prop) kvs :
  Forall Q kvs → Forall Q (dict_of kvs).
Proof.
  unfold dict_of.
  assert (∀ d, Forall Q d → Forall Q kvs →
               Forall Q (foldl (fun d kv => dict_set d kv.1 kv.2) d kvs)) as Hgen.
  { induction kvs as [|[k v] kvs IH]; intros d Hd Hkvs; simpl; [done|].
    apply IH; [|by eapply Forall_inv_tail].
    apply dict_set_Forall; [done|]. by eapply Forall_inv in Hkvs. }
  intros Hkvs. apply Hgen; [constructor | done].
Qed.

Lemma dict_get_set d k v k' :
  dict_get (dict_set d k v) k' = if decide (k = k') then Some v else dict_get d k'.
Proof.
  induction d as [|[k0 v0] d IH]; simpl.
  - repeat case_decide; congruence.
  - destruct (decide (k0 = k)) as [->|Hne]; simpl.
    + repeat case_decide; congruence.
    + rewrite IH. repeat case_decide; congruence.
Qed.

Lemma dict_get_foldl_ne d kvs k :
  k ∉ kvs.*1 →
  dict_get (foldl (fun d kv => dict_set d kv.1 kv.2) d kvs) k = dict_get d k.
Proof.
  revert d. induction kvs as [|[k0 v0] kvs IH]; intros d Hk; simpl; [done|].
  simpl in Hk. apply not_elem_of_cons in Hk as [Hne Hk].
  rewrite IH by done. rewrite dict_get_set. case_decide; congruence.
Qed.

(** The value of a key is the one written last. *)
Lemma dict_get_dict_of_last kvs1 kvs2 k v :
  k ∉ kvs2.*1 → dict_get (dict_of (kvs1 ++ (k, v) :: kvs2)) k = Some v.
Proof.
  intros Hk. unfold dict_of. rewrite foldl_app. simpl.
  rewrite dict_get_foldl_ne by done. rewrite dict_get_set.
  case_decide; congruence.
Qed.

End dict_lemmas.

(** ** Slices of rows *)

Lemma elem_of_take_drop {A} (l : list A) n m x : x ∈ take n (drop m l) → x ∈ l.
Proof.
  intros (i & Hi & _)%elem_of_take. rewrite lookup_drop in Hi.
  by eapply list_elem_of_lookup_2.
Qed.

Lemma elem_of_slice {A} (l : list A) a b x : x ∈ Py.slice l a b → x ∈ l.
Proof. apply elem_of_take_drop. Qed.

Lemma elem_of_last4 {A} (l : list A) x : x ∈ Py.last4 l → x ∈ l.
Proof.
  unfold Py.last4. intros (i & Hi)%list_elem_of_lookup_1.
  rewrite lookup_drop in Hi. by eapply list_elem_of_lookup_2.
Qed.

Lemma elem_of_loc_rows df a b r : r ∈ Pandas.loc_rows df a b → r ∈ rows df.
Proof. apply elem_of_take_drop. Qed.

Lemma elem_of_tail {A} (l : list A) x : x ∈ tail l → x ∈ l.
Proof. destruct l; simpl; [done | by right]. Qed.

(** On the default index a label slice [a : b - 1] and a positional slice
    [a : b] with non-negative bounds take the same rows. *)
Lemma loc_rows_iloc_rows df a b :
  0 ≤ a → 0 ≤ b → Pandas.loc_rows df a (b - 1) = Pandas.iloc_rows df a b.
Proof.
  intros Ha Hb. unfold Pandas.loc_rows, Pandas.iloc_rows, Py.slice, Py.clamp.
  destruct (a <? 0) eqn:Ea; [lia|]. destruct (b <? 0) eqn:Eb; [lia|].
  replace (b - 1 + 1) with b by lia.
  rewrite !Z.max_l by lia. reflexivity.
Qed.

(** With non-negative bounds a positional slice is a [take] of a [drop]. *)
Lemma slice_take_drop {A} (l : list A) a n :
  0 ≤ a → 0 ≤ n →
  Py.slice l a (a + n) = take (Z.to_nat n) (drop (Z.to_nat a) l).
Proof.
  intros Ha Hn. unfold Py.slice, Py.clamp.
  destruct (a <? 0) eqn:Ea; [lia|]. destruct (a + n <? 0) eqn:Eb; [lia|].
  destruct (decide (Z.of_nat (length l) ≤ a)) as [Hge|Hlt].
  - rewrite !drop_ge by lia. by rewrite !take_nil.
  - rewrite (Z.min_l a) by lia.
    destruct (decide (a + n ≤ Z.of_nat (length l))) as [Hin|Hout].
    + rewrite Z.min_l by lia. f_equal. lia.
    + rewrite Z.min_r by lia.
      rewrite !take_ge; [done | rewrite length_drop; lia | rewrite length_drop; lia].
Qed.

Lemma find_data_row_loop_range label_text rs i k :
  find_data_row_loop i rs label_text = Ok k → k = -1 ∨ i ≤ k.
Proof.
  revert i. induction rs as [|r rs IH]; intros i; simpl.
  - intros [= <-]. by left.
  - intros H. bind_inv H. destruct (label_in_cell label_text a).
    + injection H as <-. right. lia.
    + apply IH in H as [-> | Hle]; [by left | right; lia].
Qed.

Lemma find_data_row_found df label_text k :
  Main._find_data_row df label_text = Ok k → (k =? -1) = false → 0 ≤ k.
Proof.
  intros [-> | Hle]%find_data_row_loop_range Hk; [done | lia].
Qed.

(** ** Columns *)

Lemma col_pos_lt cols col p : Pandas.col_pos cols col = Some p → (p < length cols)%nat.
Proof.
  revert p. induction cols as [|c cols IH]; intros p; simpl; [done|].
  case_decide.
  - intros [= <-]. lia.
  - destruct (Pandas.col_pos cols col) as [q|]; simpl; [|done].
    intros [= <-]. specialize (IH q eq_refl). lia.
Qed.

Lemma col_pos_lookup cols col p : Pandas.col_pos cols col = Some p → cols !! p = Some col.
Proof.
  revert p. induction cols as [|c cols IH]; intros p; simpl; [done|].
  case_decide.
  - intros [= <-]. by subst.
  - destruct (Pandas.col_pos cols col) as [q|]; simpl; [|done].
    intros [= <-]. simpl. by apply IH.
Qed.

(** With distinct labels the position of a label is where it stands. *)
Lemma col_pos_NoDup cols col p :
  NoDup cols → cols !! p = Some col → Pandas.col_pos cols col = Some p.
Proof.
  intros Hnd Hp. destruct (Pandas.col_pos cols col) as [q|] eqn:Hq.
  - apply col_pos_lookup in Hq. f_equal. by eapply NoDup_lookup.
  - exfalso. clear Hnd. revert p Hp Hq.
    induction cols as [|c cols IH]; intros p Hp; simpl; [done|].
    case_decide; [done|]. destruct p as [|p]; simpl in Hp; [congruence|].
    destruct (Pandas.col_pos cols col) eqn:E; simpl; [done|].
    intros _. by eapply IH.
Qed.

(** A column is read when its label stands over exactly one column. *)
Lemma column_values_inv cols rs col vs :
  Pandas.column_values cols rs col = Ok vs →
  ∃ p, Pandas.col_pos cols col = Some p ∧ (col ∉ drop (S p) cols) ∧
       vs = column_at p rs.
Proof.
  unfold Pandas.column_values. intros H.
  destruct (Pandas.col_pos cols col) as [p|]; simpl in H; [|done].
  case_bool_decide; [done|]. injection H as <-. by exists p.
Qed.

Lemma NoDup_not_in_drop {A} (l : list A) p x :
  NoDup l → l !! p = Some x → x ∉ drop (S p) l.
Proof.
  intros Hnd Hp Hin. apply list_elem_of_lookup_1 in Hin as [k Hk].
  rewrite lookup_drop in Hk.
  pose proof (NoDup_lookup l p (S p + k) x Hnd Hp Hk). lia.
Qed.

Lemma column_values_length cols rs col vs :
  Pandas.column_values cols rs col = Ok vs → length vs = length rs.
Proof.
  intros (p & _ & _ & ->)%column_values_inv. unfold column_at.
  by rewrite length_fmap.
Qed.

(** In a rectangular frame the values of a column are cells of its rows. *)
Lemma column_values_cells cols rs col vs v :
  Forall (fun r => length r = length cols) rs →
  Pandas.column_values cols rs col = Ok vs → v ∈ vs →
  ∃ r, r ∈ rs ∧ v ∈ r.
Proof.
  intros Hlen (p & Hp & _ & ->)%column_values_inv Hv.
  apply list_elem_of_fmap in Hv as (r & -> & Hr).
  apply col_pos_lt in Hp.
  rewrite Forall_forall in Hlen. specialize (Hlen r Hr).
  destruct (lookup_lt_is_Some_2 r p) as [x Hx]; [lia|].
  exists r. split; [done|]. rewrite Hx. simpl. by eapply list_elem_of_lookup_2.
Qed.

Lemma mapM_Ok_Forall {A B} (f : A → result B) (Q : B → Prop) l k :
  (∀ x y, x ∈ l → f x = Ok y → Q y) → mapM f l = Ok k → Forall Q k.
Proof.
  intros HQ H%mapM_Ok_inv. induction H as [|x y l k Hx _ IH]; constructor.
  - eapply HQ; [left | done].
  - apply IH. intros x' y' Hin. apply HQ. by right.
Qed.

Lemma series_dict_lengths df a b hs cols d :
  series_dict df a b hs cols = Ok d →
  Forall (fun kv => length kv.2 = length (Pandas.loc_rows df a b)) d.
Proof.
  unfold series_dict. intros H. bind_inv H. injection H as <-.
  apply dict_of_Forall. eapply mapM_Ok_Forall; [|exact Ha].
  intros [h col] [h' vs] _ Hx. simpl in Hx. bind_inv Hx. injection Hx as <- <-.
  simpl. by eapply column_values_length.
Qed.

Lemma iloc_rows_col0_length df a b cats :
  Pandas.iloc_rows_col0 df a b = Ok cats →
  length cats = length (Pandas.iloc_rows df a b).
Proof.
  unfold Pandas.iloc_rows_col0. destruct (columns df); [done|].
  intros [= <-]. by rewrite length_fmap.
Qed.

(** ** Shape of the results *)

(** C10. In every successful extraction each series list is as long as the
    list of categories (row labels) returned with it; for the extractors that
    take a row count, the count is not negative. *)
Theorem C10_series_lengths_match (df : DataFrame) :
  (∀ title header_row_idx num_data_rows t,
     Main._extract_slide6_table_data df title header_row_idx num_data_rows = Ok t →
     Forall (fun kv => length kv.2 = length (row_labels t)) (data t)) ∧
  (∀ start_label num_rows categories data_dict,
     0 ≤ num_rows →
     Main._extract_data_block_slide7 df start_label num_rows
       = Ok (Some (categories, data_dict)) →
     Forall (fun kv => length kv.2 = length categories) data_dict) ∧
  (∀ series_labels week_column_label categories data_dict,
     Main._extract_pending_data_slide8 df series_labels week_column_label
       = Ok (Some (categories, data_dict)) →
     Forall (fun kv => length kv.2 = length categories) data_dict) ∧
  (∀ start_label num_rows categories data_dict headers,
     0 ≤ num_rows →
     Main._extract_data_block_slide9 df start_label num_rows
       = Ok (Some ((categories, data_dict), headers)) →
     Forall (fun kv => length kv.2 = length categories) data_dict).
Proof.
  repeat split.
  - intros title header_row_idx num_data_rows t H.
    unfold Main._extract_slide6_table_data in H.
    bind_inv H. bind_inv H. bind_inv H. bind_inv H. injection H as <-. simpl.
    apply dict_of_Forall. eapply mapM_Ok_Forall; [|exact Ha2].
    intros [col h] [h' vs] _ Hx. simpl in Hx. bind_inv Hx. injection Hx as <- <-.
    simpl. apply column_values_length in Ha3. rewrite Ha3.
    unfold Pandas.set_index_first in Ha1. destruct (columns df); [done|].
    injection Ha1 as <-. simpl. by rewrite !length_fmap.
  - intros start_label num_rows categories data_dict Hn H.
    unfold Main._extract_data_block_slide7 in H. bind_inv H.
    destruct (a =? -1) eqn:Ek; [done|].
    pose proof (find_data_row_found _ _ _ Ha Ek) as Hpos.
    bind_inv H. bind_inv H. bind_inv H. bind_inv H. injection H as <- <-.
    apply series_dict_lengths in Ha3.
    rewrite loc_rows_iloc_rows in Ha3 by lia.
    apply iloc_rows_col0_length in Ha2. by rewrite Ha2.
  - intros series_labels week_column_label categories data_dict H.
    unfold Main._extract_pending_data_slide8 in H.
    case_bool_decide; [done|]. bind_inv H. bind_inv H. injection H as <- <-.
    apply dict_of_Forall. eapply mapM_Ok_Forall; [|exact Ha0].
    intros l [l' vs] _ Hx. simpl in Hx. bind_inv Hx. injection Hx as <- <-.
    simpl. apply column_values_length in Ha, Ha1. rewrite length_fmap. congruence.
  - intros start_label num_rows categories data_dict headers Hn H.
    unfold Main._extract_data_block_slide9 in H. bind_inv H.
    destruct (a =? -1) eqn:Ek; [done|].
    pose proof (find_data_row_found _ _ _ Ha Ek) as Hpos.
    bind_inv H. bind_inv H. bind_inv H. bind_inv H. injection H as <- <- <-.
    apply series_dict_lengths in Ha3.
    rewrite loc_rows_iloc_rows in Ha3 by lia.
    apply iloc_rows_col0_length in Ha2. by rewrite Ha2.
Qed.

Lemma C10_series_lengths_match_witness :
  0 ≤ 2 ∧
  Main._extract_data_block_slide7 sample_created "Auto closed by Tools" 2
    = Ok (Some ([CStr "Auto closed by Tools"; CStr "Closed by L2"],
                [("Week 22", [CInt 2; CInt 7]); ("Week 23", [CInt 3; CInt 8]);
                 ("Week 24", [CInt 4; CInt 9]); ("Week 25", [CInt 5; CInt 10])])) ∧
  Forall (fun kv : string * list cell => length kv.2 = 2%nat)
    [("Week 22", [CInt 2; CInt 7]); ("Week 23", [CInt 3; CInt 8]);
     ("Week 24", [CInt 4; CInt 9]); ("Week 25", [CInt 5; CInt 10])].
Proof.
  split; [lia|]. split; [vm_compute; reflexivity|].
  destruct (C10_series_lengths_match sample_created) as (_ & H7 & _).
  apply (H7 "Auto closed by Tools" 2
            [CStr "Auto closed by Tools"; CStr "Closed by L2"]);
    [lia | vm_compute; reflexivity].
Defined.

(** ** Values are copies of cells *)

Lemma wf_rows_sub df rs :
  wf df → (∀ r, r ∈ rs → r ∈ rows df) →
  Forall (fun r => length r = length (columns df)) rs.
Proof.
  intros [_ Hlen] Hsub. rewrite Forall_forall in Hlen.
  apply Forall_forall. intros r Hr. apply Hlen, Hsub, Hr.
Qed.

Lemma column_values_copies df rs col vs :
  wf df → (∀ r, r ∈ rs → r ∈ rows df) →
  Pandas.column_values (columns df) rs col = Ok vs → Forall (cell_of df) vs.
Proof.
  intros Hwf Hsub H. apply Forall_forall. intros v Hv.
  destruct (column_values_cells _ _ _ _ v (wf_rows_sub df rs Hwf Hsub) H Hv)
    as (r & Hr & Hvr).
  exists r. split; [by apply Hsub | done].
Qed.

Lemma series_dict_copies df a b hs cols d :
  wf df → series_dict df a b hs cols = Ok d → copies_of df d.
Proof.
  unfold series_dict. intros Hwf H. bind_inv H. injection H as <-.
  apply dict_of_Forall. eapply mapM_Ok_Forall; [|exact Ha].
  intros [h col] [h' vs] _ Hx. simpl in Hx. bind_inv Hx. injection Hx as <- <-.
  simpl. eapply column_values_copies; [done | | exact Ha0].
  apply elem_of_loc_rows.
Qed.

(** C9. The four chart and table extractors are functions of their
    arguments: two evaluations on the same frame and arguments give equal
    results; and on a rectangular frame every value in the returned data
    lists is one of the cells of the frame. *)
Theorem C9_extraction_deterministic_copies (df : DataFrame) :
  wf df →
  (∀ title header_row_idx num_data_rows r1 r2,
     Main._extract_slide6_table_data df title header_row_idx num_data_rows = r1 →
     Main._extract_slide6_table_data df title header_row_idx num_data_rows = r2 →
     r1 = r2) ∧
  (∀ start_label num_rows r1 r2,
     Main._extract_data_block_slide7 df start_label num_rows = r1 →
     Main._extract_data_block_slide7 df start_label num_rows = r2 → r1 = r2) ∧
  (∀ series_labels week_column_label r1 r2,
     Main._extract_pending_data_slide8 df series_labels week_column_label = r1 →
     Main._extract_pending_data_slide8 df series_labels week_column_label = r2 →
     r1 = r2) ∧
  (∀ start_label num_rows r1 r2,
     Main._extract_data_block_slide9 df start_label num_rows = r1 →
     Main._extract_data_block_slide9 df start_label num_rows = r2 → r1 = r2) ∧
  (∀ title header_row_idx num_data_rows t,
     Main._extract_slide6_table_data df title header_row_idx num_data_rows = Ok t →
     copies_of df (data t)) ∧
  (∀ start_label num_rows categories data_dict,
     Main._extract_data_block_slide7 df start_label num_rows
       = Ok (Some (categories, data_dict)) →
     copies_of df data_dict) ∧
  (∀ series_labels week_column_label categories data_dict,
     Main._extract_pending_data_slide8 df series_labels week_column_label
       = Ok (Some (categories, data_dict)) →
     copies_of df data_dict) ∧
  (∀ start_label num_rows categories data_dict headers,
     Main._extract_data_block_slide9 df start_label num_rows
       = Ok (Some ((categories, data_dict), headers)) →
     copies_of df data_dict).
Proof.
  intros Hwf.
  split; [congruence|]. split; [congruence|].
  split; [congruence|]. split; [congruence|].
  repeat split.
  - intros title header_row_idx num_data_rows t H.
    unfold Main._extract_slide6_table_data in H.
    bind_inv H. bind_inv H. bind_inv H. bind_inv H. injection H as <-. simpl.
    apply dict_of_Forall. eapply mapM_Ok_Forall; [|exact Ha2].
    intros [col h] [h' vs] _ Hx. simpl in Hx. bind_inv Hx. injection Hx as <- <-.
    simpl. unfold Pandas.set_index_first in Ha1.
    destruct (columns df) as [|c0 cols'] eqn:Hcols; [done|].
    injection Ha1 as <-. simpl in Ha3.
    apply Forall_forall. intros v Hv.
    assert (Hsub : ∀ r, r ∈ Pandas.iloc_rows df (header_row_idx + 1)
                              (header_row_idx + 1 + num_data_rows) → r ∈ rows df)
      by apply elem_of_slice.
    pose proof (wf_rows_sub df _ Hwf Hsub) as Hlen. rewrite Hcols in Hlen.
    assert (Hlen' : Forall (fun r => length r = length cols')
              (tail <$> Pandas.iloc_rows df (header_row_idx + 1)
                          (header_row_idx + 1 + num_data_rows))).
    { apply Forall_fmap. eapply Forall_impl; [exact Hlen|].
      intros [|c r]; simpl; [done | lia]. }
    destruct (column_values_cells _ _ _ _ v Hlen' Ha3 Hv) as (r' & Hr' & Hvr).
    apply list_elem_of_fmap in Hr' as (r & -> & Hr).
    exists r. split; [by apply Hsub | by apply elem_of_tail].
  - intros start_label num_rows categories data_dict H.
    unfold Main._extract_data_block_slide7 in H. bind_inv H.
    destruct (a =? -1); [done|].
    bind_inv H. bind_inv H. bind_inv H. bind_inv H. injection H as <- <-.
    by eapply series_dict_copies.
  - intros series_labels week_column_label categories data_dict H.
    unfold Main._extract_pending_data_slide8 in H.
    case_bool_decide; [done|]. bind_inv H. bind_inv H. injection H as <- <-.
    apply dict_of_Forall. eapply mapM_Ok_Forall; [|exact Ha0].
    intros l [l' vs] _ Hx. simpl in Hx. bind_inv Hx. injection Hx as <- <-.
    simpl. eapply column_values_copies; [done | | exact Ha1].
    apply elem_of_last4.
  - intros start_label num_rows categories data_dict headers H.
    unfold Main._extract_data_block_slide9 in H. bind_inv H.
    destruct (a =? -1); [done|].
    bind_inv H. bind_inv H. bind_inv H. bind_inv H. injection H as <- <- <-.
    by eapply series_dict_copies.
Qed.

Lemma C9_extraction_deterministic_copies_witness :
  wf sample_created ∧
  copies_of sample_created
    [("Week 22", [CInt 2; CInt 7]); ("Week 23", [CInt 3; CInt 8]);
     ("Week 24", [CInt 4; CInt 9]); ("Week 25", [CInt 5; CInt 10])].
Proof.
  split; [exact sample_created_wf|].
  destruct (C9_extraction_deterministic_copies sample_created sample_created_wf)
    as (_ & _ & _ & _ & _ & H7 & _).
  apply (H7 "Auto closed by Tools" 2
            [CStr "Auto closed by Tools"; CStr "Closed by L2"]).
  vm_compute. reflexivity.
Defined.

(** ** The slide-6 table extractor *)

Lemma iloc_row_lookup df i row :
  0 ≤ i → rows df !! Z.to_nat i = Some row → Pandas.iloc_row df i = Ok row.
Proof.
  intros Hi Hrow. unfold Pandas.iloc_row, Py.index, Py.norm_index.
  pose proof (lookup_lt_Some _ _ _ Hrow) as Hlt.
  destruct (i <? 0) eqn:E; [lia|].
  destruct (0 <=? i) eqn:E1; [|lia].
  destruct (i <? Z.of_nat (length (rows df))) eqn:E2; [|lia].
  simpl. by rewrite Hrow.
Qed.

Lemma series_get_NoDup cols row col h p :
  NoDup cols → cols !! p = Some col → row !! p = Some h →
  Pandas.series_get cols row col = Ok h.
Proof.
  intros Hnd Hc Hh. unfold Pandas.series_get.
  rewrite (col_pos_NoDup _ _ _ Hnd Hc). simpl. by rewrite Hh.
Qed.

(** With distinct labels each column reads its own header cell. *)
Lemma header_items_zip df header_row :
  NoDup (columns df) → length header_row = length (columns df) →
  header_items df header_row = Ok (zip (columns df) header_row).
Proof.
  intros Hnd Hlen. unfold header_items. apply mapM_Ok_intro.
  apply Forall2_same_length_lookup_2.
  - rewrite length_zip. lia.
  - intros i col [c h] Hcol Hz.
    apply lookup_zip_with_Some in Hz as (c' & h' & [= -> ->] & Hc' & Hh').
    assert (c' = col) as -> by congruence.
    by rewrite (series_get_NoDup _ _ _ h' i Hnd Hcol Hh').
Qed.

Lemma is_week_not_nan c : is_week c → c ≠ CNaN.
Proof. intros Hw ->. vm_compute in Hw. done. Qed.

Lemma cell_eqb_eq x d : d ≠ CNaN → cell_eqb x d = true ↔ x = d.
Proof.
  intros Hd. destruct x, d; simpl; try done; rewrite bool_decide_eq_true;
    split; congruence.
Qed.

Lemma cell_in_elem_of x L :
  Forall (fun c => is_week c) L → cell_in x L = true ↔ x ∈ L.
Proof.
  intros HL. unfold cell_in. induction HL as [|d L Hd _ IH]; simpl.
  - split; [done | by intros ?%elem_of_nil].
  - rewrite orb_true_iff, IH, elem_of_cons.
    by rewrite (cell_eqb_eq x d (is_week_not_nan d Hd)).
Qed.

Lemma last4_weeks_are_weeks (header_row : list cell) :
  Forall (fun c => is_week c) (Py.last4 (filter (fun c => is_week c) header_row)).
Proof.
  unfold Py.last4. apply Forall_drop, Forall_forall.
  by intros c [Hc _]%list_elem_of_filter.
Qed.

Lemma length_last4 {A} (l : list A) : (4 ≤ length l)%nat → length (Py.last4 l) = 4%nat.
Proof. intros H. unfold Py.last4. rewrite length_drop. lia. Qed.

Lemma column_at_tail p rs : column_at p (tail <$> rs) = column_at (S p) rs.
Proof.
  unfold column_at. rewrite <- list_fmap_compose. apply list_fmap_ext.
  intros _ r _. simpl. by rewrite lookup_tail.
Qed.

Lemma column_values_NoDup cols rs col p :
  NoDup cols → cols !! p = Some col →
  Pandas.column_values cols rs col = Ok (column_at p rs).
Proof.
  intros Hnd Hp. unfold Pandas.column_values.
  rewrite (col_pos_NoDup _ _ _ Hnd Hp). simpl.
  by rewrite bool_decide_eq_false_2 by by apply NoDup_not_in_drop.
Qed.

Lemma col_pos_is_Some cols col : col ∈ cols → is_Some (Pandas.col_pos cols col).
Proof.
  induction cols as [|c cols IH]; simpl; [by intros ?%elem_of_nil|].
  intros [->|Hin]%elem_of_cons.
  - rewrite decide_True by done. eauto.
  - case_decide; [eauto|]. destruct (IH Hin) as [q ->]. simpl. eauto.
Qed.

Lemma week_filter_zip (l : list label) (k : list cell) :
  length l = length k →
  (filter (fun ch : label * cell => is_week ch.2) (zip l k)).*2
  = filter (fun c => is_week c) k.
Proof.
  revert k. induction l as [|x l IH]; intros [|y k] Hlen; simpl in *; try done.
  rewrite !filter_cons. simpl. destruct (decide (is_week y)); simpl; rewrite IH; auto.
Qed.

(** The entries written into the dictionary of the slide-6 extractor, for
    week columns taken among the columns after the first. *)
Lemma slide6_entries cols' (W : list (label * cell)) rs :
  NoDup cols' →
  (∀ ch, ch ∈ W → ch.1 ∈ cols') →
  mapM (fun ch : label * cell =>
          vs ← Pandas.column_values cols' rs ch.1; Ok (ch.2, vs)) W
  = Ok ((fun ch => (ch.2, column_at (default 0%nat (Pandas.col_pos cols' ch.1)) rs))
        <$> W).
Proof.
  intros Hnd HW. apply mapM_Ok_fmap. intros ch Hch.
  destruct (col_pos_is_Some cols' ch.1 (HW ch Hch)) as [q Hq].
  rewrite (column_values_NoDup cols' rs ch.1 q Hnd (col_pos_lookup _ _ _ Hq)), Hq.
  reflexivity.
Qed.

(** C1 (as amended). When row [header_row_idx] holds at least four cells
    containing "Week" and the header cell of the first column, which becomes
    the row labels, is not one of the last four such labels, the extractor
    returns those four labels in column order as headers; each header's data
    list holds the cells of the last column carrying that header, taken from
    the rows below the header row, at most [num_data_rows] of them and
    exactly that many when the frame has them. *)
Theorem C1_slide6_last_four_weeks (df : DataFrame) (title_text : string)
    (header_row_idx num_data_rows : Z) (header_row : list cell) :
  wf df → 0 ≤ header_row_idx → 0 ≤ num_data_rows →
  rows df !! Z.to_nat header_row_idx = Some header_row →
  (4 ≤ length (filter (fun c => is_week c) header_row))%nat →
  (∀ c, head header_row = Some c →
        c ∉ Py.last4 (filter (fun c => is_week c) header_row)) →
  ∃ t,
    Main._extract_slide6_table_data df title_text header_row_idx num_data_rows = Ok t ∧
    title t = title_text ∧
    headers t = Py.last4 (filter (fun c => is_week c) header_row) ∧
    length (headers t) = 4%nat ∧
    let below := take (Z.to_nat num_data_rows)
                      (drop (S (Z.to_nat header_row_idx)) (rows df)) in
    row_labels t = column_at 0 below ∧
    (∀ pre h post,
       header_row = (pre ++ h :: post)%list → h ∈ headers t → h ∉ post →
       dict_get (data t) h = Some (column_at (length pre) below)) ∧
    (∀ h, h ∈ headers t → is_Some (dict_get (data t) h)) ∧
    (header_row_idx + num_data_rows < Z.of_nat (length (rows df)) →
     length below = Z.to_nat num_data_rows).
Proof.
  intros Hwf Hidx Hnum Hrow Hfour Hfirst.
  set (L := Py.last4 (filter (fun c => is_week c) header_row)) in *.
  pose proof (last4_weeks_are_weeks header_row) as HL. fold L in HL.
  destruct Hwf as [Hnd Hlen].
  assert (Hhl : length header_row = length (columns df)).
  { rewrite Forall_forall in Hlen. apply Hlen. by eapply list_elem_of_lookup_2. }
  destruct header_row as [|h0 hr'] eqn:Hhr.
  { simpl in Hfour. lia. }
  destruct (columns df) as [|c0 cols'] eqn:Hcols; [done|].
  simpl in Hhl. injection Hhl as Hhl.
  apply NoDup_cons in Hnd as [Hc0 Hnd'].
  assert (Hh0 : cell_in h0 L = false).
  { destruct (cell_in h0 L) eqn:E; [|done].
    apply cell_in_elem_of in E; [|done]. by destruct (Hfirst h0 eq_refl). }
  set (below := take (Z.to_nat num_data_rows)
                     (drop (S (Z.to_nat header_row_idx)) (rows df))).
  set (W := filter (fun ch : label * cell => cell_in ch.2 L) (zip cols' hr')).
  set (g := fun ch : label * cell =>
              (ch.2, column_at (default 0%nat (Pandas.col_pos cols' ch.1))
                       (tail <$> below))).
  assert (HWin : ∀ ch, ch ∈ W → ch.1 ∈ cols').
  { intros [c h] [_ Hin]%list_elem_of_filter. simpl.
    apply list_elem_of_lookup_1 in Hin as [i Hi].
    apply lookup_zip_with_Some in Hi as (c' & h' & [= -> ->] & Hc' & _).
    by eapply list_elem_of_lookup_2. }
  assert (Hrun : Main._extract_slide6_table_data df title_text header_row_idx
                   num_data_rows
                 = Ok {| title := title_text; headers := L;
                         row_labels := column_at 0 below;
                         data := dict_of (g <$> W) |}).
  { unfold Main._extract_slide6_table_data.
    rewrite (iloc_row_lookup df header_row_idx (h0 :: hr') Hidx Hrow). simpl.
    rewrite header_items_zip; [| rewrite Hcols; by apply NoDup_cons | rewrite Hcols; simpl; lia].
    rewrite Hcols. simpl.
    change ((c0, h0) :: zip cols' hr') with (zip (c0 :: cols') (h0 :: hr')).
    rewrite week_filter_zip by (simpl; lia).
    fold L. simpl zip. rewrite filter_cons_False by (simpl; rewrite Hh0; auto).
    fold W.
    assert (Hbelow : Pandas.iloc_rows df (header_row_idx + 1)
                       (header_row_idx + 1 + num_data_rows) = below).
    { unfold Pandas.iloc_rows. rewrite slice_take_drop by lia.
      unfold below. do 2 f_equal. lia. }
    rewrite Hbelow.
    rewrite (slide6_entries cols' W (tail <$> below) Hnd' HWin). simpl.
    do 2 f_equal. unfold column_at. apply list_fmap_ext.
    intros _ r _. by rewrite head_lookup. }
  eexists. split; [exact Hrun|]. simpl.
  split; [done|]. split; [done|].
  split; [by apply length_last4|].
  split; [done|].
  assert (Hget : ∀ pre h post,
       h0 :: hr' = (pre ++ h :: post)%list → h ∈ L → h ∉ post →
       dict_get (dict_of (g <$> W)) h = Some (column_at (length pre) below)).
  { intros pre h post Hsplit HhL Hpost.
    destruct pre as [|h0' pre'].
    { simpl in Hsplit. injection Hsplit as <- _. by destruct (Hfirst h0 eq_refl). }
    simpl in Hsplit. injection Hsplit as <- Hhr'.
    assert (Hlpre : (length pre' < length cols')%nat).
    { rewrite <- Hhl, Hhr', length_app. simpl. lia. }
    destruct (lookup_lt_is_Some_2 cols' (length pre') Hlpre) as [c Hc].
    assert (Hcsplit : cols' = (take (length pre') cols' ++ c :: drop (S (length pre')) cols')%list).
    { symmetry. by apply take_drop_middle. }
    assert (HW : W = (filter (fun ch : label * cell => cell_in ch.2 L)
                        (zip (take (length pre') cols') pre')
                      ++ (c, h) ::
                      filter (fun ch : label * cell => cell_in ch.2 L)
                        (zip (drop (S (length pre')) cols') post))%list).
    { unfold W. rewrite Hcsplit at 1. rewrite Hhr'.
      rewrite zip_with_app by (rewrite length_take; lia).
      simpl. rewrite filter_app, filter_cons_True; [done|].
      simpl. apply Is_true_true. by apply cell_in_elem_of. }
    rewrite HW, fmap_app, fmap_cons.
    change (g (c, h))
      with (h, column_at (default 0%nat (Pandas.col_pos cols' c)) (tail <$> below)).
    rewrite dict_get_dict_of_last.
    - f_equal. rewrite (col_pos_NoDup _ _ _ Hnd' Hc). simpl.
      by rewrite column_at_tail.
    - rewrite <- list_fmap_compose. intros Hin.
      apply list_elem_of_fmap in Hin as ([c' h'] & Heq & Hin'). simpl in Heq. subst h'.
      apply list_elem_of_filter in Hin' as [_ Hin'].
      apply list_elem_of_lookup_1 in Hin' as [i Hi].
      apply lookup_zip_with_Some in Hi as (c'' & h'' & [= -> ->] & _ & Hh'').
      apply Hpost. by eapply list_elem_of_lookup_2. }
  split; [exact Hget|].
  split.
  - intros h HhL.
    assert (Hin : h ∈ h0 :: hr').
    { apply elem_of_last4 in HhL. by apply list_elem_of_filter in HhL as [_ ?]. }
    apply list_elem_of_split_r in Hin as (pre & post & Hsplit & Hpost).
    rewrite (Hget pre h post Hsplit HhL Hpost). eauto.
  - intros Hroom. unfold below. rewrite length_take, length_drop. lia.
Qed.

Lemma C1_counterexample :
  (wf sample_weeks_only ∧
   rows sample_weeks_only !! 0%nat
     = Some [CStr "Week 21"; CStr "Week 22"; CStr "Week 23"; CStr "Week 24"] ∧
   length (filter (fun c => is_week c)
             [CStr "Week 21"; CStr "Week 22"; CStr "Week 23"; CStr "Week 24"]) = 4%nat ∧
   Main._extract_slide6_table_data sample_weeks_only "INC" 0 1 = Raise KeyError) ∧
  (∃ t, Main._extract_slide6_table_data sample_volumetric "INC" 0 5 = Ok t ∧
        headers t = [CStr "Week 22"; CStr "Week 23"; CStr "Week 24"; CStr "Week 25"] ∧
        dict_get (data t) (CStr "Week 25") = Some [CInt 5; CInt 15]) ∧
  (∃ t, Main._extract_slide6_table_data sample_repeated "INC" 0 1 = Ok t ∧
        headers t = [CStr "Week 21"; CStr "Week 21"; CStr "Week 22"; CStr "Week 23"] ∧
        column_at 1 (take 1 (drop 1 (rows sample_repeated))) = [CInt 1] ∧
        dict_get (data t) (CStr "Week 21") = Some [CInt 2]).
Proof.
  split; [|split].
  - split; [apply (bool_decide_unpack _); vm_compute; exact I|].
    split; [reflexivity|]. split; vm_compute; reflexivity.
  - eexists. split; [vm_compute; reflexivity|]. split; reflexivity.
  - eexists. split; [vm_compute; reflexivity|]. repeat split; reflexivity.
Qed.

Lemma C1_slide6_last_four_weeks_witness :
  ∃ t,
    Main._extract_slide6_table_data sample_volumetric "INC" 0 2 = Ok t ∧
    headers t = [CStr "Week 22"; CStr "Week 23"; CStr "Week 24"; CStr "Week 25"] ∧
    dict_get (data t) (CStr "Week 24") = Some [CInt 4; CInt 14].
Proof.
  destruct (C1_slide6_last_four_weeks sample_volumetric "INC" 0 2
              [CStr "INC"; CStr "Week 21"; CStr "Week 22"; CStr "Week 23";
               CStr "Week 24"; CStr "Week 25"])
    as (t & Hrun & _ & Hheaders & _ & _ & Hdata & _).
  - apply (bool_decide_unpack _). vm_compute. exact I.
  - lia.
  - lia.
  - reflexivity.
  - vm_compute. lia.
  - intros c [= <-]. apply (bool_decide_unpack _). vm_compute. exact I.
  - exists t. split; [exact Hrun|]. split; [exact Hheaders|].
    apply (Hdata [CStr "INC"; CStr "Week 21"; CStr "Week 22"; CStr "Week 23"]
                 (CStr "Week 24") [CStr "Week 25"]).
    + reflexivity.
    + rewrite Hheaders. apply (bool_decide_unpack _). vm_compute. exact I.
    + apply (bool_decide_unpack _). vm_compute. exact I.
Defined.

(** ** Which columns are selected *)



Lemma iloc_row_inv df i row :
  0 ≤ i → Pandas.iloc_row df i = Ok row → rows df !! Z.to_nat i = Some row.
Proof.
  intros Hi. unfold Pandas.iloc_row, Py.index, Py.norm_index.
  destruct (i <? 0) eqn:E; [lia|].
  destruct ((0 <=? i) && (i <? Z.of_nat (length (rows df)))); [|done].
  destruct (rows df !! Z.to_nat i); simpl; congruence.
Qed.


(** The header texts of a tail of the columns are the texts of the same tail
    of the header row. *)
Lemma header_texts_drop df header_row k :
  NoDup (columns df) → length header_row = length (columns df) →
  header_texts df header_row (drop k (columns df)) = Ok (str <$> drop k header_row).
Proof.
  intros Hnd Hlen. unfold header_texts. apply mapM_Ok_intro.
  apply Forall2_same_length_lookup_2.
  - rewrite length_fmap, !length_drop. lia.
  - intros i col s Hcol Hs. rewrite lookup_drop in Hcol.
    rewrite list_lookup_fmap, lookup_drop in Hs.
    destruct (header_row !! (k + i)%nat) as [h|] eqn:Hh; simpl in Hs; [|done].
    injection Hs as <-.
    by rewrite (series_get_NoDup _ _ _ h _ Hnd Hcol Hh).
Qed.

Lemma last4_from1_drop {A} (l : list A) :
  Py.last4 (Py.from1 l) = drop (1 + (length l - 1 - 4))%nat l.
Proof.
  unfold Py.last4, Py.from1. rewrite drop_drop, length_drop. f_equal.
Qed.

(** The headers read for week columns are texts that contain "Week". *)
Lemma header_texts_week_cols df header_row hs :
  NoDup (columns df) →
  header_texts df header_row (Py.last4 (week_cols_of df header_row)) = Ok hs →
  Forall (fun s => Py.str_in "Week" s = true) hs.
Proof.
  intros Hnd H. unfold header_texts in H.
  eapply mapM_Ok_Forall; [|exact H].
  intros col s Hcol Hx. simpl in Hx. bind_inv Hx. injection Hx as <-.
  apply elem_of_last4 in Hcol. unfold week_cols_of in Hcol.
  apply list_elem_of_fmap in Hcol as ([c h] & -> & Hin). simpl in Ha.
  apply list_elem_of_filter in Hin as [Hw Hin]. simpl in Hw.
  apply list_elem_of_lookup_1 in Hin as [i Hi].
  apply lookup_zip_with_Some in Hi as (c' & h' & [= -> ->] & Hc' & Hh').
  rewrite (series_get_NoDup _ _ _ h' i Hnd Hc' Hh') in Ha. injection Ha as <-.
  unfold is_week in Hw. by apply Is_true_true.
Qed.

Lemma series_dict_keys df a b hs cols d :
  series_dict df a b hs cols = Ok d → Forall (fun kv => kv.1 ∈ hs) d.
Proof.
  unfold series_dict. intros H. bind_inv H. injection H as <-.
  apply dict_of_Forall. eapply mapM_Ok_Forall; [|exact Ha].
  intros [h col] [h' vs] Hin Hx. simpl in Hx. bind_inv Hx. injection Hx as <- <-.
  simpl. apply list_elem_of_lookup_1 in Hin as [i Hi].
  apply lookup_zip_with_Some in Hi as (h'' & c'' & [= -> ->] & Hh & _).
  by eapply list_elem_of_lookup_2.
Qed.

Lemma last4_short {A} (l : list A) : (length l < 4)%nat → Py.last4 l = l.
Proof. intros H. unfold Py.last4. by replace (length l - 4)%nat with 0%nat by lia. Qed.


Lemma sample_change_wf : wf sample_change.
Proof. apply (bool_decide_unpack _). vm_compute. exact I. Qed.

(** ** The main workflow *)

Section workflow_lemmas.
Context {app : Main.Application}.
Variable sys : Main.System.
Variables p6 p7 p8 p9 p10 : Presentation → DataFrame → Z → result Presentation.

Lemma read_sheets_missing (wb : workbook) s :
  s ∈ Main.sheet_names → wb !! s = None → ∃ e, Main.read_sheets wb = Raise e.
Proof.
  unfold Main.sheet_names, Main.read_sheets, Main.read_excel.
  intros Hs Hnone.
  repeat (apply elem_of_cons in Hs as [-> | Hs]);
    [.. | by apply elem_of_nil in Hs];
    repeat (match goal with
            | |- context [wb !! ?k] => destruct (wb !! k) eqn:?; simpl
            end; try congruence; eauto).
Qed.

(** C3 (as amended). When one of the five named worksheets is missing, the
    program prints the fatal message and exits: no slide is populated and no
    file is written. *)
Theorem C3_missing_sheet_aborts (wb : workbook) (fs : files) (s : string) :
  s ∈ Main.sheet_names → wb !! s = None →
  Main.main sys p6 p7 p8 p9 p10 wb fs
  = Main.Exited ["FATAL ERROR reading Excel file"] fs.
Proof.
  intros Hs Hnone. unfold Main.main.
  destruct (read_sheets_missing wb s Hs Hnone) as [e ->]. reflexivity.
Qed.

End workflow_lemmas.

Lemma C3_counterexample :
  workbook_without_created !! Main.SHEET_NAME_SLIDE_7 = None ∧
  Forall (fun s => is_Some (workbook_without_created !! s))
    [Main.SHEET_NAME_SLIDE_6; Main.SHEET_NAME_SLIDE_8;
     Main.SHEET_NAME_SLIDE_9; Main.SHEET_NAME_SLIDE_10] ∧
  Main.main (app := sample_application) permissive
    keep_slides Main.populate_slide_7 keep_slides keep_slides keep_slides
    workbook_without_created sample_files
  = Main.Exited ["FATAL ERROR reading Excel file"] sample_files.
Proof.
  split; [reflexivity|].
  split; [repeat constructor; vm_compute; eauto|].
  reflexivity.
Qed.

Lemma C3_missing_sheet_aborts_witness :
  Main.SHEET_NAME_SLIDE_7 ∈ Main.sheet_names ∧
  workbook_without_created !! Main.SHEET_NAME_SLIDE_7 = None ∧
  Main.main (app := sample_application) permissive
    keep_slides Main.populate_slide_7 keep_slides keep_slides keep_slides
    workbook_without_created sample_files
  = Main.Exited ["FATAL ERROR reading Excel file"] sample_files.
Proof.
  assert (Hin : Main.SHEET_NAME_SLIDE_7 ∈ Main.sheet_names)
    by (apply (bool_decide_unpack _); vm_compute; exact I).
  split; [exact Hin|]. split; [reflexivity|].
  apply (C3_missing_sheet_aborts (app := sample_application) permissive
           keep_slides Main.populate_slide_7 keep_slides
           keep_slides keep_slides workbook_without_created sample_files
           Main.SHEET_NAME_SLIDE_7 Hin).
  reflexivity.
Defined.

(** ** Chart styles *)

Section styling_lemmas.
Context {app : Main.Application}.




End styling_lemmas.

Section workflow_completion.
Context {app : Main.Application}.
Variable sys : Main.System.
Variables p6 p7 p8 p9 p10 : Presentation → DataFrame → Z → result Presentation.


End workflow_completion.



(** ** Stripping *)

Lemma lstrip_head s :
  Py.lstrip s = EmptyString ∨ ∃ a t, Py.lstrip s = String a t ∧ Py.isspace a = false.
Proof.
  induction s as [|a t IH]; simpl; [by left|].
  destruct (Py.isspace a) eqn:E; [done|]. right. eauto.
Qed.

Lemma rstrip_idemp s : Py.rstrip (Py.rstrip s) = Py.rstrip s.
Proof.
  induction s as [|a t IH]; simpl; [done|].
  destruct (bool_decide (Py.rstrip t = EmptyString) && Py.isspace a) eqn:E; simpl; [done|].
  by rewrite IH, E.
Qed.

Lemma lstrip_rstrip_stable a t :
  Py.isspace a = false → Py.lstrip (Py.rstrip (String a t)) = Py.rstrip (String a t).
Proof.
  intros Ha. simpl. rewrite Ha, andb_false_r. simpl. by rewrite Ha.
Qed.

Lemma strip_idemp s : Py.strip (Py.strip s) = Py.strip s.
Proof.
  unfold Py.strip. destruct (lstrip_head s) as [-> | (a & t & -> & Ha)]; [done|].
  rewrite lstrip_rstrip_stable by done. apply rstrip_idemp.
Qed.

(** ** The slide-10 tables *)

Section slide10.
Variable df : DataFrame.
Hypothesis Hwf : wf df.
Hypothesis Hcol0 : head (columns df) = Some (LInt 0).

Lemma col0_pos : Pandas.col_pos (columns df) (LInt 0) = Some 0%nat.
Proof.
  destruct (columns df) as [|c cols]; simpl in *; [done|].
  injection Hcol0 as ->. by rewrite decide_True.
Qed.

Lemma strip_col0_first : Main.strip_col0 df = Ok (strip_first_cells df).
Proof.
  unfold Main.strip_col0. rewrite col0_pos. simpl. unfold strip_first_cells.
  do 2 f_equal. apply list_fmap_ext. intros _ [|c r] _; done.
Qed.

Lemma strip_col0_again : Main.strip_col0 (strip_first_cells df) = Ok (strip_first_cells df).
Proof.
  unfold Main.strip_col0. simpl. rewrite col0_pos. simpl.
  unfold strip_first_cells. f_equal. simpl. f_equal.
  rewrite <- list_fmap_compose. apply list_fmap_ext.
  intros _ [|c r] _; simpl; [done|]. by rewrite strip_idemp.
Qed.

Lemma rows_nonempty' : Forall (fun r => r ≠ []) (rows (strip_first_cells df)).
Proof.
  assert (Hne : columns df ≠ []) by (destruct (columns df); done).
  pose proof (wf_rows_nonempty df Hwf Hne) as H.
  unfold strip_first_cells. simpl. apply Forall_fmap.
  eapply Forall_impl; [exact H|]. intros [|c r]; done.
Qed.

Lemma col0_is_first text row : Main.col0_is (strip_first_cells df) text row = first_cell_is text row.
Proof.
  unfold Main.col0_is, first_cell_is. simpl. rewrite col0_pos.
  by rewrite head_lookup.
Qed.

(** The tables collected by the loop once the frame has been rewritten. *)
Lemma tables_loop_stripped titles acc :
  Main.tables_loop (strip_first_cells df) titles acc
  = ((strip_first_cells df), (acc ++ omap (fun table_title =>
                    match Main.table_for (strip_first_cells df) table_title with
                    | Ok (Some t) => Some t
                    | _ => None
                    end) titles)%list).
Proof.
  revert acc. induction titles as [|table_title titles IH]; intros acc; simpl.
  - by rewrite app_nil_r.
  - rewrite strip_col0_again.
    destruct (Main.table_for (strip_first_cells df) table_title) as [[t|]|e]; rewrite IH; try done.
    by rewrite <- app_assoc.
Qed.

Lemma extract_slide10_tables :
  Main._extract_data_for_slide10 df
  = ((strip_first_cells df), omap (fun table_title =>
                  match Main.table_for (strip_first_cells df) table_title with
                  | Ok (Some t) => Some t
                  | _ => None
                  end) Main.target_table_titles).
Proof.
  unfold Main._extract_data_for_slide10, Main.target_table_titles.
  cbn [Main.tables_loop omap list_omap]. rewrite strip_col0_first.
  rewrite !strip_col0_again.
  destruct (Main.table_for (strip_first_cells df) "Business Service - INC") as [[t1|]|e1];
    destruct (Main.table_for (strip_first_cells df) "Business Service - RITM") as [[t2|]|e2];
    destruct (Main.table_for (strip_first_cells df) "Business Service - Change Requests")
      as [[t3|]|e3]; reflexivity.
Qed.


Lemma first_from_ext (P Q : list cell → bool) rs a b :
  (∀ r, P r = Q r) → first_from P rs a b ↔ first_from Q rs a b.
Proof.
  intros HPQ. unfold first_from. setoid_rewrite HPQ. done.
Qed.

(** [list_find] on the rows from [a] on finds the first row that satisfies
    the test. *)
Lemma list_find_first_from (P : list cell → bool) rs a k :
  (∃ x, list_find (fun r => P r) (drop a rs) = Some (k, x))
  ↔ first_from P rs a (a + k).
Proof.
  unfold first_from. split.
  - intros (x & (Hx & HP & Hbefore)%list_find_Some).
    rewrite lookup_drop in Hx. split; [lia|]. split.
    + exists x. split; [done|]. by apply Is_true_true.
    + intros j r [Hj1 Hj2] Hr.
      destruct (P r) eqn:E; [|done]. exfalso.
      apply (Hbefore (j - a)%nat r); [|lia|by rewrite E].
      rewrite lookup_drop. by replace (a + (j - a))%nat with j by lia.
  - intros (_ & (x & Hx & HP) & Hbefore). exists x.
    apply list_find_Some. rewrite lookup_drop. split; [done|].
    split; [by apply Is_true_true|].
    intros j y Hy Hj HPy. rewrite lookup_drop in Hy.
    apply Is_true_true in HPy.
    rewrite (Hbefore (a + j)%nat y) in HPy; [done | lia | done].
Qed.

Lemma find_header_row_spec (d : DataFrame) start_index end_index header_row_index :
  Main.find_header_row d start_index end_index = Some header_row_index
  ↔ first_from Main.has_week (rows d) start_index header_row_index ∧
    (header_row_index < end_index)%nat.
Proof.
  unfold Main.find_header_row, first_from. split.
  - destruct (list_find _ _) as [[k idx]|] eqn:E; simpl; [|done].
    intros [= <-]. apply list_find_Some in E as (Hk & HP & Hbefore).
    apply lookup_seq in Hk as [-> Hk].
    destruct (rows d !! (start_index + k)%nat) as [r|] eqn:Hr; simpl in HP; [|done].
    split; [|lia]. split; [lia|]. split.
    + exists r. split; [done|]. by apply Is_true_true.
    + intros j r' [Hj1 Hj2] Hr'.
      destruct (Main.has_week r') eqn:Ew; [|done]. exfalso.
      apply (Hbefore (j - start_index)%nat j); [|lia|].
      * apply lookup_seq. lia.
      * rewrite Hr'. simpl. by rewrite Ew.
  - intros [(Hle & (r & Hr & Hw) & Hbefore) Hlt].
    assert (Hfind : list_find
              (fun idx => from_option Main.has_week false (rows d !! idx))
              (seq start_index (end_index - start_index))
            = Some ((header_row_index - start_index)%nat, header_row_index)).
    { apply list_find_Some. split; [apply lookup_seq; lia|]. split.
      - rewrite Hr. simpl. by rewrite Hw.
      - intros j idx Hidx Hj. apply lookup_seq in Hidx as [-> _].
        destruct (rows d !! (start_index + j)%nat) as [r'|] eqn:Hr'; simpl; [|by intros []].
        intros Hw'. apply Is_true_true in Hw'.
        rewrite (Hbefore (start_index + j)%nat r') in Hw'; [done | lia | done]. }
    by rewrite Hfind.
Qed.

(** Reading the rows [a], [a + 1], ... one by one is reading a slice. *)
Lemma mapM_seq_rows {B} (d : DataFrame) (g : list cell → result B) n : ∀ a,
  (a + n ≤ length (rows d))%nat →
  mapM (fun i => row ← Pandas.iloc_row d (Z.of_nat i); g row) (seq a n)
  = mapM g (take n (drop a (rows d))).
Proof.
  induction n as [|n IH]; intros a Ha; [done|].
  destruct (lookup_lt_is_Some_2 (rows d) a) as [x Hx]; [lia|].
  rewrite (drop_S _ _ _ Hx). cbn [seq take mapM].
  rewrite (iloc_row_lookup d (Z.of_nat a) x); [|lia|by rewrite Nat2Z.id].
  cbn [mbind result_bind]. rewrite IH by lia. done.
Qed.

Lemma data_row_spec row :
  row ≠ [] →
  Main.data_row row
  = if bool_decide (first_text row = EmptyString) then Ok None
    else data ← mapM cell_int (Py.last4 row); Ok (Some (first_text row, data)).
Proof.
  destruct row as [|c r]; [done|]. intros _. reflexivity.
Qed.

Lemma data_rows_list_spec l ds :
  Forall (fun r => r ≠ []) l →
  (∃ rs, mapM Main.data_row l = Ok rs ∧ omap id rs = ds)
  ↔ Forall2 (fun row d => d.1 = first_text row ∧
                          mapM cell_int (Py.last4 row) = Ok d.2)
      (filter (fun row => first_text row ≠ EmptyString) l) ds.
Proof.
  intros Hne. revert ds. induction Hne as [|row l Hrow _ IH]; intros ds.
  - cbn. split.
    + intros (rs & [= <-] & <-). constructor.
    + intros H. inversion H. by exists [].
  - cbn [mapM]. rewrite (data_row_spec row Hrow), filter_cons.
    destruct (decide (first_text row = EmptyString)) as [He|He].
    + rewrite bool_decide_eq_true_2 by done. rewrite decide_False by auto.
      cbn [mbind result_bind]. rewrite <- IH. split.
      * intros (rs & H & <-). bind_inv H. injection H as <-. eauto.
      * intros (rs & -> & <-). exists (None :: rs). done.
    + rewrite bool_decide_eq_false_2 by done. rewrite decide_True by auto. split.
      * intros (rs & H & <-). bind_inv H. bind_inv Ha. injection Ha as <-.
        bind_inv H. injection H as <-. cbn. constructor; [done|].
        apply IH. eauto.
      * intros H. inversion H as [|r [ttl data] l' ds' [Ht Hd] Hrest]; subst.
        apply IH in Hrest as (rs & Hrs & <-).
        simpl in Ht, Hd. subst ttl.
        exists (Some (first_text row, data) :: rs).
        rewrite Hd. cbn. rewrite Hrs. done.
Qed.


Lemma data_rows_spec header_row_index end_index ds :
  (header_row_index < end_index < length (rows (strip_first_cells df)))%nat →
  Main.data_rows (strip_first_cells df) header_row_index end_index = Ok ds
  ↔ Forall2 (fun row d => d.1 = first_text row ∧
                          mapM cell_int (Py.last4 row) = Ok d.2)
      (filter (fun row => first_text row ≠ EmptyString)
         (take (end_index - header_row_index)
               (drop (S header_row_index) (rows (strip_first_cells df)))))
      ds.
Proof.
  intros Hrange. unfold Main.data_rows.
  rewrite mapM_seq_rows by lia.
  rewrite <- data_rows_list_spec
    by (apply Forall_take, Forall_drop, rows_nonempty').
  split.
  - intros H. bind_inv H. injection H as <-. eauto.
  - intros (rs & -> & <-). done.
Qed.

Lemma table_for_sentinel_block table_title t :
  Main.table_for (strip_first_cells df) table_title = Ok (Some t)
  ↔ sentinel_block (rows (strip_first_cells df)) table_title t.
Proof.
  unfold Main.table_for, sentinel_block. split.
  - destruct (list_find _ (rows (strip_first_cells df))) as [[start_index x]|] eqn:Hstart; [|done].
    destruct (list_find _ (drop start_index (rows (strip_first_cells df)))) as [[k y]|] eqn:Hend;
      [|done].
    destruct (Main.find_header_row (strip_first_cells df) start_index (start_index + k))
      as [header_row_index|] eqn:Hhdr; [|done].
    intros H. bind_inv H. bind_inv H. injection H as <-.
    assert (Hs : first_from (first_cell_is table_title) (rows (strip_first_cells df)) 0 (0 + start_index)).
    { apply (first_from_ext _ _ _ _ _ (col0_is_first table_title)).
      apply list_find_first_from. eauto. }
    assert (He : first_from (first_cell_is "Grand Total") (rows (strip_first_cells df)) start_index
                   (start_index + k)).
    { apply (first_from_ext _ _ _ _ _ (col0_is_first "Grand Total")).
      apply list_find_first_from. eauto. }
    apply find_header_row_spec in Hhdr as [Hh Hlt].
    assert (Hendlt : (start_index + k < length (rows (strip_first_cells df)))%nat).
    { destruct He as (_ & (r & Hr & _) & _). by eapply lookup_lt_Some. }
    exists start_index, (start_index + k)%nat, header_row_index, a.
    split; [exact Hs|]. split; [exact He|]. split; [exact Hh|].
    split; [exact Hlt|].
    split; [apply iloc_row_inv in Ha; [by rewrite Nat2Z.id in Ha | lia]|].
    split; [done|]. split; [done|]. simpl.
    apply data_rows_spec; [lia | done].
  - intros (start_index & end_index & header_row_index & header_row
            & Hs & He & Hh & Hlt & Hrow & Htitle & Hheaders & Hdata).
    apply (first_from_ext _ _ _ _ _ (col0_is_first table_title)) in Hs.
    apply (list_find_first_from _ _ 0 start_index) in Hs as [x Hs].
    rewrite drop_0 in Hs. rewrite Hs.
    assert (Hle : (start_index ≤ end_index)%nat) by (by destruct He as [? _]).
    assert (Hendlt : (end_index < length (rows (strip_first_cells df)))%nat).
    { destruct He as (_ & (r & Hr & _) & _). by eapply lookup_lt_Some. }
    replace end_index with (start_index + (end_index - start_index))%nat in He by lia.
    apply (first_from_ext _ _ _ _ _ (col0_is_first "Grand Total")) in He.
    apply list_find_first_from in He as [y He]. rewrite He.
    replace (start_index + (end_index - start_index))%nat with end_index by lia.
    rewrite (proj2 (find_header_row_spec (strip_first_cells df) start_index end_index header_row_index)
               (conj Hh Hlt)).
    rewrite (iloc_row_lookup (strip_first_cells df) (Z.of_nat header_row_index) header_row);
      [|lia|by rewrite Nat2Z.id].
    cbn [mbind result_bind].
    apply data_rows_spec in Hdata; [|lia]. rewrite Hdata. cbn.
    destruct t as [ttl hs ds]. simpl in *. by subst.
Qed.

End slide10.

(** C5. On a frame read without a header, whose first column is labelled 0,
    the slide-10 extraction leaves the first column stripped and returns
    exactly the tables bounded by sentinel rows: for a target title, the
    block from the first row whose stripped first cell is the title to the
    first row from there on whose first cell is "Grand Total", with the first
    row in between that has "Week" in its last four cells as header row, and
    with the rows after the header row up to and including the "Grand Total"
    row whose stripped first cell is not empty as data rows. *)
Theorem C5_slide10_sentinel_blocks (df : DataFrame) :
  wf df → head (columns df) = Some (LInt 0) →
  (Main._extract_data_for_slide10 df).1 = strip_first_cells df ∧
  ∀ t, t ∈ (Main._extract_data_for_slide10 df).2
       ↔ Main.t_title t ∈ Main.target_table_titles ∧
         sentinel_block (rows (strip_first_cells df)) (Main.t_title t) t.
Proof.
  intros Hwf Hcol0. rewrite (extract_slide10_tables df Hcol0). cbn [fst snd].
  split; [done|]. intros t. rewrite list_elem_of_omap. split.
  - intros (table_title & Hin & Hsome).
    destruct (Main.table_for (strip_first_cells df) table_title)
      as [[t'|]|e] eqn:Htable; try done.
    injection Hsome as ->.
    apply (table_for_sentinel_block df Hwf Hcol0) in Htable.
    assert (Main.t_title t = table_title) as ->.
    { by destruct Htable as (? & ? & ? & ? & _ & _ & _ & _ & _ & Ht & _). }
    done.
  - intros [Hin Hblock]. exists (Main.t_title t). split; [done|].
    apply (table_for_sentinel_block df Hwf Hcol0) in Hblock. by rewrite Hblock.
Qed.

Lemma sample_services_wf : wf sample_services.
Proof. apply (bool_decide_unpack _). vm_compute. exact I. Qed.

Lemma C5_slide10_sentinel_blocks_witness :
  wf sample_services ∧ head (columns sample_services) = Some (LInt 0) ∧
  sentinel_block (rows (strip_first_cells sample_services))
    "Business Service - INC" sample_services_table.
Proof.
  split; [exact sample_services_wf|]. split; [reflexivity|].
  destruct (C5_slide10_sentinel_blocks sample_services sample_services_wf eq_refl)
    as [_ Hall].
  apply (Hall sample_services_table). vm_compute. left.
Defined.

(** ** Worked examples *)

Example slide6_on_sample :
  Main._extract_slide6_table_data sample_volumetric "INC" 0 5
  = Ok {| title := "INC";
          headers := [CStr "Week 22"; CStr "Week 23"; CStr "Week 24"; CStr "Week 25"];
          row_labels := [CStr "P1"; CStr "P2"];
          data := [(CStr "Week 22", [CInt 2; CInt 12]);
                   (CStr "Week 23", [CInt 3; CInt 13]);
                   (CStr "Week 24", [CInt 4; CInt 14]);
                   (CStr "Week 25", [CInt 5; CInt 15])] |}.
Proof. vm_compute. reflexivity. Qed.

Example find_data_row_on_sample :
  Main._find_data_row sample_created "incs RESOLVED" = Ok 2 ∧
  Main._find_data_row sample_created "Tools Created" = Ok (-1).
Proof. split; vm_compute; reflexivity. Qed.

Example slide8_on_sample :
  Main._extract_pending_data_slide8
    {| columns := [LStr "Week #"; LStr "Pending INCs"; LStr "INCs Resolved"];
       rows := [[CInt 21; CInt 5; CInt 50]; [CInt 22; CInt 6; CInt 60];
                [CInt 23; CInt 7; CInt 70]; [CInt 24; CInt 8; CInt 80];
                [CInt 25; CInt 9; CInt 90]] |}
    ["Pending INCs"; "INCs Resolved"; "Total INCs Created"] "Week #"
  = Ok (Some (["22"; "23"; "24"; "25"],
              [("Pending INCs", [CInt 6; CInt 7; CInt 8; CInt 9]);
               ("INCs Resolved", [CInt 60; CInt 70; CInt 80; CInt 90])])).
Proof. vm_compute. reflexivity. Qed.

Example slide10_on_sample :
  (Main._extract_data_for_slide10 sample_services).2 = [sample_services_table].
Proof. vm_compute. reflexivity. Qed.

Example int_of_str_examples :
  Py.int_of_str " +1_000 " = Some 1000 ∧ Py.int_of_str "-7" = Some (-7) ∧
  Py.int_of_str "1__0" = None ∧ Py.int_of_str "Grand Total" = None ∧
  Py.int_of_str (String (ascii_of_N 28) "5") = None ∧
  Py.strip (String (ascii_of_N 28) "5") = "5".
Proof. repeat split; vm_compute; reflexivity. Qed.

Example slide7_gap_on_sample :
  Main._extract_data_block_slide7 sample_created_gap "Auto closed by Tools" 2
  = Ok (Some ([CStr "Auto closed by Tools"; CStr "Closed by L2"],
              [("Week 22", [CInt 2; CInt 7]); ("Week 23", [CNaN; CInt 8]);
               ("Week 24", [CInt 4; CInt 9]); ("Week 25", [CInt 5; CInt 10])])) ∧
  Main.populate_slide_7 sample_template sample_created_gap 3 = Raise TypeError.
Proof. split; vm_compute; reflexivity. Qed.

Example slide8_repeated_on_sample :
  Main._extract_pending_data_slide8 sample_pending_repeated ["Pending INCs"] "Week #"
  = Raise AttributeError.
Proof. vm_compute. reflexivity. Qed.

Example styled_chart_on_sample :
  Main.style_loop (app := sample_application) sample_template Main.styles_to_apply
  = Ok [[]; []; [main_title; with_chart_style 228 line_chart]; []; []; []; []].
Proof. vm_compute. reflexivity. Qed.

(** * Further properties of the code *)

(** ** Shapes by name *)

(** X1. [find_shape_by_name] returns the first shape of the slide that has
    the name, returns [None] exactly when no shape has it, and prints its
    warning exactly then. *)
Theorem X1_find_shape_by_name_first (slide : Slide) (name : string) :
  (∀ sh, (Main.find_shape_by_name slide name).1 = Some sh ↔
         ∃ i, slide !! i = Some sh ∧ shape_name sh = Some name ∧
              ∀ j sh', (j < i)%nat → slide !! j = Some sh' →
                       shape_name sh' ≠ Some name) ∧
  ((Main.find_shape_by_name slide name).1 = None ↔
     ∀ sh, sh ∈ slide → shape_name sh ≠ Some name) ∧
  ((Main.find_shape_by_name slide name).2 = [] ↔
     is_Some (Main.find_shape_by_name slide name).1).
Proof.
  induction slide as [|shape slide (IHsome & IHnone & IHout)]; simpl.
  - split; [|split].
    + intros sh. split; [done|]. intros (i & Hi & _). done.
    + split; [|done]. intros _ sh Hsh. by apply elem_of_nil in Hsh.
    + split; [done|]. intros [? ?]. done.
  - case_bool_decide as Hname; simpl.
    + split; [|split].
      * intros sh. split.
        -- intros [= <-]. exists 0%nat. repeat split; [done|]. intros j sh' Hj. lia.
        -- intros ([|i] & Hi & Hn & Hbefore); simpl in Hi; [congruence|].
           exfalso. by apply (Hbefore 0%nat shape); [lia | |].
      * split; [done|]. intros Hall. exfalso. apply (Hall shape); [left | done].
      * split; eauto.
    + split; [|split].
      * intros sh. rewrite IHsome. split.
        -- intros (i & Hi & Hn & Hbefore). exists (S i). repeat split; [done..|].
           intros [|j] sh' Hj Hlook; simpl in Hlook; [congruence|].
           apply (Hbefore j); [lia | done].
        -- intros ([|i] & Hi & Hn & Hbefore); simpl in Hi; [congruence|].
           exists i. repeat split; [done..|].
           intros j sh' Hj Hlook. apply (Hbefore (S j)); [lia | done].
      * rewrite IHnone. split.
        -- intros Hall sh [->|Hin]%elem_of_cons; [done | by apply Hall].
        -- intros Hall sh Hin. apply Hall. by right.
      * done.
Qed.

(** ** The header row of the stand-alone slide-7 script *)

Lemma find_header_row_loop_spec title_text rs i :
  (DataFromSheetForSlide7.find_header_row_loop i rs title_text = -1 ∧
   Forall (fun row => existsb (label_in_cell title_text) row = false) rs) ∨
  (∃ n row, rs !! n = Some row ∧ existsb (label_in_cell title_text) row = true ∧
     (∀ m row', (m < n)%nat → rs !! m = Some row' →
        existsb (label_in_cell title_text) row' = false) ∧
     DataFromSheetForSlide7.find_header_row_loop i rs title_text
       = i + Z.of_nat n - 1).
Proof.
  revert i. induction rs as [|row rs IH]; intros i; simpl.
  - left. split; [done | constructor].
  - destruct (existsb (label_in_cell title_text) row) eqn:E.
    + right. exists 0%nat, row. repeat split; [done | | lia].
      intros m row' Hm. lia.
    + destruct (IH (i + 1)) as [[Hr Hall] | (n & row' & Hn & Hrow' & Hbefore & Hr)].
      * left. split; [done | by constructor].
      * right. exists (S n), row'. repeat split; [done | done | | lia].
        intros [|m] row'' Hm Hlook; simpl in Hlook; [congruence|].
        apply (Hbefore m); [lia | done].
Qed.

(** X2. [find_header_row] of the stand-alone slide-7 script returns the
    index of the row above the first row that has the title text in any of
    its cells (case-insensitively). Its answer -1 is ambiguous: it is given
    when no row has the text, and also when the first row that has it is
    row 0. *)
Theorem X2_find_header_row_above_first_match (df : DataFrame) (title_text : string) :
  (∀ n row,
     rows df !! n = Some row →
     existsb (label_in_cell title_text) row = true →
     (∀ m row', (m < n)%nat → rows df !! m = Some row' →
        existsb (label_in_cell title_text) row' = false) →
     DataFromSheetForSlide7.find_header_row df title_text = Z.of_nat n - 1) ∧
  (DataFromSheetForSlide7.find_header_row df title_text = -1 ↔
     (∀ row, row ∈ rows df → existsb (label_in_cell title_text) row = false) ∨
     (∃ row, rows df !! 0%nat = Some row ∧
             existsb (label_in_cell title_text) row = true)).
Proof.
  unfold DataFromSheetForSlide7.find_header_row.
  destruct (find_header_row_loop_spec title_text (rows df) 0)
    as [[Hr Hall] | (n & row & Hn & Hrow & Hbefore & Hr)].
  - rewrite Forall_forall in Hall. split.
    + intros n row Hn Hrow _. rewrite (Hall row) in Hrow; [done|].
      by eapply list_elem_of_lookup_2.
    + split; [by left | done].
  - split.
    + intros n' row' Hn' Hrow' Hbefore'. rewrite Hr.
      destruct (decide (n' < n)%nat) as [Hlt|Hge].
      { rewrite (Hbefore n' row' Hlt Hn') in Hrow'. done. }
      destruct (decide (n < n')%nat) as [Hlt|Hge'].
      { rewrite (Hbefore' n row Hlt Hn) in Hrow. done. }
      lia.
    + rewrite Hr. split.
      * intros H0. assert (n = 0%nat) as -> by lia. right. eauto.
      * intros [Hall | (row0 & Hrow0 & Hm)].
        -- rewrite (Hall row) in Hrow; [done|]. by eapply list_elem_of_lookup_2.
        -- destruct n as [|n]; [lia|].
           rewrite (Hbefore 0%nat row0) in Hm; [done | lia | done].
Qed.

Lemma X2_find_header_row_above_first_match_witness :
  DataFromSheetForSlide7.find_header_row sample_created "auto closed" = 3 ∧
  DataFromSheetForSlide7.find_header_row sample_created "week 21" = -1.
Proof.
  destruct (X2_find_header_row_above_first_match sample_created "auto closed")
    as [Hfirst _].
  destruct (X2_find_header_row_above_first_match sample_created "week 21")
    as [Hfirst0 _].
  split.
  - apply (Hfirst 4%nat [CStr "Auto closed by Tools"; CInt 1; CInt 2; CInt 3;
                         CInt 4; CInt 5]); [reflexivity | vm_compute; reflexivity |].
    intros m row' Hm Hlook.
    do 4 (destruct m as [|m]; [injection Hlook as <-; vm_compute; reflexivity|]).
    lia.
  - apply (Hfirst0 0%nat [CStr "INC"; CStr "Week 21"; CStr "Week 22"; CStr "Week 23";
                          CStr "Week 24"; CStr "Week 25"]);
      [reflexivity | vm_compute; reflexivity |].
    intros m row' Hm. lia.
Defined.

(** ** The stats block of slide 7 *)

Lemma mapM_Ok_exists {A B} (f : A → result B) l :
  (∀ x, x ∈ l → ∃ y, f x = Ok y) → ∃ k, mapM f l = Ok k.
Proof.
  induction l as [|x l IH]; intros H; [by exists []|].
  destruct (H x) as [y Hy]; [left|].
  destruct IH as [k Hk]; [intros x' Hx'; apply H; by right|].
  exists (y :: k). cbn [mapM]. rewrite Hy. cbn. rewrite Hk. done.
Qed.

Lemma series_get_inv cols row col c :
  Pandas.series_get cols row col = Ok c →
  ∃ p, Pandas.col_pos cols col = Some p ∧ row !! p = Some c.
Proof.
  unfold Pandas.series_get. intros H. bind_inv H.
  destruct (Pandas.col_pos cols col) as [p|]; [|done]. injection Ha as <-.
  exists p. split; [done|]. destruct (row !! p); simpl in H; congruence.
Qed.

(** In a rectangular frame a row can be read at every label of the frame. *)
Lemma series_get_total df row col :
  length row = length (columns df) → col ∈ columns df →
  ∃ c, Pandas.series_get (columns df) row col = Ok c.
Proof.
  intros Hlen Hcol. destruct (col_pos_is_Some _ _ Hcol) as [p Hp].
  pose proof (col_pos_lt _ _ _ Hp) as Hlt.
  destruct (lookup_lt_is_Some_2 row p) as [c Hc]; [lia|].
  exists c. unfold Pandas.series_get. rewrite Hp. simpl. by rewrite Hc.
Qed.

(** A week column stands at a position whose header cell contains "Week". *)
Lemma week_cols_of_inv df header_row col :
  col ∈ week_cols_of df header_row →
  ∃ p h, columns df !! p = Some col ∧ header_row !! p = Some h ∧ is_week h = true.
Proof.
  unfold week_cols_of. intros ([c h] & -> & Hin)%list_elem_of_fmap.
  apply list_elem_of_filter in Hin as [Hw Hin]. simpl in Hw.
  apply list_elem_of_lookup_1 in Hin as [p Hp].
  apply lookup_zip_with_Some in Hp as (c' & h' & [= -> ->] & Hc & Hh).
  exists p, h'. split; [done|]. split; [done|]. by apply Is_true_true.
Qed.

Lemma header_texts_total df header_row cols :
  length header_row = length (columns df) →
  (∀ col, col ∈ cols → col ∈ columns df) →
  ∃ hs, header_texts df header_row cols = Ok hs.
Proof.
  intros Hlen Hsub. apply mapM_Ok_exists. intros col Hcol.
  destruct (series_get_total df header_row col Hlen (Hsub col Hcol)) as [c Hc].
  exists (str c). by rewrite Hc.
Qed.

Lemma loc_row_cols_total df i row cols :
  0 ≤ i → rows df !! Z.to_nat i = Some row →
  length row = length (columns df) →
  (∀ col, col ∈ cols → col ∈ columns df) →
  ∃ cs, Pandas.loc_row_cols df i cols = Ok cs.
Proof.
  intros Hi Hrow Hlen Hsub. unfold Pandas.loc_row_cols.
  destruct (i <? 0) eqn:E; [lia|]. rewrite Hrow. simpl.
  apply mapM_Ok_exists. intros col Hcol.
  apply (series_get_total df row col Hlen (Hsub col Hcol)).
Qed.

Lemma week_cols_sub df header_row col :
  col ∈ Py.last4 (week_cols_of df header_row) → col ∈ columns df.
Proof.
  intros Hcol%elem_of_last4.
  apply week_cols_of_inv in Hcol as (p & h & Hp & _). by eapply list_elem_of_lookup_2.
Qed.

Lemma find_data_row_total df label_text :
  wf df → columns df ≠ [] →
  ∃ k, Main._find_data_row df label_text = Ok k ∧
       (k = -1 ↔ Forall (fun r => row_matches label_text r = false) (rows df)) ∧
       (k ≠ -1 → 0 ≤ k ∧ ∃ row, rows df !! Z.to_nat k = Some row).
Proof.
  intros Hwf Hcols.
  destruct (find_data_row_loop_spec label_text (rows df) 0
              (wf_rows_nonempty df Hwf Hcols))
    as (k & Hk & [[-> Hall] | (n & row & -> & Hrow & Hm & _)]).
  - exists (-1). split; [done|]. split; [done|]. done.
  - exists (0 + Z.of_nat n). split; [done|]. split.
    + split; [lia|]. intros Hall. rewrite Forall_forall in Hall.
      rewrite (Hall row) in Hm; [done|]. by eapply list_elem_of_lookup_2.
    + intros _. split; [lia|]. exists row.
      by replace (Z.to_nat (0 + Z.of_nat n)) with n by lia.
Qed.

Lemma stats_extractors_agree df :
  (DataFromSheetForSlide7.extract_stats_chart_data df).2
  = Main._extract_stats_data_slide7 df.
Proof.
  unfold DataFromSheetForSlide7.extract_stats_chart_data,
    Main._extract_stats_data_slide7.
  unfold DataFromSheetForSlide7.find_data_row, Main._find_data_row.
  destruct (Pandas.iloc_row df 0) as [hdr|e]; simpl; [|done].
  destruct (header_texts _ _ _) as [hs|e]; simpl; [|done].
  destruct (find_data_row_loop 0 (rows df) "INCs created") as [i|e]; simpl; [|done].
  destruct (find_data_row_loop 0 (rows df) "INCs resolved") as [j|e]; simpl; [|done].
  destruct ((i =? -1) || (j =? -1)); done.
Qed.

(** X3. When the stats extractor of slide 7 returns a block, in either
    script, its categories are the two row labels, and every series is the
    pair of the cells that the first "INCs created" row and the first
    "INCs resolved" row hold in one column whose cell in row 0 contains
    "Week", under the text of that cell. *)
Theorem X3_stats_block_content (df : DataFrame) categories data_dict :
  wf df →
  Main._extract_stats_data_slide7 df = Ok (Some (categories, data_dict)) →
  (DataFromSheetForSlide7.extract_stats_chart_data df).2
    = Ok (Some (categories, data_dict)) ∧
  categories = [CStr "INCs created"; CStr "INCs resolved"] ∧
  ∃ i j header_row created_row resolved_row,
    rows df !! 0%nat = Some header_row ∧
    Main._find_data_row df "INCs created" = Ok i ∧ 0 ≤ i ∧
    Main._find_data_row df "INCs resolved" = Ok j ∧ 0 ≤ j ∧
    rows df !! Z.to_nat i = Some created_row ∧
    rows df !! Z.to_nat j = Some resolved_row ∧
    Forall (fun kv => ∃ p h c r,
              header_row !! p = Some h ∧ is_week h = true ∧
              created_row !! p = Some c ∧ resolved_row !! p = Some r ∧
              kv = (str h, [c; r])) data_dict.
Proof.
  intros [Hnd Hlen] H. split; [by rewrite stats_extractors_agree|].
  unfold Main._extract_stats_data_slide7 in H.
  bind_inv H. bind_inv H. bind_inv H. bind_inv H.
  destruct ((a1 =? -1) || (a2 =? -1)) eqn:Enone; [done|].
  apply orb_false_iff in Enone as [E1 E2].
  bind_inv H. bind_inv H. injection H as <- <-. split; [done|].
  pose proof (find_data_row_found _ _ _ Ha1 E1) as Hi.
  pose proof (find_data_row_found _ _ _ Ha2 E2) as Hj.
  unfold Pandas.loc_row_cols in Ha3, Ha4.
  destruct (a1 <? 0) eqn:Ei; [lia|]. destruct (a2 <? 0) eqn:Ej; [lia|].
  bind_inv Ha3. bind_inv Ha4.
  destruct (rows df !! Z.to_nat a1) as [created_row|] eqn:Hcr; [|done].
  destruct (rows df !! Z.to_nat a2) as [resolved_row|] eqn:Hrr; [|done].
  injection Ha5 as <-. injection Ha6 as <-.
  exists a1, a2, a, created_row, resolved_row.
  split; [by apply (iloc_row_inv df 0)|].
  repeat (split; [done|]).
  apply mapM_Ok_inv in Ha0, Ha3, Ha4.
  apply dict_of_Forall, Forall_fmap, Forall_forall.
  intros [[s c] r] Hin. simpl.
  apply list_elem_of_lookup_1 in Hin as [k Hk].
  apply lookup_zip_with_Some in Hk as ([s' c'] & r' & [= -> -> ->] & Hsc & Hr).
  apply lookup_zip_with_Some in Hsc as (s2 & c2 & [= -> ->] & Hs & Hc).
  destruct (Forall2_lookup_r _ _ _ _ _ Ha0 Hs) as (col & Hcol & Hs').
  destruct (Forall2_lookup_r _ _ _ _ _ Ha3 Hc) as (col1 & Hcol1 & Hc').
  destruct (Forall2_lookup_r _ _ _ _ _ Ha4 Hr) as (col2 & Hcol2 & Hr').
  assert (col1 = col) as -> by congruence.
  assert (col2 = col) as -> by congruence.
  bind_inv Hs'. injection Hs' as <-.
  apply series_get_inv in Ha5 as (p & Hp & Hh).
  apply series_get_inv in Hc' as (p1 & Hp1 & Hc').
  apply series_get_inv in Hr' as (p2 & Hp2 & Hr').
  assert (p1 = p) as -> by congruence. assert (p2 = p) as -> by congruence.
  exists p, a5, c2, r'. split; [done|]. split; [|done].
  assert (Hw : col ∈ week_cols_of df a)
    by (eapply elem_of_last4, list_elem_of_lookup_2, Hcol).
  apply week_cols_of_inv in Hw as (p' & h' & Hp' & Hh' & Hweek).
  apply col_pos_lookup in Hp.
  assert (p' = p) as -> by (by eapply NoDup_lookup).
  congruence.
Qed.

Lemma X3_stats_block_content_witness :
  wf sample_created ∧
  Main._extract_stats_data_slide7 sample_created
    = Ok (Some ([CStr "INCs created"; CStr "INCs resolved"],
                [("Week 22", [CInt 11; CInt 8]); ("Week 23", [CInt 12; CInt 7]);
                 ("Week 24", [CInt 13; CInt 6]); ("Week 25", [CInt 14; CInt 5])])) ∧
  (DataFromSheetForSlide7.extract_stats_chart_data sample_created).2
    = Ok (Some ([CStr "INCs created"; CStr "INCs resolved"],
                [("Week 22", [CInt 11; CInt 8]); ("Week 23", [CInt 12; CInt 7]);
                 ("Week 24", [CInt 13; CInt 6]); ("Week 25", [CInt 14; CInt 5])])).
Proof.
  split; [exact sample_created_wf|].
  assert (Hrun : Main._extract_stats_data_slide7 sample_created
    = Ok (Some ([CStr "INCs created"; CStr "INCs resolved"],
                [("Week 22", [CInt 11; CInt 8]); ("Week 23", [CInt 12; CInt 7]);
                 ("Week 24", [CInt 13; CInt 6]); ("Week 25", [CInt 14; CInt 5])])))
    by (vm_compute; reflexivity).
  split; [exact Hrun|].
  exact (proj1 (X3_stats_block_content sample_created _ _ sample_created_wf Hrun)).
Defined.

(** X4. On a rectangular frame with at least one column and one row the
    stats extractor of slide 7 never raises, and it returns the None pair
    exactly when no row's first cell contains "INCs created" or no row's
    first cell contains "INCs resolved". *)
Theorem X4_stats_block_outcome (df : DataFrame) :
  wf df → columns df ≠ [] → rows df ≠ [] →
  ∃ r, Main._extract_stats_data_slide7 df = Ok r ∧
       (r = None ↔
          Forall (fun row => row_matches "INCs created" row = false) (rows df) ∨
          Forall (fun row => row_matches "INCs resolved" row = false) (rows df)).
Proof.
  intros Hwf Hcols Hrows. pose proof Hwf as [Hnd Hlen].
  rewrite Forall_forall in Hlen.
  unfold Main._extract_stats_data_slide7.
  assert (Hhdr : ∃ header_row, rows df !! Z.to_nat 0 = Some header_row).
  { destruct (rows df) as [|header_row rs]; [done|]. by exists header_row. }
  destruct Hhdr as [header_row Hhdr].
  rewrite (iloc_row_lookup df 0 header_row); [|lia|done]. cbn [mbind result_bind].
  assert (Hhlen : length header_row = length (columns df)).
  { by eapply Hlen, list_elem_of_lookup_2. }
  destruct (header_texts_total df header_row
              (Py.last4 (week_cols_of df header_row)) Hhlen
              (week_cols_sub df header_row)) as [hs ->].
  cbn [mbind result_bind].
  destruct (find_data_row_total df "INCs created" Hwf Hcols)
    as (i & -> & Hi1 & Hi2).
  destruct (find_data_row_total df "INCs resolved" Hwf Hcols)
    as (j & -> & Hj1 & Hj2).
  cbn [mbind result_bind].
  destruct (i =? -1) eqn:Ei.
  { exists None. split; [done|]. split; [|done]. intros _. left. apply Hi1. lia. }
  destruct (j =? -1) eqn:Ej.
  { exists None. split; [done|]. split; [|done]. intros _. right. apply Hj1. lia. }
  cbn [orb].
  destruct Hi2 as (Hi & created_row & Hcr); [lia|].
  destruct Hj2 as (Hj & resolved_row & Hrr); [lia|].
  destruct (loc_row_cols_total df i created_row
              (Py.last4 (week_cols_of df header_row)) Hi Hcr)
    as [cd ->]; [by eapply Hlen, list_elem_of_lookup_2 | apply week_cols_sub |].
  destruct (loc_row_cols_total df j resolved_row
              (Py.last4 (week_cols_of df header_row)) Hj Hrr)
    as [rd ->]; [by eapply Hlen, list_elem_of_lookup_2 | apply week_cols_sub |].
  cbn [mbind result_bind]. eexists. split; [done|]. split; [done|].
  intros [Hall | Hall]; [apply Hi1 in Hall | apply Hj1 in Hall]; lia.
Qed.

Lemma X4_stats_block_outcome_witness :
  wf sample_created ∧ columns sample_created ≠ [] ∧ rows sample_created ≠ [] ∧
  ∃ r, Main._extract_stats_data_slide7 sample_created = Ok r.
Proof.
  split; [exact sample_created_wf|]. split; [done|]. split; [done|].
  destruct (X4_stats_block_outcome sample_created sample_created_wf)
    as (r & Hr & _); [done | done |].
  by exists r.
Defined.

(** X5. A sheet without rows makes [populate_slide_7] raise [IndexError]:
    both block extractors return the None pair, but the stats extractor
    reads row 0 before it looks for its labels. In the main workflow the
    exception is not caught, so the run ends there, after slide 6 was
    written and before any file is saved. *)
Theorem X5_empty_created_sheet_raises (app : Main.Application) (sys : Main.System)
    (p6 p8 p9 p10 : Presentation → DataFrame → Z → result Presentation)
    (wb : workbook) (fs : files) (df6 df7 df8 df9 df10 : DataFrame)
    (template prs6 : Presentation) :
  rows df7 = [] →
  wb !! Main.SHEET_NAME_SLIDE_6 = Some df6 →
  wb !! Main.SHEET_NAME_SLIDE_7 = Some df7 →
  wb !! Main.SHEET_NAME_SLIDE_8 = Some df8 →
  wb !! Main.SHEET_NAME_SLIDE_9 = Some df9 →
  wb !! Main.SHEET_NAME_SLIDE_10 = Some df10 →
  fs !! Main.TEMPLATE_PPTX_PATH = Some template →
  p6 template df6 Main.SLIDE_6_INDEX = Ok prs6 →
  Main._extract_data_block_slide7 df7 "Tools Created" 4 = Ok None ∧
  Main._extract_data_block_slide7 df7 "Auto closed by Tools" 2 = Ok None ∧
  Main._extract_stats_data_slide7 df7 = Raise IndexError ∧
  (∀ (prs : Presentation) slide_index,
     Main.populate_slide_7 prs df7 slide_index = Raise IndexError) ∧
  Main.main sys p6 Main.populate_slide_7 p8 p9 p10 wb fs = Main.Uncaught IndexError.
Proof.
  intros Hrows H6 H7 H8 H9 H10 Htpl Hp6.
  assert (Hblock : ∀ l n, Main._extract_data_block_slide7 df7 l n = Ok None).
  { intros l n. unfold Main._extract_data_block_slide7, Main._find_data_row.
    by rewrite Hrows. }
  assert (Hstats : Main._extract_stats_data_slide7 df7 = Raise IndexError).
  { unfold Main._extract_stats_data_slide7, Pandas.iloc_row, Py.index.
    by rewrite Hrows. }
  assert (Hpop : ∀ (prs : Presentation) slide_index,
            Main.populate_slide_7 prs df7 slide_index = Raise IndexError).
  { intros prs slide_index. unfold Main.populate_slide_7.
    destruct (Py.index prs slide_index) as [slide|e] eqn:Eslide; cbn.
    - rewrite !Hblock. cbn. by rewrite Hstats.
    - unfold Py.index in Eslide.
      destruct (_ && _); [|congruence].
      destruct (prs !! _); simpl in Eslide; congruence. }
  repeat (split; [done|]).
  unfold Main.main, Main.read_sheets, Main.read_excel.
  rewrite H6, H7, H8, H9, H10. cbn.
  unfold Main.build_and_style, Main.populate_slides.
  rewrite Htpl. cbn. rewrite Hp6. cbn. rewrite Hpop. done.
Qed.

Lemma X5_empty_created_sheet_raises_witness :
  rows empty_frame = [] ∧
  Main.main (app := sample_application) permissive
    keep_slides Main.populate_slide_7 keep_slides keep_slides keep_slides
    workbook_empty_created sample_files = Main.Uncaught IndexError.
Proof.
  split; [reflexivity|].
  apply (X5_empty_created_sheet_raises sample_application permissive
           keep_slides keep_slides keep_slides keep_slides
           workbook_empty_created sample_files
           sample_volumetric empty_frame empty_frame sample_change empty_frame
           sample_template sample_template); reflexivity.
Defined.

(** ** Dictionaries, continued *)

Section dict_keys.
Context {K V : Type} `{EqDecision K}.
Implicit Types (d kvs : list (K * V)).

Lemma dict_set_keys d k v :
  (dict_set d k v).*1 = if decide (k ∈ d.*1) then d.*1 else (d.*1 ++ [k])%list.
Proof.
  induction d as [|[k' v'] d IH].
  - cbn [dict_set fmap list_fmap fst].
    rewrite decide_False; [done | by intros ?%elem_of_nil].
  - cbn [dict_set fmap list_fmap fst].
    destruct (decide (k' = k)) as [->|Hne]; cbn [fmap list_fmap fst].
    + rewrite decide_True; [done | left].
    + rewrite IH. destruct (decide (k ∈ d.*1)) as [Hin|Hnin].
      * rewrite decide_True; [done | by right].
      * rewrite decide_False; [done|].
        intros [?|?]%elem_of_cons; congruence.
Qed.

Lemma dict_set_NoDup d k v : NoDup d.*1 → NoDup (dict_set d k v).*1.
Proof.
  intros Hnd. rewrite dict_set_keys. case_decide; [done|].
  apply NoDup_app. split; [done|]. split; [|apply NoDup_singleton].
  intros x Hx ->%list_elem_of_singleton. done.
Qed.

(** The keys of a dictionary are distinct. *)
Lemma dict_of_NoDup kvs : NoDup (dict_of kvs).*1.
Proof.
  unfold dict_of.
  assert (∀ d, NoDup d.*1 →
               NoDup (foldl (fun d kv => dict_set d kv.1 kv.2) d kvs).*1) as Hgen.
  { induction kvs as [|[k v] kvs IH]; intros d Hd; simpl; [done|].
    by apply IH, dict_set_NoDup. }
  apply Hgen. constructor.
Qed.

Lemma dict_get_None d k : dict_get d k = None ↔ k ∉ d.*1.
Proof.
  induction d as [|[k' v'] d IH]; simpl.
  - split; [intros _ ?%elem_of_nil; done | done].
  - case_decide as Hk.
    + subst. split; [done|]. intros Hnin. exfalso. apply Hnin. left.
    + rewrite IH, not_elem_of_cons. split; [intros ?; split; [congruence | done] | by intros [_ ?]].
Qed.

(** When every value is computed from its key, the value of a key that was
    written is the computed one. *)
Lemma dict_get_dict_of_fun (f : K → V) (ks : list K) k :
  dict_get (dict_of ((fun x => (x, f x)) <$> ks)) k
  = if decide (k ∈ ks) then Some (f k) else None.
Proof.
  case_decide as Hk.
  - apply list_elem_of_split_r in Hk as (l1 & l2 & -> & Hl2).
    rewrite fmap_app, fmap_cons. apply dict_get_dict_of_last.
    by rewrite <- list_fmap_compose, list_fmap_id.
  - unfold dict_of. rewrite dict_get_foldl_ne; [done|].
    by rewrite <- list_fmap_compose, list_fmap_id.
Qed.

End dict_keys.

(** ** The pending-counts extractor of slide 8 *)

Lemma tail_n_all df : Pandas.tail_n df (length (rows df)) = rows df.
Proof. unfold Pandas.tail_n. by rewrite Nat.sub_diag. Qed.

(** X6. The stand-alone [extract_pending_data_from_rows] and
    [_extract_pending_data_slide8] of the integrated pipeline return the same
    pair for every frame and every list of labels: the branch of the
    stand-alone script for sheets with fewer than four rows takes the rows
    that [tail(4)] takes. *)
Theorem X6_slide8_extractors_agree (df : DataFrame) (series_labels : list string)
    (week_column_label : string) :
  (DataFromSheetForSlide8.extract_pending_data_from_rows df series_labels
     week_column_label).2
  = Main._extract_pending_data_slide8 df series_labels week_column_label.
Proof.
  unfold DataFromSheetForSlide8.extract_pending_data_from_rows,
    Main._extract_pending_data_slide8.
  case_bool_decide; [done|]. cbn [snd].
  assert (Hrows : (if bool_decide (length (rows df) < 4)%nat
                   then Pandas.tail_n df (length (rows df))
                   else Pandas.tail_n df 4) = Pandas.tail4 df).
  { case_bool_decide.
    - rewrite tail_n_all. unfold Pandas.tail4. by rewrite last4_short.
    - done. }
  by rewrite Hrows.
Qed.

Lemma filter_nil_iff {A} (P : A → Prop) `{∀ x, Decision (P x)} (l : list A) :
  filter P l = [] ↔ ∀ x, x ∈ l → ¬ P x.
Proof.
  split.
  - intros Hnil x Hx HP.
    assert (Hin : x ∈ filter P l) by (by apply list_elem_of_filter).
    rewrite Hnil in Hin. by apply elem_of_nil in Hin.
  - intros Hall. destruct (filter P l) as [|x l'] eqn:E; [done|]. exfalso.
    assert (Hin : x ∈ filter P l) by (rewrite E; left).
    apply list_elem_of_filter in Hin as [HP Hin]. by apply (Hall x).
Qed.

Lemma filter_eq_nil_iff (cols : list label) col :
  filter (fun c => c = col) cols = [] ↔ col ∉ cols.
Proof.
  rewrite filter_nil_iff. split.
  - intros H Hin. by apply (H col).
  - intros H c Hc ->. done.
Qed.

(** The label stands again after its first column exactly when it is
    repeated. *)
Lemma repeated_iff cols col p :
  Pandas.col_pos cols col = Some p → col ∈ drop (S p) cols ↔ repeated cols col.
Proof.
  unfold repeated. revert p. induction cols as [|c cols IH]; intros p; simpl; [done|].
  case_decide as Hc.
  - intros [= <-]. subst c. rewrite filter_cons_True by done. simpl.
    destruct (filter (fun c => c = col) cols) as [|x l] eqn:E.
    + apply filter_eq_nil_iff in E. simpl. split; [done | lia].
    + assert (Hin : col ∈ cols).
      { destruct (decide (col ∈ cols)) as [?|Hno]; [done|].
        apply filter_eq_nil_iff in Hno. congruence. }
      simpl. split; [lia | done].
  - destruct (Pandas.col_pos cols col) as [q|] eqn:Hq; simpl; [|done].
    intros [= <-]. rewrite filter_cons_False by done. simpl. by apply IH.
Qed.

Lemma column_values_label cols rs col :
  col ∈ cols → ¬ repeated cols col →
  ∃ p, Pandas.col_pos cols col = Some p ∧
       Pandas.column_values cols rs col = Ok (column_at p rs).
Proof.
  intros Hcol Hone. destruct (col_pos_is_Some cols col Hcol) as [p Hp].
  exists p. split; [done|]. unfold Pandas.column_values. rewrite Hp. simpl.
  rewrite bool_decide_eq_false_2; [done|]. by rewrite (repeated_iff cols col p Hp).
Qed.

Lemma column_values_repeated cols rs col :
  repeated cols col → Pandas.column_values cols rs col = Raise AttributeError.
Proof.
  intros Hrep. assert (Hcol : col ∈ cols).
  { destruct (decide (col ∈ cols)) as [?|Hno]; [done|].
    apply filter_eq_nil_iff in Hno. unfold repeated in Hrep. rewrite Hno in Hrep.
    simpl in Hrep. lia. }
  destruct (col_pos_is_Some cols col Hcol) as [p Hp].
  unfold Pandas.column_values. rewrite Hp. simpl.
  rewrite bool_decide_eq_true_2; [done|]. by rewrite (repeated_iff cols col p Hp).
Qed.

Lemma column_values_missing cols rs col :
  col ∉ cols → Pandas.column_values cols rs col = Raise KeyError.
Proof.
  intros Hcol. unfold Pandas.column_values.
  destruct (Pandas.col_pos cols col) as [p|] eqn:Hp; [|done].
  apply col_pos_lookup in Hp. exfalso. apply Hcol. by eapply list_elem_of_lookup_2.
Qed.

(** The entries that the slide-8 extractor writes for the labels that are
    columns. *)
Lemma slide8_entries df rs (valid : list string) :
  (∀ l, l ∈ valid → LStr l ∈ columns df ∧ ¬ repeated (columns df) (LStr l)) →
  mapM (fun l => vs ← Pandas.column_values (columns df) rs (LStr l); Ok (l, vs)) valid
  = Ok ((fun l => (l, column_at (default 0%nat (Pandas.col_pos (columns df) (LStr l))) rs))
        <$> valid).
Proof.
  intros Hvalid. apply mapM_Ok_fmap. intros l Hl.
  destruct (Hvalid l Hl) as [Hcol Hone].
  destruct (column_values_label (columns df) rs (LStr l) Hcol Hone)
    as (p & Hp & ->). by rewrite Hp.
Qed.

(** The same entries, read off a run that returned. *)
Lemma slide8_entries_inv df rs (valid : list string) entries :
  mapM (fun l => vs ← Pandas.column_values (columns df) rs (LStr l); Ok (l, vs)) valid
  = Ok entries →
  entries
  = (fun l => (l, column_at (default 0%nat (Pandas.col_pos (columns df) (LStr l))) rs))
    <$> valid.
Proof.
  intros H%mapM_Ok_inv.
  induction H as [|l e valid entries Hl _ IH]; [done|].
  rewrite fmap_cons. f_equal; [|exact IH]. bind_inv Hl. injection Hl as <-.
  apply column_values_inv in Ha as (p & Hp & _ & ->). by rewrite Hp.
Qed.

(** A repeated label among labels that are columns stops the comprehension
    with [AttributeError]. *)
Lemma slide8_entries_repeated df rs (valid : list string) l :
  (∀ l, l ∈ valid → LStr l ∈ columns df) →
  l ∈ valid → repeated (columns df) (LStr l) →
  mapM (fun l => vs ← Pandas.column_values (columns df) rs (LStr l); Ok (l, vs)) valid
  = Raise AttributeError.
Proof.
  intros Hvalid Hl Hrep. induction valid as [|l' valid IH]; [by apply elem_of_nil in Hl|].
  cbn [mapM].
  destruct (decide (repeated (columns df) (LStr l'))) as [Hrep'|Hone].
  - by rewrite column_values_repeated.
  - destruct (column_values_label (columns df) rs (LStr l')
                (Hvalid l' ltac:(left)) Hone) as (p & _ & ->).
    cbn [mbind result_bind]. rewrite IH; [done | |].
    + intros l0 Hl0. apply Hvalid. by right.
    + apply elem_of_cons in Hl as [->|Hl]; done.
Qed.

(** X7. The pending-counts extractor of slide 8 returns the None pair
    when none of the requested series labels is a column of the sheet. When
    some label is a column it raises [KeyError] if the week column is
    missing, it raises [AttributeError] if the week label or a requested
    label stands over more than one column, and it returns a block
    otherwise, without any condition on the rows. *)
Theorem X7_slide8_outcome (df : DataFrame) (series_labels : list string)
    (week_column_label : string) :
  ((∀ l, l ∈ series_labels → LStr l ∉ columns df) →
     Main._extract_pending_data_slide8 df series_labels week_column_label = Ok None) ∧
  ((∃ l, l ∈ series_labels ∧ LStr l ∈ columns df) →
     (LStr week_column_label ∉ columns df →
        Main._extract_pending_data_slide8 df series_labels week_column_label
          = Raise KeyError) ∧
     (LStr week_column_label ∈ columns df →
        ((repeated (columns df) (LStr week_column_label) ∨
          ∃ l, l ∈ series_labels ∧ repeated (columns df) (LStr l)) →
           Main._extract_pending_data_slide8 df series_labels week_column_label
             = Raise AttributeError) ∧
        (¬ repeated (columns df) (LStr week_column_label) →
         (∀ l, l ∈ series_labels → ¬ repeated (columns df) (LStr l)) →
           ∃ blk, Main._extract_pending_data_slide8 df series_labels week_column_label
                    = Ok (Some blk)))).
Proof.
  unfold Main._extract_pending_data_slide8. split.
  - intros Hnone. rewrite bool_decide_eq_true_2; [done|].
    apply filter_nil_iff. intros l Hl. by apply Hnone.
  - intros (l & Hl & Hcol). rewrite bool_decide_eq_false_2.
    2:{ intros Hnil. apply (proj1 (filter_nil_iff _ _) Hnil l Hl Hcol). }
    split; [intros Hweek; by rewrite column_values_missing|].
    intros Hweek. split.
    + destruct (decide (repeated (columns df) (LStr week_column_label)))
        as [Hrep|Hone]; [intros _; by rewrite column_values_repeated|].
      intros [Hrep | (l' & Hl' & Hrep)]; [done|].
      destruct (column_values_label (columns df) (Pandas.tail4 df)
                  (LStr week_column_label) Hweek Hone) as (pw & _ & ->).
      cbn [mbind result_bind].
      rewrite (slide8_entries_repeated df (Pandas.tail4 df) _ l'); [done | | | done].
      * by intros l0 [? _]%list_elem_of_filter.
      * apply list_elem_of_filter. split; [|done].
        destruct (decide (LStr l' ∈ columns df)) as [?|Hno]; [done|].
        apply filter_eq_nil_iff in Hno. unfold repeated in Hrep.
        rewrite Hno in Hrep. simpl in Hrep. lia.
    + intros Hone Hall.
      destruct (column_values_label (columns df) (Pandas.tail4 df)
                  (LStr week_column_label) Hweek Hone) as (pw & _ & ->).
      cbn [mbind result_bind]. rewrite slide8_entries.
      * cbn. eauto.
      * intros l' [? Hl']%list_elem_of_filter. split; [done|]. by apply Hall.
Qed.

Lemma X7_slide8_outcome_witness :
  (∃ l, l ∈ ["Pending INCs"; "Pending RITMs"] ∧ LStr l ∈ columns sample_pending) ∧
  (LStr "Week" ∉ columns sample_pending) ∧
  Main._extract_pending_data_slide8 sample_pending ["Pending INCs"; "Pending RITMs"]
    "Week" = Raise KeyError ∧
  repeated (columns sample_pending_repeated) (LStr "Pending INCs") ∧
  Main._extract_pending_data_slide8 sample_pending_repeated
    ["Pending INCs"; "Pending RITMs"] "Week #" = Raise AttributeError.
Proof.
  assert (Hsome : ∃ l, l ∈ ["Pending INCs"; "Pending RITMs"]
                       ∧ LStr l ∈ columns sample_pending).
  { exists "Pending INCs". split; apply (bool_decide_unpack _); vm_compute; exact I. }
  assert (Hweek : LStr "Week" ∉ columns sample_pending)
    by (apply (bool_decide_unpack _); vm_compute; exact I).
  assert (Hin : "Pending INCs" ∈ ["Pending INCs"; "Pending RITMs"])
    by (apply (bool_decide_unpack _); vm_compute; exact I).
  assert (Hrep : repeated (columns sample_pending_repeated) (LStr "Pending INCs"))
    by (apply (bool_decide_unpack _); vm_compute; exact I).
  split; [exact Hsome|]. split; [exact Hweek|]. split.
  - destruct (X7_slide8_outcome sample_pending ["Pending INCs"; "Pending RITMs"] "Week")
      as [_ Hsome'].
    destruct (Hsome' Hsome) as [Hraise _]. exact (Hraise Hweek).
  - split; [exact Hrep|].
    destruct (X7_slide8_outcome sample_pending_repeated
                ["Pending INCs"; "Pending RITMs"] "Week #") as [_ Hsome'].
    destruct Hsome' as [_ Hweek'].
    { exists "Pending INCs". split; [exact Hin|].
      apply (bool_decide_unpack _). vm_compute. exact I. }
    destruct Hweek' as [Hattr _].
    { apply (bool_decide_unpack _). vm_compute. exact I. }
    apply Hattr. right. exists "Pending INCs". split; [exact Hin | exact Hrep].
Defined.

(** X8. When the slide-8 extractor returns a block, the categories are the
    texts of the week column in the last four rows of the sheet (all rows
    when there are fewer), every requested label that is a column has that
    column's cells of the same rows as its series, and the series names are
    exactly those labels, each once. *)
Theorem X8_slide8_block_content (df : DataFrame) (series_labels : list string)
    (week_column_label : string) categories data_dict :
  Main._extract_pending_data_slide8 df series_labels week_column_label
    = Ok (Some (categories, data_dict)) →
  (∃ pw, Pandas.col_pos (columns df) (LStr week_column_label) = Some pw ∧
         categories = str <$> column_at pw (Py.last4 (rows df))) ∧
  length categories = Nat.min 4 (length (rows df)) ∧
  (∀ l, l ∈ series_labels → LStr l ∈ columns df →
     ∃ p, Pandas.col_pos (columns df) (LStr l) = Some p ∧
          dict_get data_dict l = Some (column_at p (Py.last4 (rows df)))) ∧
  (∀ l, l ∈ data_dict.*1 ↔ l ∈ series_labels ∧ LStr l ∈ columns df) ∧
  NoDup data_dict.*1.
Proof.
  intros H. unfold Main._extract_pending_data_slide8 in H.
  case_bool_decide as Hvalid; [done|].
  bind_inv H. bind_inv H. injection H as <- <-.
  apply slide8_entries_inv in Ha0 as ->.
  apply column_values_inv in Ha as (pw & Hpw & _ & ->). unfold Pandas.tail4.
  split; [by exists pw|].
  split.
  { unfold column_at, Py.last4. rewrite !length_fmap, length_drop. lia. }
  split.
  { intros l Hl Hcol. destruct (col_pos_is_Some _ _ Hcol) as [p Hp].
    exists p. split; [done|].
    rewrite (dict_get_dict_of_fun
               (fun l => column_at (default 0%nat (Pandas.col_pos (columns df) (LStr l)))
                           (Py.last4 (rows df)))).
    rewrite decide_True by (by apply list_elem_of_filter). by rewrite Hp. }
  split; [|apply dict_of_NoDup].
  intros l.
  assert (Hiff : l ∈ series_labels ∧ LStr l ∈ columns df
                 ↔ l ∈ filter (fun l => LStr l ∈ columns df) series_labels).
  { rewrite list_elem_of_filter. split; intros [? ?]; done. }
  rewrite Hiff. clear Hiff.
  destruct (decide (l ∈ filter (fun l => LStr l ∈ columns df) series_labels))
    as [Hin|Hnin].
  - split; [done|]. intros _.
    destruct (decide (l ∈ (dict_of ((fun l =>
        (l, column_at (default 0%nat (Pandas.col_pos (columns df) (LStr l)))
              (Py.last4 (rows df)))) <$>
        filter (fun l => LStr l ∈ columns df) series_labels)).*1)) as [?|Hno]; [done|].
    apply dict_get_None in Hno. rewrite dict_get_dict_of_fun, decide_True in Hno; done.
  - split; [|done]. intros Hkey. exfalso.
    assert (Hnone : dict_get (dict_of ((fun l =>
        (l, column_at (default 0%nat (Pandas.col_pos (columns df) (LStr l)))
              (Py.last4 (rows df)))) <$>
        filter (fun l => LStr l ∈ columns df) series_labels)) l = None).
    { rewrite dict_get_dict_of_fun. by rewrite decide_False. }
    apply dict_get_None in Hnone. done.
Qed.

Lemma X8_slide8_block_content_witness :
  Main._extract_pending_data_slide8 sample_pending
    ["Pending INCs"; "INCs Resolved"; "Total INCs Created"] "Week #"
  = Ok (Some (["22"; "23"; "24"; "25"],
              [("Pending INCs", [CInt 6; CInt 7; CInt 8; CInt 9]);
               ("INCs Resolved", [CInt 60; CInt 70; CInt 80; CInt 90])])) ∧
  length ["22"; "23"; "24"; "25"] = Nat.min 4 (length (rows sample_pending)).
Proof.
  assert (Hrun : Main._extract_pending_data_slide8 sample_pending
    ["Pending INCs"; "INCs Resolved"; "Total INCs Created"] "Week #"
    = Ok (Some (["22"; "23"; "24"; "25"],
                [("Pending INCs", [CInt 6; CInt 7; CInt 8; CInt 9]);
                 ("INCs Resolved", [CInt 60; CInt 70; CInt 80; CInt 90])])))
    by (vm_compute; reflexivity).
  split; [exact Hrun|].
  by destruct (X8_slide8_block_content _ _ _ _ _ Hrun) as (_ & Hlen & _).
Defined.

(** ** The blocks of slides 7 and 9: the right columns and rows *)

Lemma last4_fmap {A B} (f : A → B) (l : list A) :
  Py.last4 (f <$> l) = f <$> Py.last4 l.
Proof. unfold Py.last4. by rewrite fmap_drop, length_fmap. Qed.

Lemma find_data_row_loop_found label_text rs i k :
  0 ≤ i → find_data_row_loop i rs label_text = Ok k → i ≤ k →
  ∃ row, rs !! Z.to_nat (k - i) = Some row ∧ row_matches label_text row = true.
Proof.
  revert i. induction rs as [|r rs IH]; intros i Hi; simpl.
  - intros [= <-]. lia.
  - intros H Hle. bind_inv H. destruct r as [|c r]; [done|]. injection Ha as <-.
    destruct (label_in_cell label_text c) eqn:Hc.
    + injection H as <-. replace (i - i) with 0 by lia. exists (c :: r).
      split; [done|]. unfold row_matches. simpl. done.
    + pose proof (find_data_row_loop_range _ _ _ _ H) as [-> | Hk]; [lia|].
      assert (Hi' : 0 ≤ i + 1) by lia.
      destruct (IH (i + 1) Hi' H Hk) as (row & Hrow & Hm). exists row. split; [|done].
      replace (Z.to_nat (k - i)) with (S (Z.to_nat (k - (i + 1)))) by lia. done.
Qed.

(** A row in which the label was found has a first cell, so the frame has a
    first column. *)
Lemma found_row df label_text i :
  wf df → Main._find_data_row df label_text = Ok i → i ≠ -1 →
  0 ≤ i ∧ columns df ≠ [] ∧ ∃ row, rows df !! Z.to_nat i = Some row.
Proof.
  intros [_ Hlen] Hfind Hi. unfold Main._find_data_row in Hfind.
  pose proof (find_data_row_loop_range _ _ _ _ Hfind) as [-> | Hle]; [done|].
  destruct (find_data_row_loop_found label_text (rows df) 0 i (Z.le_refl 0) Hfind Hle)
    as (row & Hrow & Hm).
  rewrite Z.sub_0_r in Hrow. split; [done|]. split; [|eauto].
  rewrite Forall_forall in Hlen.
  specialize (Hlen row (list_elem_of_lookup_2 _ _ _ Hrow)).
  intros Hcols. rewrite Hcols in Hlen. destruct row; [|done].
  unfold row_matches in Hm. done.
Qed.

Lemma iloc_rows_col0_block df a n :
  columns df ≠ [] → 0 ≤ a → 0 ≤ n →
  Pandas.iloc_rows_col0 df a (a + n)
  = Ok (column_at 0 (take (Z.to_nat n) (drop (Z.to_nat a) (rows df)))).
Proof.
  intros Hcols Ha Hn. unfold Pandas.iloc_rows_col0, Pandas.iloc_rows.
  destruct (columns df); [done|]. rewrite slice_take_drop by done.
  f_equal. unfold column_at. apply list_fmap_ext. intros _ r _.
  by rewrite head_lookup.
Qed.

Lemma loc_rows_block df a n :
  0 ≤ a → 0 ≤ n →
  Pandas.loc_rows df a (a + n - 1) = take (Z.to_nat n) (drop (Z.to_nat a) (rows df)).
Proof.
  intros Ha Hn. rewrite loc_rows_iloc_rows by lia.
  unfold Pandas.iloc_rows. by apply slice_take_drop.
Qed.

Lemma zip_placed df header_row ch :
  ch ∈ zip (columns df) header_row → placed df header_row ch.
Proof.
  intros [p Hp]%list_elem_of_lookup_1.
  apply lookup_zip_with_Some in Hp as (c & h & -> & Hc & Hh). by exists p.
Qed.

Lemma header_texts_pairs df header_row (L : list (label * cell)) :
  NoDup (columns df) → Forall (placed df header_row) L →
  header_texts df header_row (L.*1) = Ok (str <$> L.*2).
Proof.
  intros Hnd HL. unfold header_texts. apply mapM_Ok_intro.
  rewrite <- list_fmap_compose.
  apply Forall2_fmap, Forall_Forall2_diag.
  eapply Forall_impl; [exact HL|]. intros [c h] (p & Hc & Hh). simpl in *.
  by rewrite (series_get_NoDup _ _ _ h p Hnd Hc Hh).
Qed.

Lemma series_dict_pairs df a b header_row (L : list (label * cell)) :
  NoDup (columns df) → Forall (placed df header_row) L →
  series_dict df a b (str <$> L.*2) (L.*1)
  = Ok (dict_of ((fun ch => (str ch.2,
                   column_at (default 0%nat (Pandas.col_pos (columns df) ch.1))
                             (Pandas.loc_rows df a b))) <$> L)).
Proof.
  intros Hnd HL. unfold series_dict.
  assert (Hzip : zip (str <$> L.*2) (L.*1) = (fun ch => (str ch.2, ch.1)) <$> L).
  { rewrite <- !list_fmap_compose, zip_with_fmap_l, zip_with_fmap_r, zip_with_diag.
    done. }
  rewrite Hzip.
  assert (Hent : mapM (fun hc : string * label =>
                   vs ← Pandas.loc_rows_col df a b hc.2; Ok (hc.1, vs))
                   ((fun ch : label * cell => (str ch.2, ch.1)) <$> L)
                 = Ok ((fun ch => (str ch.2,
                          column_at (default 0%nat (Pandas.col_pos (columns df) ch.1))
                                    (Pandas.loc_rows df a b))) <$> L)).
  { apply mapM_Ok_intro, Forall2_fmap, Forall_Forall2_diag.
    eapply Forall_impl; [exact HL|]. intros [c h] (p & Hc & Hh). simpl in *.
    unfold Pandas.loc_rows_col.
    by rewrite (column_values_NoDup _ _ _ p Hnd Hc), (col_pos_NoDup _ _ _ Hnd Hc). }
  by rewrite Hent.
Qed.

(** The series written for the header cell [h] of column [c] when no later
    selected column has the same header text. *)
Lemma dict_get_placed df rs (L1 L2 : list (label * cell)) c h p :
  NoDup (columns df) → columns df !! p = Some c →
  str h ∉ str <$> L2.*2 →
  dict_get (dict_of ((fun ch : label * cell => (str ch.2,
              column_at (default 0%nat (Pandas.col_pos (columns df) ch.1)) rs))
            <$> (L1 ++ (c, h) :: L2)%list)) (str h)
  = Some (column_at p rs).
Proof.
  intros Hnd Hc Hlater. rewrite fmap_app, fmap_cons. cbn [fst snd].
  rewrite dict_get_dict_of_last.
  - by rewrite (col_pos_NoDup _ _ _ Hnd Hc).
  - by rewrite <- !list_fmap_compose in *.
Qed.

Lemma week_pairs_placed df header_row :
  Forall (placed df header_row)
    (Py.last4 (filter (fun ch : label * cell => is_week ch.2)
                 (zip (columns df) header_row))).
Proof.
  apply Forall_forall. intros ch Hch%elem_of_last4.
  apply list_elem_of_filter in Hch as [_ Hch]. by apply zip_placed.
Qed.

(** What the slide-7 block extractor computes once the label row and the
    header row are known. *)
Lemma slide7_block_run df start_label num_rows i header_row :
  wf df → 0 ≤ num_rows →
  Main._find_data_row df start_label = Ok i → i ≠ -1 →
  Pandas.iloc_row df (i - 1) = Ok header_row →
  Main._extract_data_block_slide7 df start_label num_rows
  = Ok (Some
      (column_at 0 (take (Z.to_nat num_rows) (drop (Z.to_nat i) (rows df))),
       dict_of ((fun ch : label * cell => (str ch.2,
                  column_at (default 0%nat (Pandas.col_pos (columns df) ch.1))
                    (take (Z.to_nat num_rows) (drop (Z.to_nat i) (rows df)))))
                <$> Py.last4 (filter (fun ch : label * cell => is_week ch.2)
                               (zip (columns df) header_row))))).
Proof.
  intros Hwf Hn Hfind Hi Hhdr. pose proof Hwf as [Hnd Hlen].
  destruct (found_row df start_label i Hwf Hfind Hi) as (Hpos & Hcols & _).
  unfold Main._extract_data_block_slide7. rewrite Hfind. cbn [mbind result_bind].
  destruct (i =? -1) eqn:E; [lia|]. rewrite Hhdr. cbn [mbind result_bind].
  unfold week_cols_of. rewrite last4_fmap.
  rewrite (header_texts_pairs df header_row _ Hnd (week_pairs_placed df header_row)).
  cbn [mbind result_bind].
  rewrite iloc_rows_col0_block by done. cbn [mbind result_bind].
  rewrite (series_dict_pairs df _ _ header_row _ Hnd (week_pairs_placed df header_row)).
  cbn [mbind result_bind]. by rewrite loc_rows_block.
Qed.

(** The week pairs of a header row split at one of its last four week
    cells. *)
Lemma last4_week_pairs_split (cols : list label) (pre post : list cell) h :
  length cols = length (pre ++ h :: post)%list → is_week h = true →
  (length (filter (fun c => is_week c) post) < 4)%nat →
  ∃ c L1 L2,
    cols !! length pre = Some c ∧
    L2.*2 = filter (fun c => is_week c) post ∧
    Py.last4 (filter (fun ch : label * cell => is_week ch.2)
                (zip cols (pre ++ h :: post)%list))
    = (L1 ++ (c, h) :: L2)%list.
Proof.
  intros Hlen Hw Hfew. rewrite length_app in Hlen. simpl in Hlen.
  destruct (lookup_lt_is_Some_2 cols (length pre)) as [c Hc]; [lia|].
  pose proof (take_drop_middle _ _ _ Hc) as Hsplit.
  set (W1 := filter (fun ch : label * cell => is_week ch.2)
               (zip (take (length pre) cols) pre)).
  set (W2 := filter (fun ch : label * cell => is_week ch.2)
               (zip (drop (S (length pre)) cols) post)).
  assert (HW : filter (fun ch : label * cell => is_week ch.2)
                 (zip cols (pre ++ h :: post)%list) = (W1 ++ (c, h) :: W2)%list).
  { rewrite <- Hsplit at 1.
    rewrite zip_with_app by (rewrite length_take; lia).
    simpl. rewrite filter_app, filter_cons_True; [done|].
    simpl. by rewrite Hw. }
  assert (HW2 : W2.*2 = filter (fun c => is_week c) post).
  { unfold W2. apply week_filter_zip. rewrite length_drop. lia. }
  assert (Hl2 : (length W2 < 4)%nat).
  { by rewrite <- (length_fmap snd), HW2. }
  exists c, (drop (length W1 + S (length W2) - 4) W1), W2.
  split; [done|]. split; [done|].
  rewrite HW. unfold Py.last4. rewrite length_app, length_cons.
  by rewrite drop_app_le by lia.
Qed.

(** X9. When the start label is found in row [i] and row [i - 1] is the
    header row, the slide-7 block extractor returns as categories the first
    cells of the rows [i .. i + num_rows - 1] that exist, and for each of the
    last four header cells containing "Week", unless a later one has the
    same text, the series named by its text holds the cells of its own
    column in those rows. *)
Theorem X9_slide7_block_content (df : DataFrame) (start_label : string)
    (num_rows i : Z) (header_row : list cell) :
  wf df → 0 ≤ num_rows →
  Main._find_data_row df start_label = Ok i → 1 ≤ i →
  rows df !! Z.to_nat (i - 1) = Some header_row →
  ∃ categories data_dict,
    Main._extract_data_block_slide7 df start_label num_rows
      = Ok (Some (categories, data_dict)) ∧
    categories
      = column_at 0 (take (Z.to_nat num_rows) (drop (Z.to_nat i) (rows df))) ∧
    ∀ pre h post,
      header_row = (pre ++ h :: post)%list → is_week h = true →
      (length (filter (fun c => is_week c) post) < 4)%nat →
      str h ∉ str <$> filter (fun c => is_week c) post →
      dict_get data_dict (str h)
      = Some (column_at (length pre)
                (take (Z.to_nat num_rows) (drop (Z.to_nat i) (rows df)))).
Proof.
  intros Hwf Hn Hfind Hi Hrow. pose proof Hwf as [Hnd Hlen].
  assert (Hhdr : Pandas.iloc_row df (i - 1) = Ok header_row)
    by (apply iloc_row_lookup; [lia | done]).
  eexists _, _. split.
  { apply (slide7_block_run df start_label num_rows i header_row); [done..|lia|done]. }
  split; [done|].
  intros pre h post -> Hw Hfew Hlater.
  assert (Hl : length (columns df) = length (pre ++ h :: post)%list).
  { rewrite Forall_forall in Hlen. symmetry. apply Hlen.
    by eapply list_elem_of_lookup_2. }
  destruct (last4_week_pairs_split (columns df) pre post h Hl Hw Hfew)
    as (c & L1 & L2 & Hc & HL2 & ->).
  apply dict_get_placed; [done | done | by rewrite HL2].
Qed.

Lemma X9_slide7_block_content_witness :
  ∃ categories data_dict,
    Main._extract_data_block_slide7 sample_created "Auto closed by Tools" 2
      = Ok (Some (categories, data_dict)) ∧
    categories = [CStr "Auto closed by Tools"; CStr "Closed by L2"] ∧
    dict_get data_dict "Week 24" = Some [CInt 4; CInt 9].
Proof.
  destruct (X9_slide7_block_content sample_created "Auto closed by Tools" 2 4
              [CStr "Source"; CStr "Week 21"; CStr "Week 22"; CStr "Week 23";
               CStr "Week 24"; CStr "Week 25"])
    as (categories & data_dict & Hrun & Hcats & Hdata).
  - exact sample_created_wf.
  - lia.
  - vm_compute. reflexivity.
  - lia.
  - reflexivity.
  - exists categories, data_dict. split; [exact Hrun|]. split; [exact Hcats|].
    apply (Hdata [CStr "Source"; CStr "Week 21"; CStr "Week 22"; CStr "Week 23"]
                 (CStr "Week 24") [CStr "Week 25"]).
    + reflexivity.
    + vm_compute. reflexivity.
    + vm_compute. lia.
    + apply (bool_decide_unpack _). vm_compute. exact I.
Defined.

Lemma index_last {A} (l : list A) x : last l = Some x → Py.index l (-1) = Ok x.
Proof.
  intros Hlast. rewrite last_lookup in Hlast.
  pose proof (lookup_lt_Some _ _ _ Hlast) as Hlt.
  unfold Py.index, Py.norm_index.
  change (-1 <? 0) with true. cbv iota.
  destruct (0 <=? -1 + Z.of_nat (length l)) eqn:E1; [|lia].
  destruct (-1 + Z.of_nat (length l) <? Z.of_nat (length l)) eqn:E2; [|lia].
  cbn [andb].
  replace (Z.to_nat (-1 + Z.of_nat (length l))) with (pred (length l)) by lia.
  by rewrite Hlast.
Qed.

(** X10. When the first row whose first cell contains the start label is
    row 0, the slide-7 block extractor takes the last row of the sheet as
    header row: the categories start at row 0 and every series is named by
    the text of a cell of the last row that contains "Week". *)
Theorem X10_slide7_label_in_first_row (df : DataFrame) (start_label : string)
    (num_rows : Z) (last_row : list cell) :
  wf df → 0 ≤ num_rows →
  Main._find_data_row df start_label = Ok 0 →
  last (rows df) = Some last_row →
  ∃ categories data_dict,
    Main._extract_data_block_slide7 df start_label num_rows
      = Ok (Some (categories, data_dict)) ∧
    categories = column_at 0 (take (Z.to_nat num_rows) (rows df)) ∧
    ∀ k, k ∈ data_dict.*1 →
         ∃ h, h ∈ last_row ∧ is_week h = true ∧ k = str h.
Proof.
  intros Hwf Hn Hfind Hlast.
  assert (Hhdr : Pandas.iloc_row df (0 - 1) = Ok last_row)
    by (by apply index_last).
  eexists _, _. split.
  { apply (slide7_block_run df start_label num_rows 0 last_row); done. }
  split; [done|].
  intros k Hk.
  assert (HQ : Forall (fun kv : string * list cell =>
                  ∃ h, h ∈ last_row ∧ is_week h = true ∧ kv.1 = str h)
          (dict_of ((fun ch : label * cell => (str ch.2,
                  column_at (default 0%nat (Pandas.col_pos (columns df) ch.1))
                    (take (Z.to_nat num_rows) (drop (Z.to_nat 0) (rows df)))))
                <$> Py.last4 (filter (fun ch : label * cell => is_week ch.2)
                               (zip (columns df) last_row))))).
  { apply dict_of_Forall, Forall_fmap, Forall_forall.
    intros [c h] Hch%elem_of_last4. simpl.
    apply list_elem_of_filter in Hch as [Hw Hch]. simpl in Hw.
    apply zip_placed in Hch as (p & _ & Hh). simpl in Hh.
    exists h. split; [by eapply list_elem_of_lookup_2|].
    split; [by apply Is_true_true | done]. }
  rewrite Forall_forall in HQ.
  apply list_elem_of_fmap in Hk as (kv & -> & Hkv). by apply HQ.
Qed.

Lemma X10_slide7_label_in_first_row_witness :
  last (rows sample_created)
    = Some [CStr "Closed by L2"; CInt 6; CInt 7; CInt 8; CInt 9; CInt 10] ∧
  ∃ categories data_dict,
    Main._extract_data_block_slide7 sample_created "INC" 2
      = Ok (Some (categories, data_dict)) ∧
    categories = [CStr "INC"; CStr "INCs created"].
Proof.
  split; [reflexivity|].
  destruct (X10_slide7_label_in_first_row sample_created "INC" 2
              [CStr "Closed by L2"; CInt 6; CInt 7; CInt 8; CInt 9; CInt 10])
    as (categories & data_dict & Hrun & Hcats & _).
  - exact sample_created_wf.
  - lia.
  - vm_compute. reflexivity.
  - reflexivity.
  - exists categories, data_dict. split; [exact Hrun | exact Hcats].
Defined.

Lemma data_pairs_placed df header_row :
  Forall (placed df header_row)
    (Py.last4 (drop 1 (zip (columns df) header_row))).
Proof.
  apply Forall_forall. intros ch Hch%elem_of_last4.
  apply zip_placed. apply list_elem_of_lookup_1 in Hch as [k Hk].
  rewrite lookup_drop in Hk. by eapply list_elem_of_lookup_2.
Qed.

(** What the slide-9 block extractor computes once the label row is known. *)
Lemma slide9_block_run df start_label num_rows i header_row :
  wf df → 0 ≤ num_rows →
  Main._find_data_row df start_label = Ok i → i ≠ -1 →
  rows df !! Z.to_nat i = Some header_row →
  Main._extract_data_block_slide9 df start_label num_rows
  = Ok (Some
      ((column_at 0 (take (Z.to_nat num_rows) (drop (S (Z.to_nat i)) (rows df))),
        dict_of ((fun ch : label * cell => (str ch.2,
                   column_at (default 0%nat (Pandas.col_pos (columns df) ch.1))
                     (take (Z.to_nat num_rows) (drop (S (Z.to_nat i)) (rows df)))))
                 <$> Py.last4 (drop 1 (zip (columns df) header_row)))),
       str <$> Py.last4 (drop 1 header_row))).
Proof.
  intros Hwf Hn Hfind Hi Hrow. pose proof Hwf as [Hnd Hlen].
  destruct (found_row df start_label i Hwf Hfind Hi) as (Hpos & Hcols & _).
  assert (Hl : length header_row = length (columns df)).
  { rewrite Forall_forall in Hlen. apply Hlen. by eapply list_elem_of_lookup_2. }
  assert (H1 : Py.last4 (Py.from1 (columns df))
               = (Py.last4 (drop 1 (zip (columns df) header_row))).*1).
  { rewrite <- last4_fmap, fmap_drop, fst_zip by lia. done. }
  assert (H2 : Py.last4 (drop 1 header_row)
               = (Py.last4 (drop 1 (zip (columns df) header_row))).*2).
  { rewrite <- last4_fmap, fmap_drop, snd_zip by lia. done. }
  unfold Main._extract_data_block_slide9. rewrite Hfind. cbn [mbind result_bind].
  destruct (i =? -1) eqn:E; [lia|].
  rewrite (iloc_row_lookup df i header_row Hpos Hrow). cbn [mbind result_bind].
  rewrite H1, H2.
  rewrite (header_texts_pairs df header_row _ Hnd (data_pairs_placed df header_row)).
  cbn [mbind result_bind].
  rewrite iloc_rows_col0_block by (done || lia). cbn [mbind result_bind].
  rewrite (series_dict_pairs df _ _ header_row _ Hnd (data_pairs_placed df header_row)).
  cbn [mbind result_bind]. rewrite loc_rows_block by lia.
  by replace (Z.to_nat (i + 1)) with (S (Z.to_nat i)) by lia.
Qed.

Lemma last4_data_pairs_split (cols : list label) (pre post : list cell) h :
  length cols = length (pre ++ h :: post)%list → pre ≠ [] →
  (length post < 4)%nat →
  ∃ c L1 L2,
    cols !! length pre = Some c ∧ L2.*2 = post ∧
    Py.last4 (drop 1 (zip cols (pre ++ h :: post)%list)) = (L1 ++ (c, h) :: L2)%list.
Proof.
  intros Hlen Hpre Hfew. rewrite length_app in Hlen. simpl in Hlen.
  destruct (lookup_lt_is_Some_2 cols (length pre)) as [c Hc]; [lia|].
  pose proof (take_drop_middle _ _ _ Hc) as Hsplit.
  set (Z1 := zip (take (length pre) cols) pre).
  set (Z2 := zip (drop (S (length pre)) cols) post).
  assert (HZ : zip cols (pre ++ h :: post)%list = (Z1 ++ (c, h) :: Z2)%list).
  { rewrite <- Hsplit at 1. by rewrite zip_with_app by (rewrite length_take; lia). }
  assert (HZ1 : length Z1 = length pre).
  { unfold Z1. rewrite length_zip, length_take. lia. }
  assert (HZ2 : Z2.*2 = post).
  { unfold Z2. apply snd_zip. rewrite length_drop. lia. }
  assert (Hl2 : length Z2 = length post).
  { unfold Z2. rewrite length_zip, length_drop. lia. }
  assert (Hpos : (1 ≤ length pre)%nat) by (destruct pre; [done | simpl; lia]).
  exists c, (drop (length (drop 1 Z1) + S (length Z2) - 4) (drop 1 Z1)), Z2.
  split; [done|]. split; [done|].
  rewrite HZ. rewrite drop_app_le by lia.
  unfold Py.last4. rewrite length_app, length_cons.
  by rewrite drop_app_le by (rewrite length_drop; lia).
Qed.

(** X11. When the start label is found in row [i], the slide-9 block
    extractor returns as categories the first cells of the rows
    [i + 1 .. i + num_rows] that exist, as headers the texts of the last
    four cells of row [i] after the first (the texts of all of them when
    they are fewer), and for each of those cells, unless a later one has the
    same text, the series named by its text holds the cells of its own
    column in those rows. *)
Theorem X11_slide9_block_content (df : DataFrame) (start_label : string)
    (num_rows i : Z) (header_row : list cell) :
  wf df → 0 ≤ num_rows →
  Main._find_data_row df start_label = Ok i → i ≠ -1 →
  rows df !! Z.to_nat i = Some header_row →
  ∃ categories data_dict headers,
    Main._extract_data_block_slide9 df start_label num_rows
      = Ok (Some ((categories, data_dict), headers)) ∧
    categories
      = column_at 0 (take (Z.to_nat num_rows) (drop (S (Z.to_nat i)) (rows df))) ∧
    headers = str <$> Py.last4 (drop 1 header_row) ∧
    length headers = Nat.min 4 (length (columns df) - 1) ∧
    ∀ pre h post,
      header_row = (pre ++ h :: post)%list → pre ≠ [] →
      (length post < 4)%nat → str h ∉ str <$> post →
      dict_get data_dict (str h)
      = Some (column_at (length pre)
                (take (Z.to_nat num_rows) (drop (S (Z.to_nat i)) (rows df)))).
Proof.
  intros Hwf Hn Hfind Hi Hrow. pose proof Hwf as [Hnd Hlen].
  assert (Hl : length header_row = length (columns df)).
  { rewrite Forall_forall in Hlen. apply Hlen. by eapply list_elem_of_lookup_2. }
  eexists _, _, _. split.
  { by apply (slide9_block_run df start_label num_rows i header_row). }
  split; [done|]. split; [done|]. split.
  { unfold Py.last4. rewrite length_fmap, !length_drop. lia. }
  intros pre h post -> Hpre Hfew Hlater.
  destruct (last4_data_pairs_split (columns df) pre post h (eq_sym Hl) Hpre Hfew)
    as (c & L1 & L2 & Hc & HL2 & ->).
  apply dict_get_placed; [done | done | by rewrite HL2].
Qed.

Lemma X11_slide9_block_content_witness :
  ∃ categories data_dict headers,
    Main._extract_data_block_slide9 sample_change "Type" 2
      = Ok (Some ((categories, data_dict), headers)) ∧
    headers = ["Jan"; "Feb"; "Mar"; "Apr"] ∧
    dict_get data_dict "Mar" = Some [CInt 3; CInt 7].
Proof.
  destruct (X11_slide9_block_content sample_change "Type" 2 0
              [CStr "Type"; CStr "Jan"; CStr "Feb"; CStr "Mar"; CStr "Apr"])
    as (categories & data_dict & headers & Hrun & _ & Hheaders & _ & Hdata).
  - exact sample_change_wf.
  - lia.
  - vm_compute. reflexivity.
  - lia.
  - reflexivity.
  - exists categories, data_dict, headers. split; [exact Hrun|].
    split; [exact Hheaders|].
    apply (Hdata [CStr "Type"; CStr "Jan"; CStr "Feb"] (CStr "Mar") [CStr "Apr"]).
    + reflexivity.
    + discriminate.
    + simpl. lia.
    + apply (bool_decide_unpack _). vm_compute. exact I.
Defined.

(** ** The slide-10 tables, continued *)

Lemma strip_first_cells_idemp df :
  strip_first_cells (strip_first_cells df) = strip_first_cells df.
Proof.
  unfold strip_first_cells. simpl. f_equal.
  rewrite <- list_fmap_compose. apply list_fmap_ext.
  intros _ [|c r] _; simpl; [done|]. by rewrite strip_idemp.
Qed.

Lemma table_for_title df table_title t :
  Main.table_for df table_title = Ok (Some t) → Main.t_title t = table_title.
Proof.
  unfold Main.table_for.
  destruct (list_find _ (rows df)) as [[start_index x]|]; [|done].
  destruct (list_find _ (drop start_index (rows df))) as [[k y]|]; [|done].
  destruct (Main.find_header_row df start_index (start_index + k)); [|done].
  intros H. bind_inv H. bind_inv H. by injection H as <-.
Qed.

Lemma tables_titles_sublist df titles :
  Main.t_title <$>
    omap (fun table_title =>
            match Main.table_for df table_title with
            | Ok (Some t) => Some t
            | _ => None
            end) titles
  `sublist_of` titles.
Proof.
  induction titles as [|table_title titles IH]; [constructor|].
  cbn [omap list_omap].
  destruct (Main.table_for df table_title) as [[t|]|e] eqn:E;
    [|by constructor..].
  cbn [fmap list_fmap]. rewrite (table_for_title _ _ _ E). by constructor.
Qed.

(** X12. On a frame whose first column is labelled 0 the slide-10
    extraction returns at most one table per target title, in the order of
    the titles; and since it leaves the first column stripped, extracting
    again from the frame it leaves gives the same frame and the same
    tables. *)
Theorem X12_slide10_repeatable (df : DataFrame) :
  head (columns df) = Some (LInt 0) →
  Main.t_title <$> (Main._extract_data_for_slide10 df).2
    `sublist_of` Main.target_table_titles ∧
  Main._extract_data_for_slide10 (Main._extract_data_for_slide10 df).1
  = Main._extract_data_for_slide10 df.
Proof.
  intros Hcol0. rewrite (extract_slide10_tables df Hcol0). cbn [fst snd].
  split; [apply tables_titles_sublist|].
  rewrite (extract_slide10_tables (strip_first_cells df) Hcol0).
  by rewrite strip_first_cells_idemp.
Qed.

Lemma X12_slide10_repeatable_witness :
  head (columns sample_services) = Some (LInt 0) ∧
  Main._extract_data_for_slide10 (Main._extract_data_for_slide10 sample_services).1
  = Main._extract_data_for_slide10 sample_services.
Proof.
  split; [reflexivity|].
  exact (proj2 (X12_slide10_repeatable sample_services eq_refl)).
Defined.

Lemma tables_loop_no_col0 df titles acc :
  LInt 0 ∉ columns df → Main.tables_loop df titles acc = (df, acc).
Proof.
  intros Hno.
  assert (Hstrip : Main.strip_col0 df = Raise KeyError).
  { unfold Main.strip_col0.
    destruct (Pandas.col_pos (columns df) (LInt 0)) as [p|] eqn:Hp; [|done].
    apply col_pos_lookup in Hp. exfalso. apply Hno. by eapply list_elem_of_lookup_2. }
  revert acc. induction titles as [|table_title titles IH]; intros acc; simpl; [done|].
  by rewrite Hstrip.
Qed.

(** X13. On a frame without a column labelled 0, such as a sheet read with
    its header row, the slide-10 extraction catches the [KeyError] of every
    title: it returns no table and leaves the frame as it is. *)
Theorem X13_slide10_without_column_0 (df : DataFrame) :
  LInt 0 ∉ columns df →
  Main._extract_data_for_slide10 df = (df, []).
Proof. intros Hno. by apply tables_loop_no_col0. Qed.

Lemma X13_slide10_without_column_0_witness :
  (LInt 0 ∉ columns sample_created) ∧
  Main._extract_data_for_slide10 sample_created = (sample_created, []).
Proof.
  assert (Hno : LInt 0 ∉ columns sample_created)
    by (apply (bool_decide_unpack _); vm_compute; exact I).
  split; [exact Hno|]. exact (X13_slide10_without_column_0 sample_created Hno).
Defined.

Lemma strip_first_cells_wf df : wf df → wf (strip_first_cells df).
Proof.
  intros [Hnd Hlen]. split; [done|]. simpl. apply Forall_fmap.
  eapply Forall_impl; [exact Hlen|]. intros [|c r]; done.
Qed.

Lemma length_last4_min {A} (l : list A) : length (Py.last4 l) = Nat.min 4 (length l).
Proof. unfold Py.last4. rewrite length_drop. lia. Qed.

(** X14. Every table that the slide-10 extraction returns from a
    rectangular frame is rectangular: with [w] the smaller of 4 and the
    number of columns, it has [w] week labels after its title and [w]
    numbers in every data row; and its last data row is the "Grand Total"
    row, so it has at least one. *)
Theorem X14_slide10_tables_rectangular (df : DataFrame) (t : Main.table10) :
  wf df → head (columns df) = Some (LInt 0) →
  t ∈ (Main._extract_data_for_slide10 df).2 →
  length (Main.t_headers t) = S (Nat.min 4 (length (columns df))) ∧
  Forall (fun d => length d.2 = Nat.min 4 (length (columns df))) (Main.t_data t) ∧
  ∃ numbers, last (Main.t_data t) = Some ("Grand Total", numbers).
Proof.
  intros Hwf Hcol0 Ht. rewrite (extract_slide10_tables df Hcol0) in Ht.
  cbn [snd] in Ht. apply list_elem_of_omap in Ht as (table_title & _ & Hsome).
  destruct (Main.table_for (strip_first_cells df) table_title) as [[t'|]|e] eqn:E;
    try done.
  injection Hsome as ->.
  apply (table_for_sentinel_block df Hwf Hcol0) in E
    as (start_index & end_index & header_row_index & header_row
        & _ & He & _ & Hlt & Hrow & _ & Hheaders & Hdata).
  pose proof (strip_first_cells_wf df Hwf) as [_ Hlen]. simpl in Hlen.
  rewrite Forall_forall in Hlen.
  split; [|split].
  - rewrite Hheaders. simpl. rewrite length_fmap, length_last4_min.
    rewrite (Hlen header_row); [done|]. by eapply list_elem_of_lookup_2.
  - apply Forall_forall. intros d Hd.
    apply list_elem_of_lookup_1 in Hd as [k Hk].
    destruct (Forall2_lookup_r _ _ _ _ _ Hdata Hk) as (row & Hin & _ & Hints).
    apply mapM_Ok_length in Hints. rewrite Hints, length_last4_min.
    rewrite (Hlen row); [done|].
    apply list_elem_of_lookup_2 in Hin.
    apply list_elem_of_filter in Hin as [_ Hin].
    by apply elem_of_take_drop in Hin.
  - destruct He as (_ & (end_row & Hend & Hgt) & _).
    assert (Hsplit : take (end_index - header_row_index)
                       (drop (S header_row_index) (rows (strip_first_cells df)))
                     = (take (end_index - header_row_index - 1)
                          (drop (S header_row_index) (rows (strip_first_cells df)))
                        ++ [end_row])%list).
    { replace (end_index - header_row_index)%nat
        with (S (end_index - header_row_index - 1)) at 1 by lia.
      apply take_S_r. rewrite lookup_drop.
      by replace (S header_row_index + (end_index - header_row_index - 1))%nat
        with end_index by lia. }
    assert (Htext : first_text end_row = "Grand Total").
    { unfold first_cell_is in Hgt. apply bool_decide_eq_true in Hgt.
      unfold first_text. rewrite Hgt. vm_compute. reflexivity. }
    rewrite Hsplit, filter_app, filter_cons_True, filter_nil in Hdata
      by (rewrite Htext; discriminate).
    apply Forall2_app_inv_l in Hdata as (ds & dl & _ & Hlast & Hdata_eq).
    inversion Hlast as [|? [ttl numbers] ? ? [Httl _] Hnil]; subst.
    inversion Hnil; subst. exists numbers. rewrite Hdata_eq, last_snoc.
    simpl in Httl. by rewrite Httl, Htext.
Qed.

Lemma X14_slide10_tables_rectangular_witness :
  wf sample_services ∧ head (columns sample_services) = Some (LInt 0) ∧
  length (Main.t_headers sample_services_table) = 5%nat ∧
  ∃ numbers, last (Main.t_data sample_services_table) = Some ("Grand Total", numbers).
Proof.
  split; [exact sample_services_wf|]. split; [reflexivity|].
  destruct (X14_slide10_tables_rectangular sample_services sample_services_table
              sample_services_wf eq_refl) as (Hh & _ & Hlast).
  - vm_compute. left.
  - split; [exact Hh | exact Hlast].
Defined.

(** ** The slide-6 table extractor, continued *)

Lemma iloc_row_beyond df i :
  Z.of_nat (length (rows df)) ≤ i → Pandas.iloc_row df i = Raise IndexError.
Proof.
  intros Hge. unfold Pandas.iloc_row, Py.index, Py.norm_index.
  destruct (i <? 0) eqn:E; [apply Z.ltb_lt in E; lia|].
  destruct (i <? Z.of_nat (length (rows df))) eqn:E2;
    [apply Z.ltb_lt in E2; lia|].
  by rewrite andb_false_r.
Qed.

(** X17. How the slide-6 table extractor ends on a rectangular frame, for a
    header row index that is not negative: with [IndexError] when the frame
    has no row at that index (a sheet too short for the second table) or no
    column; with [KeyError] when the header cell of the first column is one
    of the last four week labels; and with a table whose headers are the
    last four week labels (fewer when the row has fewer) otherwise. *)
Theorem X17_slide6_outcome (df : DataFrame) (title_text : string)
    (header_row_idx num_data_rows : Z) :
  wf df → 0 ≤ header_row_idx →
  (Z.of_nat (length (rows df)) ≤ header_row_idx →
     Main._extract_slide6_table_data df title_text header_row_idx num_data_rows
       = Raise IndexError) ∧
  (∀ header_row,
     rows df !! Z.to_nat header_row_idx = Some header_row →
     (columns df = [] →
        Main._extract_slide6_table_data df title_text header_row_idx num_data_rows
          = Raise IndexError) ∧
     (∀ h0, head header_row = Some h0 →
        (h0 ∈ Py.last4 (filter (fun c => is_week c) header_row) →
           Main._extract_slide6_table_data df title_text header_row_idx num_data_rows
             = Raise KeyError) ∧
        (h0 ∉ Py.last4 (filter (fun c => is_week c) header_row) →
           ∃ t, Main._extract_slide6_table_data df title_text header_row_idx
                  num_data_rows = Ok t ∧
                headers t = Py.last4 (filter (fun c => is_week c) header_row)))).
Proof.
  intros Hwf Hidx. split.
  { intros Hge. unfold Main._extract_slide6_table_data.
    by rewrite iloc_row_beyond. }
  intros header_row Hrow. destruct Hwf as [Hnd Hlen].
  assert (Hhl : length header_row = length (columns df)).
  { rewrite Forall_forall in Hlen. apply Hlen. by eapply list_elem_of_lookup_2. }
  pose proof (last4_weeks_are_weeks header_row) as HL.
  unfold Main._extract_slide6_table_data.
  rewrite (iloc_row_lookup df header_row_idx header_row Hidx Hrow).
  cbn [mbind result_bind].
  rewrite (header_items_zip df header_row Hnd Hhl). cbn [mbind result_bind].
  split.
  - intros Hcols. rewrite Hcols. by destruct header_row.
  - intros h0 Hh0. destruct header_row as [|h0' hr']; [done|].
    injection Hh0 as ->.
    destruct (columns df) as [|c0 cols'] eqn:Hcols; [done|].
    apply NoDup_cons in Hnd as [Hc0 Hnd'].
    rewrite week_filter_zip by done.
    set (L := Py.last4 (filter (fun c => is_week c) (h0 :: hr'))) in *.
    change (zip (c0 :: cols') (h0 :: hr')) with ((c0, h0) :: zip cols' hr').
    cbn [Pandas.set_index_first mbind result_bind Pandas.fr_columns Pandas.fr_rows
         Pandas.fr_index].
    split.
    + intros Hin. rewrite filter_cons_True
        by (simpl; apply Is_true_true; by apply cell_in_elem_of).
      cbn [mapM mbind result_bind fst snd].
      by rewrite column_values_missing.
    + intros Hnin. rewrite filter_cons_False.
      2:{ simpl. intros Hc%Is_true_true. by apply cell_in_elem_of in Hc. }
      rewrite slide6_entries.
      * cbn. eauto.
      * done.
      * intros [c h] [_ Hin]%list_elem_of_filter. simpl.
        apply list_elem_of_lookup_1 in Hin as [k Hk].
        apply lookup_zip_with_Some in Hk as (c' & h' & [= -> ->] & Hc' & _).
        by eapply list_elem_of_lookup_2.
Qed.

Lemma X17_slide6_outcome_witness :
  wf sample_volumetric ∧
  Main._extract_slide6_table_data sample_volumetric "RITM" 8 5 = Raise IndexError ∧
  Main._extract_slide6_table_data sample_weeks_only "INC" 0 5 = Raise KeyError.
Proof.
  assert (Hwf1 : wf sample_volumetric)
    by (apply (bool_decide_unpack _); vm_compute; exact I).
  assert (Hwf2 : wf sample_weeks_only)
    by (apply (bool_decide_unpack _); vm_compute; exact I).
  split; [exact Hwf1|]. split.
  - apply (X17_slide6_outcome sample_volumetric "RITM" 8 5 Hwf1); simpl; lia.
  - destruct (X17_slide6_outcome sample_weeks_only "INC" 0 5 Hwf2) as [_ Hrow]; [lia|].
    destruct (Hrow [CStr "Week 21"; CStr "Week 22"; CStr "Week 23"; CStr "Week 24"]
                eq_refl) as [_ Hhead].
    destruct (Hhead (CStr "Week 21") eq_refl) as [Hkey _].
    apply Hkey. apply (bool_decide_unpack _). vm_compute. exact I.
Defined.

(** ** Which columns each pipeline selects *)















